(** * Session lifecycle of [venv/main.py]: a shallow embedding

    The development follows the four functions of the session core,
    [can_set_session_cookies], [create_session], [cleanup_expired_sessions]
    and [validate_session], over an explicit model of the [user_sessions]
    table, of the [sqlite3] connection (working copy, commit, rollback,
    close) and of the two clocks the program reads: Python's
    [datetime.now()] and SQLite's [datetime('now')]. *)

From Stdlib Require Import ZArith String Ascii List Bool Lia.
From stdpp Require Import base tactics option list strings gmap.

Local Open Scope string_scope.
Local Open Scope list_scope.
Local Open Scope Z_scope.

(** ** Python strings *)

Module PyStr.

(** [s.split(sep)] for a one-character separator: the pieces between the
    occurrences of [sep], in order; never the empty list. *)
Fixpoint split (sep : ascii) (s : string) : list string :=
  match s with
  | EmptyString => [EmptyString]
  | String c rest =>
      if Ascii.eqb c sep then EmptyString :: split sep rest
      else match split sep rest with
           | w :: ws => String c w :: ws
           | [] => [String c EmptyString]
           end
  end.

(** [s.startswith(p)] *)
Definition startswith (s p : string) : bool := String.prefix p s.

(** [s[:n]] *)
Definition slice_to (n : nat) (s : string) : string := String.substring 0 n s.

(** [not s]: the empty string is the only falsy string. *)
Definition falsy (s : string) : bool := String.eqb s "".

(** [s[n:]] *)
Fixpoint slice_from (n : nat) (s : string) : string :=
  match n, s with
  | O, _ => s
  | S n', String _ rest => slice_from n' rest
  | S _, EmptyString => EmptyString
  end.

(** The text of [s] before its first [":"]; all of [s] when it has none. *)
Fixpoint before_colon (s : string) : string :=
  match s with
  | EmptyString => EmptyString
  | String c rest =>
      if Ascii.eqb c ":" then EmptyString else String c (before_colon rest)
  end.

(** The character of a decimal digit, and its value back. *)
Definition digit_char (d : Z) : ascii := ascii_of_nat (48 + Z.to_nat d).

(** ["%0<w>d" % n] for [0 <= n < 10^w]. *)
Fixpoint zfill (w : nat) (n : Z) : string :=
  match w with
  | O => EmptyString
  | S w' => zfill w' (n / 10) +:+ String (digit_char (n mod 10)) EmptyString
  end.

Definition digit_val (c : ascii) : option Z :=
  let n := Z.of_nat (nat_of_ascii c) in
  if (48 <=? n) && (n <=? 57) then Some (n - 48) else None.

(** [int(s)] for a non-empty run of ASCII digits; [None] is [ValueError]. *)
Fixpoint digits_from (acc : Z) (s : string) : option Z :=
  match s with
  | EmptyString => Some acc
  | String c rest =>
      match digit_val c with
      | Some d => digits_from (acc * 10 + d) rest
      | None => None
      end
  end.

Definition parse_digits (s : string) : option Z :=
  match s with
  | EmptyString => None
  | _ => digits_from 0 s
  end.

End PyStr.

(** ** Python's [datetime] and [timedelta]

    A naive [datetime] is its seven fields, as in CPython; ordering is the
    lexicographic order of the fields; adding a [timedelta] goes through the
    proleptic Gregorian ordinal and raises [OverflowError] outside the years
    1..9999. *)

Module PyDatetime.

Record datetime := mk_datetime {
  year : Z; month : Z; day : Z;
  hour : Z; minute : Z; second : Z; microsecond : Z
}.

Record timedelta := mk_timedelta {
  td_days : Z; td_seconds : Z; td_microseconds : Z
}.

(** [timedelta(days=d, minutes=m)], normalised. *)
Definition timedelta_of (d m : Z) : timedelta :=
  let secs := m * 60 in
  {| td_days := d + secs / 86400;
     td_seconds := secs mod 86400;
     td_microseconds := 0 |}.

Definition is_leap (y : Z) : bool :=
  (y mod 4 =? 0) && (negb (y mod 100 =? 0) || (y mod 400 =? 0)).

Definition days_in_month_table : list Z :=
  [31; 28; 31; 30; 31; 30; 31; 31; 30; 31; 30; 31].

Definition days_before_month_table : list Z :=
  [0; 31; 59; 90; 120; 151; 181; 212; 243; 273; 304; 334].

Definition days_in_month (y m : Z) : Z :=
  if (m =? 2) && is_leap y then 29
  else nth (Z.to_nat (m - 1)) days_in_month_table 0.

Definition days_before_month (y m : Z) : Z :=
  nth (Z.to_nat (m - 1)) days_before_month_table 0
  + (if (2 <? m) && is_leap y then 1 else 0).

Definition days_before_year (y : Z) : Z :=
  let p := y - 1 in p * 365 + p / 4 - p / 100 + p / 400.

Definition ymd2ord (y m d : Z) : Z :=
  days_before_year y + days_before_month y m + d.

Definition DI400Y : Z := 146097.
Definition DI100Y : Z := 36524.
Definition DI4Y : Z := 1461.
Definition MAXORDINAL : Z := 3652059.

(** Month and day of the [n]-th day (from 0) of a year: the month is
    estimated as [(n + 50) >> 5] and corrected when the estimate is one too
    high. *)
Definition month_day (leapyear : bool) (n : Z) : Z * Z :=
  let m := Z.shiftr (n + 50) 5 in
  let preceding :=
    nth (Z.to_nat (m - 1)) days_before_month_table 0
    + (if (2 <? m) && leapyear then 1 else 0) in
  if n <? preceding then
    let m' := m - 1 in
    let preceding' :=
      preceding
      - (nth (Z.to_nat (m' - 1)) days_in_month_table 0
         + (if (m' =? 2) && leapyear then 1 else 0)) in
    (m', n - preceding' + 1)
  else (m, n - preceding + 1).

(** The check that [month_day] returns a month in 1..12 and a day of that
    month. *)
Definition month_day_ok (leapyear : bool) (n : Z) : bool :=
  let '(m, d) := month_day leapyear n in
  (1 <=? m) && (m <=? 12) && (1 <=? d)
  && (d <=? (if (m =? 2) && leapyear then 29
             else nth (Z.to_nat (m - 1)) days_in_month_table 0)).

Definition ord2ymd (ordinal : Z) : Z * Z * Z :=
  let n := ordinal - 1 in
  let n400 := n / DI400Y in
  let n := n mod DI400Y in
  let n100 := n / DI100Y in
  let n := n mod DI100Y in
  let n4 := n / DI4Y in
  let n := n mod DI4Y in
  let n1 := n / 365 in
  let n := n mod 365 in
  let y := n400 * 400 + 1 + n100 * 100 + n4 * 4 + n1 in
  if (n1 =? 4) || (n100 =? 4) then (y - 1, 12, 31)
  else
    let leapyear := (n1 =? 3) && (negb (n4 =? 24) || (n100 =? 3)) in
    let '(m, d) := month_day leapyear n in
    (y, m, d).

Definition toordinal (t : datetime) : Z := ymd2ord (year t) (month t) (day t).

Definition US_PER_DAY : Z := 86400 * 1000000.

(** [t + delta]; [None] is [OverflowError("result out of range")]. *)
Definition add (t : datetime) (delta : timedelta) : option datetime :=
  let total :=
    (((toordinal t * 24 + hour t) * 60 + minute t) * 60 + second t) * 1000000
    + microsecond t
    + ((td_days delta * 86400 + td_seconds delta) * 1000000
       + td_microseconds delta) in
  let days := total / US_PER_DAY in
  let rest := total mod US_PER_DAY in
  let secs := rest / 1000000 in
  if (0 <? days) && (days <=? MAXORDINAL) then
    let '(y, m, d) := ord2ymd days in
    Some {| year := y; month := m; day := d;
            hour := secs / 3600; minute := (secs mod 3600) / 60;
            second := secs mod 60; microsecond := rest mod 1000000 |}
  else None.

Definition fields (t : datetime) : list Z :=
  [year t; month t; day t; hour t; minute t; second t; microsecond t].

Fixpoint lex_compare (a b : list Z) : comparison :=
  match a, b with
  | x :: a', y :: b' =>
      match x ?= y with
      | Eq => lex_compare a' b'
      | c => c
      end
  | [], [] => Eq
  | [], _ :: _ => Lt
  | _ :: _, [] => Gt
  end.

Definition compare (a b : datetime) : comparison :=
  lex_compare (fields a) (fields b).

(** [a > b] *)
Definition gtb (a b : datetime) : bool :=
  match compare a b with Gt => true | _ => false end.

(** [a < b] *)
Definition ltb (a b : datetime) : bool :=
  match compare a b with Lt => true | _ => false end.

(** [a <= b] *)
Definition leb (a b : datetime) : bool :=
  match compare a b with Gt => false | _ => true end.

(** Order of the calendar dates alone. *)
Definition date_of (t : datetime) : list Z := [year t; month t; day t].

Definition date_ltb (a b : datetime) : bool :=
  match lex_compare (date_of a) (date_of b) with Lt => true | _ => false end.

(** The range check of the [datetime] constructor. *)
Definition valid (t : datetime) : bool :=
  (1 <=? year t) && (year t <=? 9999)
  && (1 <=? month t) && (month t <=? 12)
  && (1 <=? day t) && (day t <=? days_in_month (year t) (month t))
  && (0 <=? hour t) && (hour t <? 24)
  && (0 <=? minute t) && (minute t <? 60)
  && (0 <=? second t) && (second t <? 60)
  && (0 <=? microsecond t) && (microsecond t <? 1000000).

(** [t.isoformat()] of a naive datetime: ['T'] between date and time, the
    fraction only when [microsecond] is not zero. *)
Definition isoformat (t : datetime) : string :=
  PyStr.zfill 4 (year t) +:+ "-" +:+ PyStr.zfill 2 (month t) +:+ "-"
  +:+ PyStr.zfill 2 (day t) +:+ "T" +:+ PyStr.zfill 2 (hour t) +:+ ":"
  +:+ PyStr.zfill 2 (minute t) +:+ ":" +:+ PyStr.zfill 2 (second t)
  +:+ (if microsecond t =? 0 then "" else "." +:+ PyStr.zfill 6 (microsecond t)).

Definition char_at (i : nat) (s : string) (c : ascii) : bool :=
  match String.get i s with
  | Some c' => Ascii.eqb c' c
  | None => false
  end.

Definition iso_layout (s : string) : bool :=
  let n := String.length s in
  (Nat.eqb n 19 || Nat.eqb n 26)
  && char_at 4 s "-" && char_at 7 s "-" && char_at 10 s "T"
  && char_at 13 s ":" && char_at 16 s ":"
  && (Nat.eqb n 19 || char_at 19 s ".").

(** [datetime.fromisoformat(s)] on the two layouts [isoformat] writes for a
    naive datetime, [YYYY-MM-DDTHH:MM:SS] and [YYYY-MM-DDTHH:MM:SS.ffffff];
    [None] is [ValueError].  CPython also reads further ISO 8601 layouts;
    the program stores [isoformat] text only. *)
Definition fromisoformat (s : string) : option datetime :=
  if iso_layout s then
    let field a n := PyStr.parse_digits (String.substring a n s) in
    y ← field 0%nat 4%nat; mo ← field 5%nat 2%nat; d ← field 8%nat 2%nat;
    h ← field 11%nat 2%nat; mi ← field 14%nat 2%nat; sec ← field 17%nat 2%nat;
    us ← (if Nat.eqb (String.length s) 19 then Some 0
          else field 20%nat 6%nat);
    let t := {| year := y; month := mo; day := d; hour := h;
                minute := mi; second := sec; microsecond := us |} in
    if valid t then Some t else None
  else None.

End PyDatetime.

Import PyDatetime.

Arguments PyDatetime.add : simpl never.
Arguments PyDatetime.isoformat : simpl never.
Arguments PyDatetime.fromisoformat : simpl never.
Arguments PyDatetime.compare : simpl never.
Arguments PyDatetime.valid : simpl never.
Arguments PyDatetime.timedelta_of : simpl never.
Arguments PyStr.zfill : simpl never.
Arguments PyStr.slice_to : simpl never.

(** ** Exceptions and call outcomes *)

Inductive exn :=
| OverflowError    (* datetime out of range, or an int too large for SQLite *)
| ValueError       (* fromisoformat on text it cannot read *)
| IntegrityError   (* PRIMARY KEY or UNIQUE constraint failed *)
| OperationalError (* the database cannot be opened, is locked, is full *)
| UnicodeEncodeError.   (* str.encode on a character the codec lacks *)

Inductive outcome (A : Type) :=
| Returns (a : A)
| Raises (e : exn).
Arguments Returns {A} a.
Arguments Raises {A} e.

(** ** The request, as far as the session core reads it *)

Record Request := mk_request {
  cookies : gmap string string;   (* request.cookies *)
  client : option string;         (* request.client.host, when request.client is set *)
  headers : gmap string string    (* request.headers, names in lower case *)
}.

(** ** The [user_sessions] table

    One record per row, one field per column of [init_tables].  The three
    DATETIME columns hold TEXT: [expires_at] the [isoformat()] text the
    program binds, [created_at] and [last_activity] what SQLite's
    CURRENT_TIMESTAMP and [datetime('now')] produce. *)

Record session := mk_session {
  session_id : string;      (* TEXT PRIMARY KEY *)
  user_id : Z;              (* INTEGER NOT NULL *)
  user_login : string;
  email : string;
  access_token : string;    (* TEXT NOT NULL UNIQUE *)
  created_at : string;
  last_activity : string;
  expires_at : string;
  ip_address : string;
  user_agent : string;
  remember_me : bool
}.

Abbreviation table := (list session).

(** ** SQLite: text order, clock, connection and transaction *)

Module Sqlite.

(** [a < b] on two TEXT values under the BINARY collation: byte order. *)
Definition text_lt (a b : string) : bool := String.ltb a b.

(** The text of [datetime('now')] and CURRENT_TIMESTAMP when the UTC clock
    reads [t]: [YYYY-MM-DD HH:MM:SS], a space between date and time, no
    fraction. *)
Definition datetime_text (t : datetime) : string :=
  PyStr.zfill 4 (year t) +:+ "-" +:+ PyStr.zfill 2 (month t) +:+ "-"
  +:+ PyStr.zfill 2 (day t) +:+ " " +:+ PyStr.zfill 2 (hour t) +:+ ":"
  +:+ PyStr.zfill 2 (minute t) +:+ ":" +:+ PyStr.zfill 2 (second t).

(** A Python int binds to an SQLite INTEGER only within 64 bits. *)
Definition fits_int64 (n : Z) : bool :=
  (- 2 ^ 63 <=? n) && (n <? 2 ^ 63).

(** A connection opened by [get_db]: the table as last committed and the
    view of the open transaction. *)
Record connection := mk_connection {
  committed : table;
  working : table
}.

(** A statement run on a connection either returns or raises, and leaves
    the connection in a new state in both cases. *)
Definition Tx (A : Type) : Type := connection → (exn + A) * connection.

Definition ret {A} (a : A) : Tx A := λ c, (inr a, c).
Definition raise {A} (e : exn) : Tx A := λ c, (inl e, c).
Definition bind {A B} (m : Tx A) (k : A → Tx B) : Tx B :=
  λ c, match m c with
       | (inr a, c') => k a c'
       | (inl e, c') => (inl e, c')
       end.

(** [conn.commit()], [conn.rollback()], [conn.close()]: closing drops
    whatever the open transaction has not committed.  These are the calls
    as SQLite carries them out; that the medium fails one of them is
    modelled by [guarded] further down. *)
Definition commit : Tx unit :=
  λ c, (inr tt, {| committed := working c; working := working c |}).
Definition rollback (c : connection) : connection :=
  {| committed := committed c; working := committed c |}.
Definition close (c : connection) : table := committed c.

(** [DELETE FROM user_sessions WHERE p]; the result is [cursor.rowcount]. *)
Definition delete_where (p : session → bool) : Tx Z :=
  λ c, (inr (Z.of_nat (length (filter (λ r, p r = true) (working c)))),
        {| committed := committed c;
           working := filter (λ r, p r ≠ true) (working c) |}).

(** [UPDATE user_sessions SET ... WHERE p], [f] being the SET clause. *)
Definition update_where (p : session → bool) (f : session → session) : Tx unit :=
  λ c, (inr tt,
        {| committed := committed c;
           working := (λ r, if p r then f r else r) <$> working c |}).

(** [SELECT ... WHERE p] followed by [cursor.fetchone()]. *)
Definition select_one (p : session → bool) : Tx (option session) :=
  λ c, (inr (List.find p (working c)), c).

(** [INSERT INTO user_sessions ...]: the PRIMARY KEY on [session_id] and
    the UNIQUE constraint on [access_token] are checked against the rows
    in place. *)
Definition insert (row : session) : Tx unit :=
  λ c, if existsb (λ r, String.eqb (session_id r) (session_id row)
                        || String.eqb (access_token r) (access_token row))
                  (working c)
       then (inl IntegrityError, c)
       else (inr tt, {| committed := committed c;
                        working := working c ++ [row] |}).

(** Binding a Python int as a statement parameter. *)
Definition bind_int (n : Z) : Tx unit :=
  if fits_int64 n then ret tt else raise OverflowError.

End Sqlite.

Import Sqlite.

Arguments Sqlite.datetime_text : simpl never.
Arguments Sqlite.text_lt : simpl never.
Arguments Sqlite.fits_int64 : simpl never.

#[global] Instance Tx_ret : MRet Tx := @Sqlite.ret.
#[global] Instance Tx_bind : MBind Tx := λ A B k m, Sqlite.bind m k.

(** [get_db()], [sqlite3.connect] having succeeded: a fresh connection on
    the stored table.  [connect] further down is the call on a medium that
    can refuse it. *)
Definition get_db (db : table) : connection :=
  {| committed := db; working := db |}.

(** ** What a call reads from its surroundings

    Random tokens and clock readings are inputs of the model: the two
    values of [secrets.token_urlsafe], the successive readings of
    [datetime.now()] (naive local time) within one call, and the UTC time
    SQLite sees for [datetime('now')] and CURRENT_TIMESTAMP. *)

Record ambient := mk_ambient {
  token_urlsafe_32 : string;
  token_urlsafe_48 : string;
  now0 : datetime;        (* first datetime.now() of the call *)
  now1 : datetime;        (* second datetime.now() of the call *)
  sqlite_now : datetime   (* SQLite's 'now', UTC *)
}.

(** ** [can_set_session_cookies] *)

Definition can_set_session_cookies (request : Request) : bool :=
  let cookies_accepted := default "false" (cookies request !! "cookies_accepted") in
  if String.eqb cookies_accepted "true" then true
  else if PyStr.startswith cookies_accepted "selected:" then
    match PyStr.split ":" cookies_accepted !! 1%nat with
    | Some types => bool_decide ("session" ∈ PyStr.split "," types)
    | None => false   (* IndexError; cannot happen after "selected:" *)
    end
  else false.

(** The gate in the words of the specification: true iff the preference
    is exactly ["true"], or is ["selected:"] followed by a comma-separated
    list of categories that contains ["session"]. *)
Definition MayIssueSessionCookie_spec (preference : string) : bool :=
  String.eqb preference "true"
  || (PyStr.startswith preference "selected:"
      && bool_decide ("session" ∈ PyStr.split "," (PyStr.slice_from 9 preference))).

(** ** [create_session]

    Returns [(session_id, access_token, max_age)] and the table afterwards.
    The unused [password] parameter is left out. *)

(** The row of the INSERT; [created_at] and [last_activity] take their
    DEFAULT CURRENT_TIMESTAMP. *)
Definition new_row (sid : string) (uid : Z) (login mail token expires : string)
    (ip agent : string) (remember : bool) (a : ambient) : session :=
  {| session_id := sid; user_id := uid; user_login := login;
     email := mail; access_token := token;
     created_at := datetime_text (sqlite_now a);
     last_activity := datetime_text (sqlite_now a);
     expires_at := expires; ip_address := ip;
     user_agent := agent; remember_me := remember |}.

(** The body of the [try] block: both statements bind [user_id]. *)
Definition create_session_tx (row : session) : Tx unit :=
  bind_int (user_id row) ;;
  _ ← delete_where (λ r, user_id r =? user_id row);
  bind_int (user_id row) ;;
  insert row ;;
  commit.

Definition create_session (uid : Z) (login mail : string)
    (request : Request) (remember : bool) (a : ambient) (db : table)
  : outcome (option string * option string * Z) * table :=
  if negb (can_set_session_cookies request) then
    (Returns (None, None, 0), db)
  else
    let sid := token_urlsafe_32 a in
    let token := token_urlsafe_48 a in
    let '(session_duration, max_age) :=
      if remember then (timedelta_of 7 0, 7 * 24 * 60 * 60)
      else (timedelta_of 0 60, 30 * 60) in
    match add (now0 a) session_duration with
    | None => (Raises OverflowError, db)
    | Some expires =>
        let ip := default "unknown" (client request) in
        let agent :=
          PyStr.slice_to 500 (default "" (headers request !! "user-agent")) in
        let conn := get_db db in
        match create_session_tx
                (new_row sid uid login mail token (isoformat expires)
                   ip agent remember a)
                conn with
        | (inr _, conn) => (Returns (Some sid, Some token, max_age), close conn)
        | (inl _, conn) => (Returns (None, None, 0), close (rollback conn))
        end
    end.

(** ** [create_session] on a medium that can fail

    Every call into [sqlite3] can raise [OperationalError]: the file
    cannot be opened, the database is locked, the disk is full.  Which
    calls of one run do is an input of the model, like the clock.
    [create_session] above is the run on a medium where none does. *)

Record faults := mk_faults {
  connect_fails : bool;         (* sqlite3.connect, in get_db *)
  execute_fails : nat → bool;   (* the n-th cursor.execute of the call *)
  commit_fails : bool;          (* conn.commit *)
  rollback_fails : bool         (* conn.rollback *)
}.

Definition no_faults : faults :=
  {| connect_fails := false; execute_fails := λ _, false;
     commit_fails := false; rollback_fails := false |}.

(** A call into [sqlite3] that the medium may fail. *)
Definition guarded {A} (fails : bool) (m : Tx A) : Tx A :=
  if fails then raise OperationalError else m.

(** [get_db()] on such a medium. *)
Definition connect (f : faults) (db : table) : outcome connection :=
  if connect_fails f then Raises OperationalError else Returns (get_db db).

(** The body of the [try] block: two [execute] calls and the commit. *)
Definition create_session_tx_on (f : faults) (row : session) : Tx unit :=
  guarded (execute_fails f 0)
    (bind_int (user_id row) ;;
     _ ← delete_where (λ r, user_id r =? user_id row);
     ret tt) ;;
  guarded (execute_fails f 1) (bind_int (user_id row) ;; insert row) ;;
  guarded (commit_fails f) commit.

(** [get_db()] stands before the [try] block: an exception of
    [sqlite3.connect] leaves [create_session].  So does one of
    [conn.rollback()] in the [except] branch; [conn.close()] in the
    [finally] branch has run by then. *)
Definition create_session_on (f : faults) (uid : Z) (login mail : string)
    (request : Request) (remember : bool) (a : ambient) (db : table)
  : outcome (option string * option string * Z) * table :=
  if negb (can_set_session_cookies request) then
    (Returns (None, None, 0), db)
  else
    let sid := token_urlsafe_32 a in
    let token := token_urlsafe_48 a in
    let '(session_duration, max_age) :=
      if remember then (timedelta_of 7 0, 7 * 24 * 60 * 60)
      else (timedelta_of 0 60, 30 * 60) in
    match add (now0 a) session_duration with
    | None => (Raises OverflowError, db)
    | Some expires =>
        let ip := default "unknown" (client request) in
        let agent :=
          PyStr.slice_to 500 (default "" (headers request !! "user-agent")) in
        match connect f db with
        | Raises e => (Raises e, db)
        | Returns conn =>
            match create_session_tx_on f
                    (new_row sid uid login mail token (isoformat expires)
                       ip agent remember a)
                    conn with
            | (inr _, conn) =>
                (Returns (Some sid, Some token, max_age), close conn)
            | (inl _, conn) =>
                if rollback_fails f then (Raises OperationalError, close conn)
                else (Returns (None, None, 0), close (rollback conn))
            end
        end
    end.

(** ** [cleanup_expired_sessions]

    Returns [deleted_count] and the table afterwards.  The two COUNT
    queries after the commit only feed the log. *)

Definition cleanup_expired_sessions (a : ambient) (db : table) : Z * table :=
  let conn := get_db db in
  match (deleted_count ← delete_where
           (λ r, text_lt (expires_at r) (datetime_text (sqlite_now a)));
         commit ;;
         ret deleted_count) conn with
  | (inr deleted_count, conn) => (deleted_count, close conn)
  | (inl _, conn) => (0, close (rollback conn))
  end.

(** ** [validate_session]

    Returns the answer and the table afterwards.  The callers pass cookie
    values; an absent cookie is [None], which [not] treats like the empty
    string, so the model takes strings. *)

(** The dictionary [validate_session] returns: ["valid": False] with a
    reason and, for an expired remember-me session, the keys ["email"] and
    ["remember_me"]; or ["valid": True] with the session's data. *)
Inductive validation :=
| Invalid (reason : string) (autologin : option (string * bool))
| Valid (uid : Z) (login mail : string) (remember : bool) (expires : datetime).

Definition lift_option {A} (e : exn) (o : option A) : Tx A :=
  match o with
  | Some x => ret x
  | None => raise e
  end.

(** [SET last_activity = v] and [SET expires_at = v]. *)
Definition set_last_activity (v : string) (r : session) : session :=
  {| session_id := session_id r; user_id := user_id r;
     user_login := user_login r; email := email r;
     access_token := access_token r; created_at := created_at r;
     last_activity := v;
     expires_at := expires_at r; ip_address := ip_address r;
     user_agent := user_agent r; remember_me := remember_me r |}.

Definition set_expires_at (v : string) (r : session) : session :=
  {| session_id := session_id r; user_id := user_id r;
     user_login := user_login r; email := email r;
     access_token := access_token r; created_at := created_at r;
     last_activity := last_activity r;
     expires_at := v; ip_address := ip_address r;
     user_agent := user_agent r; remember_me := remember_me r |}.

(** [WHERE session_id = ?] and [WHERE session_id = ? AND access_token = ?]. *)
Definition has_id (sid : string) (r : session) : bool :=
  String.eqb (session_id r) sid.

Definition has_pair (sid token : string) (r : session) : bool :=
  String.eqb (session_id r) sid && String.eqb (access_token r) token.

(** The body of the [try] block. *)
Definition validate_session_tx (sid token : string) (prolong : bool)
    (a : ambient) : Tx validation :=
  result ← select_one (has_pair sid token);
  match result with
  | None => ret (Invalid "session_not_found" None)
  | Some result =>
      let expires_at_str := expires_at result in
      let remember := remember_me result in
      expires ← lift_option ValueError (fromisoformat expires_at_str);
      if gtb (now0 a) expires then
        _ ← delete_where (has_id sid);
        commit ;;
        if remember then
          ret (Invalid "session_expired" (Some (email result, true)))
        else
          ret (Invalid "session_expired" None)
      else
        update_where (has_id sid)
          (set_last_activity (datetime_text (sqlite_now a))) ;;
        (if prolong && negb remember then
           new_expires ← lift_option OverflowError
                           (add (now1 a) (timedelta_of 0 30));
           update_where (has_id sid) (set_expires_at (isoformat new_expires))
         else ret tt) ;;
        commit ;;
        ret (Valid (user_id result) (user_login result) (email result)
               remember expires)
  end.

Definition validate_session (sid token : string) (prolong : bool)
    (a : ambient) (db : table) : validation * table :=
  if PyStr.falsy sid || PyStr.falsy token then
    (Invalid "no_session" None, db)
  else
    let conn := get_db db in
    match validate_session_tx sid token prolong a conn with
    | (inr answer, conn) => (answer, close conn)
    | (inl _, conn) => (Invalid "error" None, close conn)
    end.

(** The rows [DELETE ... WHERE user_id = ?] leaves in place. *)
Definition other_users (uid : Z) (db : table) : table :=
  filter (λ r, (user_id r =? uid) ≠ true) db.

(** A row already in place that the INSERT of [row] collides with. *)
Definition collides (row r : session) : bool :=
  String.eqb (session_id r) (session_id row)
  || String.eqb (access_token r) (access_token row).

(** ** Sequences of [create_session] calls *)

Record create_call := mk_create_call {
  call_user_id : Z;
  call_user_login : string;
  call_email : string;
  call_request : Request;
  call_remember_me : bool;
  call_ambient : ambient
}.

Definition run_create (c : create_call) (db : table)
  : outcome (option string * option string * Z) * table :=
  create_session (call_user_id c) (call_user_login c) (call_email c)
    (call_request c) (call_remember_me c) (call_ambient c) db.

(** The table after a sequence of calls, each run on what the previous one
    left. *)
Definition run_creates (cs : list create_call) (db : table) : table :=
  fold_left (λ t c, snd (run_create c t)) cs db.

(** The row [create_session] binds to its INSERT when the expiry it
    computed is [expires]. *)
Definition inserted_row (uid : Z) (login mail : string) (request : Request)
    (remember : bool) (a : ambient) (expires : datetime) : session :=
  new_row (token_urlsafe_32 a) uid login mail (token_urlsafe_48 a)
    (isoformat expires)
    (default "unknown" (client request))
    (PyStr.slice_to 500 (default "" (headers request !! "user-agent")))
    remember a.

(** [timedelta(days=7)] and [timedelta(minutes=60)]. *)
Definition session_duration (remember : bool) : timedelta :=
  if remember then timedelta_of 7 0 else timedelta_of 0 60.

(** The tables the statements of [validate_session] leave: after
    [DELETE ... WHERE session_id = ?], after
    [UPDATE ... SET last_activity = datetime('now') WHERE session_id = ?] and
    after [UPDATE ... SET expires_at = ? WHERE session_id = ?]. *)
Definition without_id (sid : string) (db : table) : table :=
  filter (λ r, has_id sid r ≠ true) db.

Definition touched (sid : string) (a : ambient) (db : table) : table :=
  (λ r, if has_id sid r
        then set_last_activity (datetime_text (sqlite_now a)) r else r) <$> db.

Definition renewed (sid v : string) (db : table) : table :=
  (λ r, if has_id sid r then set_expires_at v r else r) <$> db.

(** The stored session with a given id. *)
Definition row_of (sid : string) (db : table) : option session :=
  List.find (has_id sid) db.

(** The table after [validate_session] was called once in each of the
    surroundings [ambs], in order, with the same arguments. *)
Definition validate_repeatedly (sid token : string) (prolong : bool)
    (ambs : list ambient) (db : table) : table :=
  fold_left (λ t a, snd (validate_session sid token prolong a t)) ambs db.

(** What one valid [validate_session] call may change in a row: nothing
    in a row of another session; in the row of session [sid], the column
    [last_activity], and [expires_at] only under [prolong] without
    remember-me. *)
Definition validate_frame (sid : string) (prolong : bool) (a : ambient)
    (old new : session) : Prop :=
  session_id new = session_id old ∧ user_id new = user_id old
  ∧ user_login new = user_login old ∧ email new = email old
  ∧ access_token new = access_token old ∧ created_at new = created_at old
  ∧ ip_address new = ip_address old ∧ user_agent new = user_agent old
  ∧ remember_me new = remember_me old
  ∧ (session_id old ≠ sid → new = old)
  ∧ (session_id old = sid →
     last_activity new = datetime_text (sqlite_now a))
  ∧ (expires_at new ≠ expires_at old →
     session_id old = sid ∧ prolong = true ∧ remember_me old = false).

(** ** [logout], as far as it touches the table

    With a non-empty [session_id] cookie: DELETE of that session, commit. *)
Definition logout (request : Request) (db : table) : table :=
  match cookies request !! "session_id" with
  | Some sid =>
      if PyStr.falsy sid then db
      else
        match (_ ← delete_where (has_id sid); commit) (get_db db) with
        | (inr _, conn) => close conn
        | (inl _, conn) => close (rollback conn)
        end
  | None => db
  end.

(** ** The constraints of the schema, and the tables the program reaches

    [init_tables] drops and recreates the table when the module is loaded,
    so every run starts from the empty table. *)
Definition table_ok (db : table) : Prop :=
  NoDup (session_id <$> db) ∧ NoDup (access_token <$> db).

(** What every stored row looks like: the two tokens are not empty
    ([secrets.token_urlsafe(n)] is never empty for [n > 0]) and
    [expires_at] is the isoformat text of a well-formed datetime. *)
Definition row_ok (r : session) : Prop :=
  session_id r ≠ "" ∧ access_token r ≠ ""
  ∧ ∃ e, valid e = true ∧ expires_at r = isoformat e.

Inductive reachable : table → Prop :=
| reach_init : reachable []
| reach_create uid login mail request remember a db :
    token_urlsafe_32 a ≠ "" → token_urlsafe_48 a ≠ "" →
    reachable db →
    reachable (snd (create_session uid login mail request remember a db))
| reach_validate sid token prolong a db :
    reachable db →
    reachable (snd (validate_session sid token prolong a db))
| reach_cleanup a db :
    reachable db → reachable (snd (cleanup_expired_sessions a db))
| reach_logout request db :
    reachable db → reachable (logout request db).

Arguments other_users : simpl never.
Arguments without_id : simpl never.
Arguments touched : simpl never.
Arguments renewed : simpl never.
Arguments row_of : simpl never.
Arguments inserted_row : simpl never.
Arguments has_id : simpl never.
Arguments has_pair : simpl never.

(** Two rows that agree on every column but [last_activity] and
    [expires_at]. *)
Definition same_identity (r r' : session) : Prop :=
  session_id r' = session_id r ∧ user_id r' = user_id r
  ∧ user_login r' = user_login r ∧ email r' = email r
  ∧ access_token r' = access_token r ∧ created_at r' = created_at r
  ∧ ip_address r' = ip_address r ∧ user_agent r' = user_agent r
  ∧ remember_me r' = remember_me r.

(** * The request handlers around the session core *)

(** ** More of Python's strings *)

Module Py.

(** [sep.join(l)] *)
Fixpoint join (sep : string) (l : list string) : string :=
  match l with
  | [] => EmptyString
  | [x] => x
  | x :: rest => x +:+ sep +:+ join sep rest
  end.

(** [c in s] for a one-character [c]. *)
Fixpoint contains (c : ascii) (s : string) : bool :=
  match s with
  | EmptyString => false
  | String d rest => Ascii.eqb d c || contains c rest
  end.

(** [s.count(c)] for a one-character [c]. *)
Fixpoint count (c : ascii) (s : string) : nat :=
  match s with
  | EmptyString => O
  | String d rest => ((if Ascii.eqb d c then 1 else 0) + count c rest)%nat
  end.

(** [s.encode("latin-1")] succeeds: [s] has no character above U+00FF.
    Text is held as its UTF-8 bytes, where the characters above U+00FF are
    those with a byte from 0xC4 on. *)
Fixpoint latin1 (s : string) : bool :=
  match s with
  | EmptyString => true
  | String c rest => (N_of_ascii c <? 196)%N && latin1 rest
  end.

(** Truth value of [cookies.get(name)]: neither [None] nor empty. *)
Definition truthy (o : option string) : bool :=
  match o with
  | Some s => negb (PyStr.falsy s)
  | None => false
  end.

(** [o or ""] *)
Definition or_empty (o : option string) : string :=
  if truthy o then default "" o else "".

End Py.

(** ** Responses

    A response as far as the handlers build it: the template and its
    context, or the redirect with its URL and status, and the cookies the
    handler sets and deletes on it; or the answer the framework gives when
    an exception leaves the handler. *)

Module Http.

(** One [set_cookie(...)] call. *)
Record cookie := mk_cookie {
  key : string;
  value : string;
  max_age : Z;
  httponly : bool;
  samesite : string;
  secure : bool
}.

(** The context of [index.html]; a key the handler leaves out, or passes
    as [None], is [None]. *)
Record index_context := mk_index_context {
  error : option string;
  email_error : option string;
  password_error : option string;
  email_value : string;
  auto_remember : bool;
  show_cookie_banner : bool
}.

(** The context of [main.html]; [data] holds the fetched rows
    [(login, machine_name, machine_type)]. *)
Record main_context := mk_main_context {
  data : list (string * string * string);
  login_filter : string;
  machine_type : string;
  user_login : string
}.

Inductive response :=
| IndexPage (context : index_context)
| MainPage (context : main_context)
| Redirect (url : string) (status_code : Z)
           (set_cookies : list cookie) (delete_cookies : list string)
| InternalServerError.   (* an exception left the handler: status 500 *)

(** The JSON answers of the consent endpoints: HTTP status, the
    ["status"] key, the optional ["message"] and ["selected"] keys, and the
    cookie set. *)
Record consent_answer := mk_consent_answer {
  code : Z;
  status : string;
  message : option string;
  selected : option (list string);
  consent_cookie : option cookie
}.

(** The dictionary [cookie_status] returns. *)
Record cookie_flags := mk_cookie_flags {
  cookies_accepted : bool;
  all_accepted : bool;
  functional : bool;
  session : bool
}.

End Http.

(** The cookie every handler sets the same way but for key, value, age and
    [httponly]: [samesite="lax", secure=False]. *)
Definition lax_cookie (k v : string) (age : Z) (http_only : bool) : Http.cookie :=
  {| Http.key := k; Http.value := v; Http.max_age := age;
     Http.httponly := http_only; Http.samesite := "lax"; Http.secure := false |}.

(** A request carrying, besides its own cookies, the cookies a response
    sets: what the browser sends next. *)
Definition with_cookies (l : list Http.cookie) (request : Request) : Request :=
  {| cookies := foldl (λ m c, <[Http.key c := Http.value c]> m)
                  (cookies request) l;
     client := client request;
     headers := headers request |}.

#[global] Instance outcome_ret : MRet outcome := @Returns.
#[global] Instance outcome_bind : MBind outcome :=
  λ A B k m, match m with
             | Returns a => k a
             | Raises e => Raises e
             end.

(** [response.set_cookie(...)] on a response that holds the cookies [set]:
    the header line is encoded as latin-1 ([http.cookies] escapes the
    characters up to U+00FF it does not pass as they are), so a value with
    a character above U+00FF raises [UnicodeEncodeError]. *)
Definition set_cookie (c : Http.cookie) (set : list Http.cookie)
  : outcome (list Http.cookie) :=
  if Py.latin1 (Http.value c) then Returns (set ++ [c])
  else Raises UnicodeEncodeError.

(** ** The consent endpoints

    The values these endpoints set are ASCII; their [set_cookie] calls do
    not fail. *)

(** [accept_cookies] *)
Definition accept_cookies : Http.consent_answer :=
  {| Http.code := 200; Http.status := "accepted"; Http.message := None;
     Http.selected := None;
     Http.consent_cookie :=
       Some (lax_cookie "cookies_accepted" "true" (365 * 24 * 60 * 60) true) |}.

(** [reject_cookies] *)
Definition reject_cookies : Http.consent_answer :=
  {| Http.code := 200; Http.status := "rejected"; Http.message := None;
     Http.selected := None;
     Http.consent_cookie :=
       Some (lax_cookie "cookies_accepted" "false" (30 * 24 * 60 * 60) true) |}.

(** [accept_selected_cookies]; [functional] and [session] are the truth
    values of [data.get("functional", False)] and [data.get("session",
    False)] of the JSON body. *)
Definition accept_selected_cookies (functional session : bool)
  : Http.consent_answer :=
  let selected_types :=
    (if functional then ["functional"] else [])
    ++ (if session then ["session"] else []) in
  match selected_types with
  | [] =>
      {| Http.code := 400; Http.status := "rejected";
         Http.message := Some "Не выбрано ни одного типа cookies";
         Http.selected := None; Http.consent_cookie := None |}
  | _ =>
      {| Http.code := 200; Http.status := "accepted"; Http.message := None;
         Http.selected := Some selected_types;
         Http.consent_cookie :=
           Some (lax_cookie "cookies_accepted"
                   ("selected:" +:+ Py.join "," selected_types)
                   (365 * 24 * 60 * 60) true) |}
  end.

(** [cookie_status] *)
Definition cookie_status (request : Request) : Http.cookie_flags :=
  let cookies_accepted := default "false" (cookies request !! "cookies_accepted") in
  if String.eqb cookies_accepted "true" then
    {| Http.cookies_accepted := true; Http.all_accepted := true;
       Http.functional := true; Http.session := true |}
  else if PyStr.startswith cookies_accepted "selected:" then
    match PyStr.split ":" cookies_accepted !! 1%nat with
    | Some types =>
        let selected_types := PyStr.split "," types in
        {| Http.cookies_accepted := true; Http.all_accepted := false;
           Http.functional := bool_decide ("functional" ∈ selected_types);
           Http.session := bool_decide ("session" ∈ selected_types) |}
    | None =>   (* IndexError; cannot happen after "selected:" *)
        {| Http.cookies_accepted := false; Http.all_accepted := false;
           Http.functional := false; Http.session := false |}
    end
  else
    {| Http.cookies_accepted := false; Http.all_accepted := false;
       Http.functional := false; Http.session := false |}.

(** ** What a handler reads from its surroundings

    A handler sweeps first and then calls into the session core; each of
    the two reads the clocks on its own.  [login] draws one more token for
    the [remember_token] cookie. *)
Record surroundings := mk_surroundings {
  at_sweep : ambient;
  at_call : ambient;
  remember_token : string
}.

(** ** [logout]: the response with the table effect *)

Definition logout_route (request : Request) (db : table)
  : Http.response * table :=
  (Http.Redirect "/" 307 []
     ["session_id"; "access_token"; "user_login"; "user_email";
      "remember_token"],
   logout request db).

(** ** [auth_page] *)

Definition auth_page (request : Request)
    (error email_error password_error auto_email : option string)
    (auto_remember : bool) (h : surroundings) (db : table)
  : Http.response * table :=
  let db := snd (cleanup_expired_sessions (at_sweep h) db) in
  let cookies_accepted := default "false" (cookies request !! "cookies_accepted") in
  let session_id := cookies request !! "session_id" in
  let access_token := cookies request !! "access_token" in
  let page :=
    Http.IndexPage
      {| Http.error := error; Http.email_error := email_error;
         Http.password_error := password_error;
         Http.email_value := Py.or_empty auto_email;
         Http.auto_remember := auto_remember;
         Http.show_cookie_banner := String.eqb cookies_accepted "false" |} in
  if Py.truthy session_id && Py.truthy access_token then
    let '(session_status, db) :=
      validate_session (default "" session_id) (default "" access_token)
        false (at_call h) db in
    match session_status with
    | Valid _ _ _ _ _ => (Http.Redirect "/main" 302 [] [], db)
    | Invalid _ _ => (page, db)
    end
  else (page, db).

(** ** The user directory, [login] and [main_page]

    The tables [users_auth] and [users] are not declared in the program;
    the two SELECTs on them, and SHA-256, are taken as given. *)

Module User.

(** The columns [login] reads of a [users_auth] row. *)
Record row := mk_row {
  id : Z;
  login : string;
  password : string
}.

End User.

Section Directory.

(** [hashlib.sha256(b).hexdigest()] *)
Variable sha256_hexdigest : string → string.

(** [SELECT * FROM users_auth WHERE email = ?] followed by [fetchone()]. *)
Variable users_auth_by_email : string → outcome (option User.row).

(** [cursor.execute(query, params)] on the [users] table followed by
    [fetchall()]. *)
Variable users_fetchall :
  string → list string → outcome (list (string * string * string)).

(** [hash_password] *)
Definition hash_password (password : string) : string :=
  sha256_hexdigest password.

(** The page [login] answers a refused attempt with. *)
Definition login_page (error email_error password_error : option string)
    (mail : string) (remember banner : bool) : Http.response :=
  Http.IndexPage
    {| Http.error := error; Http.email_error := email_error;
       Http.password_error := password_error; Http.email_value := mail;
       Http.auto_remember := remember; Http.show_cookie_banner := banner |}.

(** The body of the [try] block of [login]; an exception anywhere in it,
    one of [set_cookie] after the session was stored included, is answered
    by the server-error page. *)
Definition login_try (request : Request) (mail password remember : string)
    (h : surroundings) (db : table) : outcome Http.response * table :=
  match users_auth_by_email mail with
  | Raises e => (Raises e, db)
  | Returns None =>
      (Returns (login_page None
                  (Some "Пользователь с таким email не найден") None
                  mail (String.eqb remember "on") false), db)
  | Returns (Some user) =>
      let hashed_password := hash_password password in
      if negb (String.eqb (User.password user) hashed_password) then
        (Returns (login_page None None (Some "Неверный пароль")
                    mail (String.eqb remember "on") false), db)
      else
        let remember_me := String.eqb remember "on" in
        match create_session (User.id user) (User.login user) mail request
                remember_me (at_call h) db with
        | (Raises e, db) => (Raises e, db)
        | (Returns (session_id, access_token, max_age), db) =>
            if negb (Py.truthy session_id) || negb (Py.truthy access_token)
            then
              (Returns (login_page
                          (Some "Не удалось создать сессию. Проверьте настройки cookies")
                          None None mail remember_me false), db)
            else
              (set ← set_cookie
                       (lax_cookie "session_id" (default "" session_id)
                          max_age true) [];
               set ← set_cookie
                       (lax_cookie "access_token" (default "" access_token)
                          max_age true) set;
               set ← set_cookie
                       (lax_cookie "user_login" (User.login user) max_age
                          true) set;
               set ← set_cookie
                       (lax_cookie "user_email" mail
                          (if negb remember_me then max_age
                           else 30 * 24 * 60 * 60) false) set;
               set ← (if remember_me then
                        set_cookie
                          (lax_cookie "remember_token" (remember_token h)
                             (30 * 24 * 60 * 60) true) set
                      else Returns set);
               Returns (Http.Redirect "/main" 302 set []), db)
        end
  end.

(** All the values [login] puts into cookies for [user] can be sent. *)
Definition cookies_encodable (h : surroundings) (user : User.row)
    (mail : string) (remember_me : bool) : bool :=
  Py.latin1 (token_urlsafe_32 (at_call h))
  && Py.latin1 (token_urlsafe_48 (at_call h))
  && Py.latin1 (User.login user) && Py.latin1 mail
  && (negb remember_me || Py.latin1 (remember_token h)).

(** [login] *)
Definition login (request : Request) (mail password remember : string)
    (h : surroundings) (db : table) : Http.response * table :=
  let db := snd (cleanup_expired_sessions (at_sweep h) db) in
  let cookies_accepted := default "false" (cookies request !! "cookies_accepted") in
  let consent : option Http.response :=
    if String.eqb cookies_accepted "true" then None
    else if PyStr.startswith cookies_accepted "selected:" then
      match PyStr.split ":" cookies_accepted !! 1%nat with
      | Some types =>
          if bool_decide ("session" ∈ PyStr.split "," types) then None
          else
            Some (login_page
                    (Some "Для входа в систему необходимо разрешить сессионные cookies")
                    None None mail (String.eqb remember "on") false)
      | None =>   (* IndexError, outside the try block; cannot happen
                     after "selected:" *)
          Some Http.InternalServerError
      end
    else
      Some (login_page
              (Some "Для входа в систему необходимо принять условия использования cookies")
              None None mail (String.eqb remember "on") true) in
  match consent with
  | Some page => (page, db)
  | None =>
      let email_error :=
        if PyStr.falsy mail then Some "Email обязателен для заполнения"
        else if negb (Py.contains "@" mail) then Some "Введите корректный email"
        else None in
      let password_error :=
        if PyStr.falsy password then Some "Пароль обязателен для заполнения"
        else None in
      if bool_decide (email_error ≠ None ∨ password_error ≠ None) then
        (login_page None email_error password_error mail
           (String.eqb remember "on") false, db)
      else
        match login_try request mail password remember h db with
        | (Returns page, db) => (page, db)
        | (Raises _, db) =>
            (login_page (Some "Ошибка сервера") None None mail
               (String.eqb remember "on") false, db)
        end
  end.

(** The query [main_page] builds from its two filters. *)
Definition users_query (login_filter machine_type : string)
  : string * list string :=
  let q0 := "SELECT login, machine_name, machine_type FROM users WHERE 1=1" in
  let '(q1, p1) :=
    if negb (PyStr.falsy login_filter)
    then (q0 +:+ " AND login LIKE ?", ["%" +:+ login_filter +:+ "%"])
    else (q0, []) in
  if negb (PyStr.falsy machine_type) && negb (String.eqb machine_type "all")
  then (q1 +:+ " AND machine_type = ?", p1 ++ [machine_type])
  else (q1, p1).

(** [main_page] *)
Definition main_page (request : Request) (login_filter machine_type : string)
    (h : surroundings) (db : table) : Http.response * table :=
  let db := snd (cleanup_expired_sessions (at_sweep h) db) in
  let session_id := default "" (cookies request !! "session_id") in
  let access_token := default "" (cookies request !! "access_token") in
  let '(session_status, db) :=
    validate_session session_id access_token true (at_call h) db in
  match session_status with
  | Invalid reason autologin =>
      match autologin with
      | Some (mail, true) =>
          if String.eqb reason "session_expired" then
            (Http.Redirect
               ("/?auto_email=" +:+ mail
                +:+ "&auto_remember=true&error=Сессия+истекла.+Пожалуйста,+войдите+снова")
               302 [] [], db)
          else
            (Http.Redirect
               "/?error=Сессия+истекла.+Пожалуйста,+войдите+снова" 302 []
               ["session_id"; "access_token"; "user_login"; "remember_token"],
             db)
      | _ =>
          (Http.Redirect
             "/?error=Сессия+истекла.+Пожалуйста,+войдите+снова" 302 []
             ["session_id"; "access_token"; "user_login"; "remember_token"],
           db)
      end
  | Valid _ user_login _ _ _ =>
      let fetched :=
        let '(query, params) := users_query login_filter machine_type in
        match users_fetchall query params with
        | Returns rows => rows
        | Raises _ => []
        end in
      let data :=
        match row_of session_id db with
        | Some session_info =>
            match fromisoformat (expires_at session_info) with
            | Some _ => fetched
            | None => []   (* ValueError: the except branch *)
            end
        | None => fetched
        end in
      (Http.MainPage
         {| Http.data := data; Http.login_filter := login_filter;
            Http.machine_type := machine_type;
            Http.user_login := user_login |}, db)
  end.

(** The rows [main_page] puts on the page when nothing fails: the result
    of its query on [users], or none when that query raises. *)
Definition fetched (login_filter machine_type : string)
  : list (string * string * string) :=
  match users_fetchall (fst (users_query login_filter machine_type))
          (snd (users_query login_filter machine_type)) with
  | Returns rows => rows
  | Raises _ => []
  end.

End Directory.

(** ** Sample inputs *)

Module Sample.

Definition noon : datetime := mk_datetime 2024 5 1 12 0 0 0.

Definition at_time (h m s : Z) : datetime := mk_datetime 2024 5 1 h m s 0.

Definition request_with (consent : string) : Request :=
  {| cookies := {[ "cookies_accepted" := consent ]};
     client := Some "192.0.2.10";
     headers := {[ "user-agent" := "Mozilla/5.0" ]} |}.

(** The surroundings of a call made at [t], local time being UTC, which
    draws the tokens [sid] and [token]. *)
Definition drawing (sid token : string) (t : datetime) : ambient :=
  {| token_urlsafe_32 := sid; token_urlsafe_48 := token;
     now0 := t; now1 := t; sqlite_now := t |}.

Definition login_of (uid : Z) (remember : bool) (sid token : string)
  : create_call :=
  {| call_user_id := uid; call_user_login := "user"; call_email := "a@b.com";
     call_request := request_with "true"; call_remember_me := remember;
     call_ambient := drawing sid token noon |}.

(** A stored session of user [uid] expiring at [expires] (isoformat text). *)
Definition stored (sid token : string) (uid : Z) (expires : string)
    (remember : bool) : session :=
  {| session_id := sid; user_id := uid; user_login := "user";
     email := "a@b.com"; access_token := token;
     created_at := "2024-05-01 09:00:00";
     last_activity := "2024-05-01 09:00:00";
     expires_at := expires; ip_address := "192.0.2.10";
     user_agent := "Mozilla/5.0"; remember_me := remember |}.

(** Media on which one call of a run fails. *)
Definition failing_connect : faults :=
  {| connect_fails := true; execute_fails := λ _, false;
     commit_fails := false; rollback_fails := false |}.


(** A stand-in for SHA-256, a directory that knows two users, and a
    [users] table of one machine. *)
Definition digest (password : string) : string := "sha256:" +:+ password.

Definition directory (mail : string) : outcome (option User.row) :=
  if String.eqb mail "bob@b.com" then
    Returns (Some {| User.id := 7; User.login := "bob";
                     User.password := digest "secret" |})
  else if String.eqb mail "ivan@b.com" then
    Returns (Some {| User.id := 8; User.login := "Иван";
                     User.password := digest "secret" |})
  else Returns None.

Definition machines (query : string) (params : list string)
  : outcome (list (string * string * string)) :=
  Returns [("bob", "pc-1", "laptop")].

(** The surroundings of a handler run at [t], local time being UTC, whose
    session core draws [sid] and [token]. *)
Definition visit (sid token : string) (t : datetime) : surroundings :=
  {| at_sweep := drawing "" "" t; at_call := drawing sid token t;
     remember_token := "remember-A" |}.

(** A request carrying the two session cookies. *)
Definition carrying (sid token : string) : Request :=
  {| cookies := {[ "session_id" := sid; "access_token" := token ]};
     client := Some "192.0.2.10";
     headers := {[ "user-agent" := "Mozilla/5.0" ]} |}.

(** The row [login] stores for the sample user at noon. *)
Definition bobs_session : session :=
  {| session_id := "sid-A"; user_id := 7; user_login := "bob";
     email := "bob@b.com"; access_token := "tok-A";
     created_at := "2024-05-01 12:00:00";
     last_activity := "2024-05-01 12:00:00";
     expires_at := "2024-05-01T13:00:00"; ip_address := "192.0.2.10";
     user_agent := "Mozilla/5.0"; remember_me := false |}.

(** That row after a valid [main_page] visit at 12:30. *)
Definition bobs_session_visited : session :=
  set_expires_at "2024-05-01T13:00:00"
    (set_last_activity "2024-05-01 12:30:00" bobs_session).

(** The page [main_page] serves the sample user. *)
Definition bobs_page : Http.main_context :=
  {| Http.data := [("bob", "pc-1", "laptop")]; Http.login_filter := "";
     Http.machine_type := ""; Http.user_login := "bob" |}.

(** A handler run where the local clock is five hours behind UTC: the
    local evening of May 1st, past midnight in UTC. *)
Definition evening : surroundings :=
  {| at_sweep := {| token_urlsafe_32 := ""; token_urlsafe_48 := "";
                    now0 := at_time 19 10 0; now1 := at_time 19 10 0;
                    sqlite_now := mk_datetime 2024 5 2 0 10 0 0 |};
     at_call := {| token_urlsafe_32 := ""; token_urlsafe_48 := "";
                   now0 := at_time 19 10 0; now1 := at_time 19 10 0;
                   sqlite_now := mk_datetime 2024 5 2 0 10 0 0 |};
     remember_token := "" |}.

(** The cookies [login] sets with it. *)
Definition bobs_cookies : list Http.cookie :=
  [lax_cookie "session_id" "sid-A" 1800 true;
   lax_cookie "access_token" "tok-A" 1800 true;
   lax_cookie "user_login" "bob" 1800 true;
   lax_cookie "user_email" "bob@b.com" 1800 false].

End Sample.

(** * Properties *)

(** ** The transaction of [create_session], run from a fresh connection *)

Lemma create_session_tx_run (row : session) (db : table) :
  create_session_tx row (get_db db) =
    if fits_int64 (user_id row) then
      if existsb (collides row) (other_users (user_id row) db) then
        (inl IntegrityError,
         {| committed := db; working := other_users (user_id row) db |})
      else
        (inr tt,
         {| committed := other_users (user_id row) db ++ [row];
            working := other_users (user_id row) db ++ [row] |})
    else (inl OverflowError, get_db db).
Proof.
  unfold create_session_tx, mbind, Tx_bind, Sqlite.bind, bind_int.
  destruct (fits_int64 (user_id row)); cbn; [|reflexivity].
  unfold insert; cbn.
  fold (collides row). fold (other_users (user_id row) db).
  destruct (existsb _ _); reflexivity.
Qed.

(** Whatever the transaction did before it raised, nothing was committed. *)
Lemma create_session_tx_raises (row : session) (db : table) e conn :
  create_session_tx row (get_db db) = (inl e, conn) → committed conn = db.
Proof.
  rewrite create_session_tx_run.
  repeat case_match; intros [= <- <-]; reflexivity.
Qed.

Lemma filter_none {A} (P : A → Prop) `{!∀ x, Decision (P x)} (l : list A) :
  (∀ x, x ∈ l → ¬ P x) → filter P l = [].
Proof.
  induction l as [|x l IH]; intros Hl; [reflexivity|].
  rewrite filter_cons_False by (apply Hl; left).
  apply IH. intros y Hy. apply Hl. by right.
Qed.

Lemma other_users_spec (uid : Z) (db : table) (r : session) :
  r ∈ other_users uid db ↔ r ∈ db ∧ user_id r ≠ uid.
Proof.
  unfold other_users. rewrite list_elem_of_filter.
  rewrite not_true_iff_false, Z.eqb_neq. tauto.
Qed.

Lemma other_users_none (uid : Z) (db : table) :
  filter (λ r, user_id r = uid) (other_users uid db) = [].
Proof.
  induction db as [|r db IH]; [reflexivity|].
  unfold other_users in *. rewrite filter_cons.
  destruct (decide _) as [Hne|Heq]; [|exact IH].
  rewrite filter_cons_False; [exact IH|].
  apply not_true_iff_false, Z.eqb_neq in Hne. exact Hne.
Qed.

(** What a successful call did, read off the code path that returns the
    tokens. *)
Lemma create_session_success uid login mail request remember a db
      sid token max_age db' :
  create_session uid login mail request remember a db
    = (Returns (Some sid, Some token, max_age), db') →
  ∃ expires,
    can_set_session_cookies request = true
    ∧ add (now0 a) (session_duration remember) = Some expires
    ∧ sid = token_urlsafe_32 a ∧ token = token_urlsafe_48 a
    ∧ max_age = (if remember then 7 * 24 * 60 * 60 else 30 * 60)
    ∧ existsb (collides (inserted_row uid login mail request remember a expires))
        (other_users uid db) = false
    ∧ db' = other_users uid db
            ++ [inserted_row uid login mail request remember a expires].
Proof.
  unfold create_session, inserted_row.
  destruct (can_set_session_cookies request); cbn; [|discriminate].
  destruct remember; cbn.
  - destruct (add (now0 a) (timedelta_of 7 0)) as [expires|]; [|discriminate].
    rewrite create_session_tx_run; cbn.
    destruct (fits_int64 uid); [|discriminate].
    destruct (existsb _ _) eqn:Hfree; [discriminate|].
    intros [= <- <- <- <-]. exists expires. done.
  - destruct (add (now0 a) (timedelta_of 0 60)) as [expires|]; [|discriminate].
    rewrite create_session_tx_run; cbn.
    destruct (fits_int64 uid); [|discriminate].
    destruct (existsb _ _) eqn:Hfree; [discriminate|].
    intros [= <- <- <- <-]. exists expires. done.
Qed.

(** C1: in any sequence of [create_session] calls, started from any table,
    once a call for [user_id] succeeds the table holds exactly one row with
    that [user_id]: the rows of other users as they were, the user's old
    rows deleted, the new row appended. *)
Theorem create_session_single_row_per_user
    (db0 : table) (before : list create_call) (c : create_call)
    sid token max_age db' :
  run_create c (run_creates before db0)
    = (Returns (Some sid, Some token, max_age), db') →
  length (filter (λ r, user_id r = call_user_id c) db') = 1%nat
  ∧ ∃ row, db' = other_users (call_user_id c) (run_creates before db0) ++ [row]
           ∧ user_id row = call_user_id c
           ∧ session_id row = sid ∧ access_token row = token.
Proof.
  intros Hrun. unfold run_create in Hrun.
  apply create_session_success in Hrun
    as (expires & _ & _ & -> & -> & _ & _ & ->).
  split.
  - rewrite filter_app, other_users_none.
    rewrite filter_cons_True by reflexivity. reflexivity.
  - eexists. split; [reflexivity|]. done.
Qed.

Lemma create_session_single_row_per_user_witness :
  let first := Sample.login_of 7 false "sid-A" "tok-A" in
  let again := Sample.login_of 7 true "sid-B" "tok-B" in
  let db' := snd (run_create again (run_creates [first] [])) in
  run_create again (run_creates [first] [])
    = (Returns (Some "sid-B", Some "tok-B", 604800), db')
  ∧ length (filter (λ r, user_id r = 7) db') = 1%nat.
Proof.
  split; [vm_compute; reflexivity|].
  refine (proj1 (create_session_single_row_per_user
                   [] [Sample.login_of 7 false "sid-A" "tok-A"]
                   (Sample.login_of 7 true "sid-B" "tok-B")
                   "sid-B" "tok-B" 604800 _ _)).
  vm_compute; reflexivity.
Defined.

(** C6, as the code has it: when the consent gate answers false,
    [create_session] returns at once with the sentinel [(None, None, 0)],
    before any access to the store: whatever the medium would do, fail to
    open included, no token is drawn, no clock is read, and the table is
    the one the call started from.  The sentinel is the value returned
    after a store failure too; no ["consent_required"] signal is given. *)
Theorem create_session_consent_required
    f uid login mail request remember a (db : table) :
  can_set_session_cookies request = false →
  create_session_on f uid login mail request remember a db
    = (Returns (None, None, 0), db)
  ∧ create_session uid login mail request remember a db
    = (Returns (None, None, 0), db).
Proof.
  intros Hgate. unfold create_session_on, create_session. rewrite Hgate.
  split; reflexivity.
Qed.

Lemma create_session_consent_required_witness :
  let request := Sample.request_with "selected:functional" in
  let a := Sample.drawing "sid-A" "tok-A" Sample.noon in
  let db := [Sample.stored "sid-0" "tok-0" 7 "2024-05-01T13:00:00" false] in
  can_set_session_cookies request = false
  ∧ create_session_on Sample.failing_connect 7 "user" "a@b.com" request
      false a db
    = (Returns (None, None, 0), db)
  ∧ create_session 7 "user" "a@b.com" request false a db
    = (Returns (None, None, 0), db).
Proof.
  split; [vm_compute; reflexivity|].
  apply create_session_consent_required. vm_compute; reflexivity.
Defined.

(** C6 as stated fails on the code: the caller gets no
    ["consent_required"] signal.  A call refused by the gate and a call
    whose INSERT hit the UNIQUE constraint return the same value, and both
    leave the table as it was. *)
Lemma create_session_refusal_same_as_store_failure :
  let other := Sample.stored "sid-1" "tok-1" 8 "2024-05-01T12:45:00" false in
  let a := Sample.drawing "sid-1" "tok-A" Sample.noon in
  can_set_session_cookies (Sample.request_with "selected:functional") = false
  ∧ can_set_session_cookies (Sample.request_with "true") = true
  ∧ create_session 7 "user" "a@b.com"
      (Sample.request_with "selected:functional") false a [other]
    = (Returns (None, None, 0), [other])
  ∧ create_session 7 "user" "a@b.com" (Sample.request_with "true") false a
      [other]
    = (Returns (None, None, 0), [other]).
Proof. vm_compute. repeat split; reflexivity. Qed.

(** C7: a successful [create_session] stores, as the one row of the new
    session id, a row whose [expires_at] is the isoformat text of
    [now + 7 days] with remember-me and of [now + 60 minutes] without, and
    returns [max_age = 7*24*3600] with remember-me and [30*60 = 1800]
    without. *)
Theorem create_session_expiry_and_max_age
    uid login mail request remember a (db : table) sid token max_age db' :
  create_session uid login mail request remember a db
    = (Returns (Some sid, Some token, max_age), db') →
  ∃ expires row,
    add (now0 a) (if remember then timedelta_of 7 0 else timedelta_of 0 60)
      = Some expires
    ∧ filter (λ r, session_id r = sid) db' = [row]
    ∧ expires_at row = isoformat expires
    ∧ remember_me row = remember
    ∧ max_age = (if remember then 7 * 24 * 3600 else 30 * 60)
    ∧ max_age = (if remember then 604800 else 1800).
Proof.
  intros Hrun.
  apply create_session_success in Hrun
    as (expires & _ & Hadd & -> & -> & -> & Hfree & ->).
  exists expires, (inserted_row uid login mail request remember a expires).
  split; [exact Hadd|]. split; [|by destruct remember].
  rewrite filter_app, filter_cons_True by reflexivity.
  rewrite filter_none; [reflexivity|]. intros r Hr Hsid.
  rewrite <- not_true_iff_false, existsb_exists in Hfree.
  apply Hfree. exists r. split; [by apply list_elem_of_In|].
  unfold collides. apply orb_true_iff. left.
  apply String.eqb_eq. exact Hsid.
Qed.

Lemma create_session_expiry_and_max_age_witness :
  let a := Sample.drawing "sid-A" "tok-A" Sample.noon in
  let request := Sample.request_with "true" in
  let row := inserted_row 7 "user" "a@b.com" request false a
               (Sample.at_time 13 0 0) in
  create_session 7 "user" "a@b.com" request false a []
    = (Returns (Some "sid-A", Some "tok-A", 1800), [row])
  ∧ ∃ expires row',
      add Sample.noon (timedelta_of 0 60) = Some expires
      ∧ filter (λ r, session_id r = "sid-A") [row] = [row']
      ∧ expires_at row' = isoformat expires
      ∧ remember_me row' = false
      ∧ 1800 = 30 * 60 ∧ 1800 = 1800.
Proof.
  split; [vm_compute; reflexivity|].
  apply (create_session_expiry_and_max_age 7 "user" "a@b.com"
           (Sample.request_with "true") false
           (Sample.drawing "sid-A" "tok-A" Sample.noon) []
           "sid-A" "tok-A" 1800).
  vm_compute; reflexivity.
Defined.

(** The transaction on a medium that can fail, step by step. *)
Lemma create_session_tx_on_run (f : faults) (row : session) (db : table) :
  create_session_tx_on f row (get_db db) =
    if execute_fails f 0 then (inl OperationalError, get_db db)
    else if fits_int64 (user_id row) then
      if execute_fails f 1 then
        (inl OperationalError,
         {| committed := db; working := other_users (user_id row) db |})
      else if existsb (collides row) (other_users (user_id row) db) then
        (inl IntegrityError,
         {| committed := db; working := other_users (user_id row) db |})
      else if commit_fails f then
        (inl OperationalError,
         {| committed := db;
            working := other_users (user_id row) db ++ [row] |})
      else
        (inr tt,
         {| committed := other_users (user_id row) db ++ [row];
            working := other_users (user_id row) db ++ [row] |})
    else (inl OverflowError, get_db db).
Proof.
  unfold create_session_tx_on, guarded, mbind, Tx_bind, Sqlite.bind, bind_int.
  destruct (execute_fails f 0); [reflexivity|].
  destruct (fits_int64 (user_id row)); cbn; [|reflexivity].
  destruct (execute_fails f 1); [reflexivity|].
  unfold insert; cbn.
  fold (collides row). fold (other_users (user_id row) db).
  destruct (existsb _ _); [reflexivity|].
  destruct (commit_fails f); reflexivity.
Qed.

(** On a medium without faults the two models are one. *)
Lemma create_session_on_no_faults uid login mail request remember a
      (db : table) :
  create_session_on no_faults uid login mail request remember a db
  = create_session uid login mail request remember a db.
Proof.
  unfold create_session_on, create_session.
  destruct (negb (can_set_session_cookies request)); [reflexivity|].
  destruct remember;
    (destruct (add (now0 a) _); [|reflexivity]);
    cbn [connect connect_fails no_faults rollback_fails];
    rewrite create_session_tx_on_run, create_session_tx_run; cbn;
    (destruct (fits_int64 uid); [|reflexivity]);
    destruct (existsb _ _); reflexivity.
Qed.

(** No partial state, whatever fails: the table after a call is the
    table before it, or the one with the user's old rows replaced by the
    new row. *)
Lemma create_session_on_table f uid login mail request remember a
      (db : table) :
  snd (create_session_on f uid login mail request remember a db) = db
  ∨ ∃ expires,
      add (now0 a) (session_duration remember) = Some expires
      ∧ create_session_on f uid login mail request remember a db
        = (Returns (Some (token_urlsafe_32 a), Some (token_urlsafe_48 a),
                    if remember then 7 * 24 * 60 * 60 else 30 * 60),
           other_users uid db
           ++ [inserted_row uid login mail request remember a expires]).
Proof.
  unfold create_session_on, session_duration, connect, inserted_row.
  destruct (can_set_session_cookies request); cbn; [|by left].
  destruct remember;
    (destruct (add (now0 a) _) as [expires|]; [|by left]);
    (destruct (connect_fails f); [by left|]);
    rewrite create_session_tx_on_run; cbn;
    (destruct (execute_fails f 0); [destruct (rollback_fails f); by left|]);
    (destruct (fits_int64 uid); [|destruct (rollback_fails f); by left]);
    (destruct (execute_fails f 1); [destruct (rollback_fails f); by left|]);
    (destruct (existsb _ _); [destruct (rollback_fails f); by left|]);
    (destruct (commit_fails f); [destruct (rollback_fails f); by left|]);
    right; by exists expires.
Qed.




(** ** [validate_session], one call as one equation *)

Lemma validate_session_run sid token prolong a (db : table) :
  validate_session sid token prolong a db =
    if PyStr.falsy sid || PyStr.falsy token then (Invalid "no_session" None, db)
    else match List.find (has_pair sid token) db with
    | None => (Invalid "session_not_found" None, db)
    | Some r =>
        match fromisoformat (expires_at r) with
        | None => (Invalid "error" None, db)
        | Some expires =>
            if gtb (now0 a) expires then
              (Invalid "session_expired"
                 (if remember_me r then Some (email r, true) else None),
               without_id sid db)
            else if prolong && negb (remember_me r) then
              match add (now1 a) (timedelta_of 0 30) with
              | None => (Invalid "error" None, db)
              | Some new_expires =>
                  (Valid (user_id r) (user_login r) (email r) (remember_me r)
                     expires,
                   renewed sid (isoformat new_expires) (touched sid a db))
              end
            else
              (Valid (user_id r) (user_login r) (email r) (remember_me r)
                 expires,
               touched sid a db)
        end
    end.
Proof.
  unfold validate_session.
  destruct (PyStr.falsy sid || PyStr.falsy token); [reflexivity|].
  unfold validate_session_tx, mbind, Tx_bind, Sqlite.bind, select_one; cbn.
  destruct (List.find (has_pair sid token) db) as [r|]; [|reflexivity].
  destruct (fromisoformat (expires_at r)) as [expires|]; cbn; [|reflexivity].
  destruct (gtb (now0 a) expires); cbn.
  { destruct (remember_me r); reflexivity. }
  destruct (prolong && negb (remember_me r)); cbn; [|reflexivity].
  destruct (add (now1 a) (timedelta_of 0 30)); reflexivity.
Qed.

(** ** Lookups in a table whose session ids are pairwise distinct *)

Lemma find_elem_of {A} (p : A → bool) (l : list A) (x : A) :
  List.find p l = Some x → x ∈ l ∧ p x = true.
Proof.
  intros H. apply find_some in H as [Hin Hp].
  split; [by apply list_elem_of_In|exact Hp].
Qed.

Lemma find_none_iff {A} (p : A → bool) (l : list A) :
  List.find p l = None ↔ ∀ x, x ∈ l → p x = false.
Proof.
  split.
  - intros H x Hx. apply (find_none p l H). by apply list_elem_of_In.
  - induction l as [|y l IH]; intros H; [reflexivity|]. cbn.
    rewrite (H y) by left. apply IH. intros x Hx. apply H. by right.
Qed.

Lemma has_id_true sid r : has_id sid r = true ↔ session_id r = sid.
Proof. unfold has_id. apply String.eqb_eq. Qed.

Lemma has_pair_true sid token r :
  has_pair sid token r = true ↔ session_id r = sid ∧ access_token r = token.
Proof.
  unfold has_pair. rewrite andb_true_iff, !String.eqb_eq. reflexivity.
Qed.

Lemma distinct_ids_eq (db : table) (r1 r2 : session) :
  NoDup (session_id <$> db) → r1 ∈ db → r2 ∈ db →
  session_id r1 = session_id r2 → r1 = r2.
Proof.
  induction db as [|x db IH]; intros Hnd H1 H2 Heq.
  { by apply elem_of_nil in H1. }
  rewrite fmap_cons in Hnd. apply NoDup_cons in Hnd as [Hx Hnd].
  apply elem_of_cons in H1 as [->|H1]; apply elem_of_cons in H2 as [->|H2].
  - reflexivity.
  - exfalso. apply Hx. rewrite Heq. by apply list_elem_of_fmap_2.
  - exfalso. apply Hx. rewrite <- Heq. by apply list_elem_of_fmap_2.
  - by apply IH.
Qed.

Lemma find_unique (p : session → bool) (db : table) (r : session) :
  NoDup (session_id <$> db) → r ∈ db → p r = true →
  (∀ x, p x = true → session_id x = session_id r) →
  List.find p db = Some r.
Proof.
  intros Hnd Hr Hp Hid.
  destruct (List.find p db) as [x|] eqn:Hfind.
  - apply find_elem_of in Hfind as [Hx Hpx].
    f_equal. apply (distinct_ids_eq db); auto.
  - rewrite find_none_iff in Hfind. rewrite (Hfind r Hr) in Hp. discriminate.
Qed.

Lemma find_has_pair (db : table) (r : session) :
  NoDup (session_id <$> db) → r ∈ db →
  List.find (has_pair (session_id r) (access_token r)) db = Some r.
Proof.
  intros Hnd Hr. apply find_unique; auto.
  - by apply has_pair_true.
  - intros x Hx. by apply has_pair_true in Hx as [? _].
Qed.

Lemma row_of_unique (db : table) (r : session) :
  NoDup (session_id <$> db) → r ∈ db → row_of (session_id r) db = Some r.
Proof.
  intros Hnd Hr. apply find_unique; auto.
  - by apply has_id_true.
  - intros x Hx. by apply has_id_true in Hx.
Qed.

Lemma without_id_spec sid (db : table) r :
  r ∈ without_id sid db ↔ r ∈ db ∧ session_id r ≠ sid.
Proof.
  unfold without_id. rewrite list_elem_of_filter, has_id_true. tauto.
Qed.

(** ** Order of [datetime] values *)

Lemma lex_compare_antisym (x y : list Z) :
  lex_compare y x = CompOpp (lex_compare x y).
Proof.
  revert y. induction x as [|a x IH]; intros [|b y]; cbn; try reflexivity.
  rewrite (Z.compare_antisym a b).
  destruct (a ?= b); cbn; auto.
Qed.

Lemma gtb_ltb (x y : datetime) : gtb x y = PyDatetime.ltb y x.
Proof.
  unfold gtb, PyDatetime.ltb, compare.
  rewrite (lex_compare_antisym (fields y) (fields x)).
  by destruct (lex_compare (fields y) (fields x)).
Qed.

Lemma falsy_false (s : string) : s ≠ "" → PyStr.falsy s = false.
Proof. intros H. unfold PyStr.falsy. by apply String.eqb_neq. Qed.

(** C2, as the code has it (strict comparison): for a stored session
    whose [expires_at] is strictly before [now], [validate_session] called
    with the session's pair returns ["session_expired"], with the stored
    email and [remember_me = True] exactly when the row's flag is set, and
    the committed table is the old one without that row. *)
Theorem validate_session_expired_deleted
    (db : table) (r : session) prolong a expires :
  NoDup (session_id <$> db) → r ∈ db →
  session_id r ≠ "" → access_token r ≠ "" →
  fromisoformat (expires_at r) = Some expires →
  PyDatetime.ltb expires (now0 a) = true →
  ∃ db',
    validate_session (session_id r) (access_token r) prolong a db
      = (Invalid "session_expired"
           (if remember_me r then Some (email r, true) else None), db')
    ∧ (r ∉ db')
    ∧ (∀ r', r' ∈ db' ↔ r' ∈ db ∧ r' ≠ r).
Proof.
  intros Hnd Hr Hsid Htok Hparse Hlt.
  exists (without_id (session_id r) db).
  rewrite validate_session_run, !falsy_false by assumption; cbn.
  rewrite find_has_pair, Hparse, gtb_ltb, Hlt by assumption.
  split; [reflexivity|]. split.
  - rewrite without_id_spec. tauto.
  - intros r'. rewrite without_id_spec. split.
    + intros [Hr' Hne]. split; [exact Hr'|]. by intros ->.
    + intros [Hr' Hne]. split; [exact Hr'|]. intros Heq. apply Hne.
      by apply (distinct_ids_eq db).
Qed.

Lemma validate_session_expired_deleted_witness :
  let r := Sample.stored "sid-0" "tok-0" 7 "2024-05-01T11:59:59" true in
  let other := Sample.stored "sid-1" "tok-1" 8 "2024-05-01T12:45:00" false in
  let a := Sample.drawing "" "" Sample.noon in
  fromisoformat (expires_at r) = Some (Sample.at_time 11 59 59)
  ∧ PyDatetime.ltb (Sample.at_time 11 59 59) (now0 a) = true
  ∧ ∃ db',
      validate_session "sid-0" "tok-0" false a [r; other]
        = (Invalid "session_expired" (Some ("a@b.com", true)), db')
      ∧ (r ∉ db')
      ∧ (∀ r', r' ∈ db' ↔ r' ∈ [r; other] ∧ r' ≠ r).
Proof.
  split; [vm_compute; reflexivity|]. split; [vm_compute; reflexivity|].
  apply (validate_session_expired_deleted
           [Sample.stored "sid-0" "tok-0" 7 "2024-05-01T11:59:59" true;
            Sample.stored "sid-1" "tok-1" 8 "2024-05-01T12:45:00" false]
           (Sample.stored "sid-0" "tok-0" 7 "2024-05-01T11:59:59" true)
           false (Sample.drawing "" "" Sample.noon) (Sample.at_time 11 59 59)).
  - cbn. apply NoDup_cons. split; [|apply NoDup_singleton].
    rewrite list_elem_of_singleton. discriminate.
  - left.
  - discriminate.
  - discriminate.
  - vm_compute; reflexivity.
  - vm_compute; reflexivity.
Defined.

(** C2 as stated fails at [expires_at = now]: the code tests
    [datetime.now() > expires_at], so the session is still valid at that
    instant and its row stays. *)
Lemma validate_session_valid_at_expiry_instant :
  let r := Sample.stored "sid-0" "tok-0" 7 "2024-05-01T12:00:00" false in
  let a := Sample.drawing "" "" Sample.noon in
  fromisoformat (expires_at r) = Some Sample.noon
  ∧ PyDatetime.leb Sample.noon (now0 a) = true
  ∧ fst (validate_session "sid-0" "tok-0" false a [r])
    = Valid 7 "user" "a@b.com" false Sample.noon
  ∧ session_id <$> snd (validate_session "sid-0" "tok-0" false a [r])
    = ["sid-0"].
Proof. vm_compute. repeat split; reflexivity. Qed.

(** C3, as the code has it: the SELECT of [validate_session] returns a
    row exactly when that row is stored and both its [session_id] and its
    [access_token] equal the pair given; for a pair of non-empty strings
    that no stored row matches in both fields, [validate_session] returns
    ["session_not_found"] and leaves the table as it was; a pair with an
    empty component is answered ["no_session"] before any lookup. *)
Theorem validate_session_pair_exact (db : table) sid token :
  NoDup (session_id <$> db) →
  (∀ r, fst (select_one (has_pair sid token) (get_db db)) = inr (Some r)
        ↔ r ∈ db ∧ session_id r = sid ∧ access_token r = token)
  ∧ (sid ≠ "" → token ≠ "" →
     (∀ r, r ∈ db → ¬ (session_id r = sid ∧ access_token r = token)) →
     ∀ prolong a,
       validate_session sid token prolong a db
         = (Invalid "session_not_found" None, db))
  ∧ (sid = "" ∨ token = "" →
     ∀ prolong a,
       validate_session sid token prolong a db = (Invalid "no_session" None, db)).
Proof.
  intros Hnd. split; [|split].
  - intros r. unfold select_one, get_db; cbn. split.
    + intros [= Hfind]. apply find_elem_of in Hfind as [Hr Hp].
      apply has_pair_true in Hp. tauto.
    + intros (Hr & <- & <-). f_equal. f_equal. by apply find_has_pair.
  - intros Hsid Htok Hnone prolong a.
    rewrite validate_session_run, !falsy_false by assumption; cbn.
    replace (List.find (has_pair sid token) db) with (@None session);
      [reflexivity|].
    symmetry. apply find_none_iff. intros r Hr.
    apply not_true_iff_false. rewrite has_pair_true. by apply Hnone.
  - intros Hempty prolong a. rewrite validate_session_run.
    destruct Hempty as [-> | ->]; cbn; [reflexivity|].
    by rewrite orb_true_r.
Qed.

Lemma validate_session_pair_exact_witness :
  let mine := Sample.stored "sid-0" "tok-0" 7 "2024-05-01T12:30:00" false in
  let other := Sample.stored "sid-1" "tok-1" 8 "2024-05-01T12:45:00" false in
  let db := [mine; other] in
  NoDup (session_id <$> db)
  ∧ fst (select_one (has_pair "sid-0" "tok-0") (get_db db)) = inr (Some mine)
  ∧ validate_session "sid-0" "tok-1" true (Sample.drawing "" "" Sample.noon) db
    = (Invalid "session_not_found" None, db).
Proof.
  assert (Hnd : NoDup (session_id <$>
            [Sample.stored "sid-0" "tok-0" 7 "2024-05-01T12:30:00" false;
             Sample.stored "sid-1" "tok-1" 8 "2024-05-01T12:45:00" false])).
  { cbn. apply NoDup_cons. split; [|apply NoDup_singleton].
    rewrite list_elem_of_singleton. discriminate. }
  split; [exact Hnd|].
  destruct (validate_session_pair_exact _ "sid-0" "tok-0" Hnd) as (Hlookup & _).
  destruct (validate_session_pair_exact _ "sid-0" "tok-1" Hnd) as (_ & Hmiss & _).
  split.
  - apply Hlookup. split; [left|]. split; reflexivity.
  - apply Hmiss; [discriminate|discriminate|].
    intros r Hr [Hid Htok].
    apply elem_of_cons in Hr as [->|Hr]; [discriminate|].
    apply list_elem_of_singleton in Hr as ->. discriminate.
Defined.

(** C3 as stated fails for a pair with an empty component: no stored row
    matches it, yet the answer is ["no_session"], not
    ["session_not_found"]. *)
Lemma validate_session_empty_id_is_no_session :
  let mine := Sample.stored "sid-0" "tok-0" 7 "2024-05-01T12:30:00" false in
  let a := Sample.drawing "" "" Sample.noon in
  List.find (has_pair "" "tok-0") [mine] = None
  ∧ fst (validate_session "" "tok-0" true a [mine]) = Invalid "no_session" None
  ∧ fst (validate_session "" "tok-0" true a [mine])
    ≠ Invalid "session_not_found" None.
Proof.
  split; [vm_compute; reflexivity|].
  split; [vm_compute; reflexivity|].
  vm_compute. discriminate.
Qed.

(** ** Updates keyed by session id *)

Lemma update_ids (p : session → bool) (f : session → session) (db : table) :
  (∀ r, session_id (f r) = session_id r) →
  session_id <$> ((λ r, if p r then f r else r) <$> db) = session_id <$> db.
Proof.
  intros Hf. rewrite <- list_fmap_compose. apply list_fmap_ext.
  intros i r _. cbn. destruct (p r); [apply Hf|reflexivity].
Qed.

Lemma row_of_update sid (f : session → session) (db : table) :
  (∀ r, session_id (f r) = session_id r) →
  row_of sid ((λ r, if has_id sid r then f r else r) <$> db)
  = f <$> row_of sid db.
Proof.
  intros Hf. unfold row_of.
  induction db as [|x db IH]; [reflexivity|].
  rewrite fmap_cons. cbn.
  destruct (has_id sid x) eqn:Hx.
  - unfold has_id in *. rewrite Hf, Hx. reflexivity.
  - rewrite Hx. exact IH.
Qed.

Lemma row_of_without_id sid (db : table) : row_of sid (without_id sid db) = None.
Proof.
  apply find_none_iff. intros r Hr.
  apply without_id_spec in Hr as [_ Hne].
  apply not_true_iff_false. by rewrite has_id_true.
Qed.

Lemma NoDup_fmap_filter {B} (f : session → B) (P : session → Prop)
    `{!∀ r, Decision (P r)} (db : table) :
  NoDup (f <$> db) → NoDup (f <$> filter P db).
Proof.
  induction db as [|x db IH]; [done|].
  rewrite fmap_cons, NoDup_cons. intros [Hx Hnd].
  rewrite filter_cons. destruct (decide (P x)); [|by apply IH].
  rewrite fmap_cons, NoDup_cons. split; [|by apply IH].
  intros Hin. apply Hx.
  apply list_elem_of_fmap in Hin as (y & -> & Hy).
  apply list_elem_of_filter in Hy as [_ Hy].
  by apply list_elem_of_fmap_2.
Qed.

(** The row the SELECT finds is the stored session with that id. *)
Lemma find_pair_row_of sid token (db : table) (r : session) :
  NoDup (session_id <$> db) →
  List.find (has_pair sid token) db = Some r → row_of sid db = Some r.
Proof.
  intros Hnd Hfind. apply find_elem_of in Hfind as [Hr Hp].
  apply has_pair_true in Hp as [<- _]. by apply row_of_unique.
Qed.

(** One call keeps the ids distinct, and keeps the [expires_at] of a
    remember-me session for as long as its row exists. *)
Lemma validate_session_keeps_remembered sid token a (db : table) (v : string) :
  NoDup (session_id <$> db) →
  (∀ r, row_of sid db = Some r → expires_at r = v ∧ remember_me r = true) →
  let db' := snd (validate_session sid token true a db) in
  NoDup (session_id <$> db')
  ∧ ∀ r, row_of sid db' = Some r → expires_at r = v ∧ remember_me r = true.
Proof.
  intros Hnd Hrow. rewrite validate_session_run.
  destruct (PyStr.falsy sid || PyStr.falsy token); [done|].
  destruct (List.find (has_pair sid token) db) as [r0|] eqn:Hfind; [|done].
  destruct (fromisoformat (expires_at r0)) as [expires|]; [|done].
  destruct (gtb (now0 a) expires); cbn.
  { split; [by apply NoDup_fmap_filter|].
    intros r. by rewrite row_of_without_id. }
  apply find_pair_row_of in Hfind; [|exact Hnd].
  destruct (Hrow r0 Hfind) as [Hv Hrem]. rewrite Hrem; cbn.
  unfold touched. split.
  - by rewrite update_ids.
  - intros r. rewrite row_of_update, Hfind by done. cbn.
    intros [= <-]. cbn. done.
Qed.

(** C4: a call with [prolong = True] that finds the session valid sets
    its [expires_at] to the isoformat text of [now + 30 minutes] when
    [remember_me] is false and leaves [expires_at] as it was when
    [remember_me] is true; and however often such calls are repeated on a
    remember-me session, its row, while it exists, keeps the [expires_at]
    it had. *)
Theorem validate_session_renewal (db : table) sid token (r : session) :
  NoDup (session_id <$> db) →
  row_of sid db = Some r →
  (∀ a uid login mail remember expires db',
     validate_session sid token true a db
       = (Valid uid login mail remember expires, db') →
     ∃ r', row_of sid db' = Some r'
           ∧ if remember_me r then expires_at r' = expires_at r
             else ∃ new_expires,
                    add (now1 a) (timedelta_of 0 30) = Some new_expires
                    ∧ expires_at r' = isoformat new_expires)
  ∧ (remember_me r = true →
     ∀ ambs r',
       row_of sid (validate_repeatedly sid token true ambs db) = Some r' →
       expires_at r' = expires_at r).
Proof.
  intros Hnd Hrow. split.
  - intros a uid login mail remember expires db'.
    rewrite validate_session_run.
    destruct (PyStr.falsy sid || PyStr.falsy token); [discriminate|].
    destruct (List.find (has_pair sid token) db) as [r0|] eqn:Hfind;
      [|discriminate].
    apply find_pair_row_of in Hfind; [|exact Hnd].
    rewrite Hrow in Hfind. injection Hfind as <-.
    destruct (fromisoformat (expires_at r)) as [e|]; [|discriminate].
    destruct (gtb (now0 a) e); [discriminate|]. cbn.
    destruct (remember_me r); cbn.
    + intros [= <- <- <- <- <- <-]. unfold touched.
      rewrite row_of_update, Hrow by done. eexists; split; reflexivity.
    + destruct (add (now1 a) (timedelta_of 0 30)) as [new_expires|];
        [|discriminate].
      intros [= <- <- <- <- <- <-]. unfold renewed, touched.
      rewrite !row_of_update, Hrow by done.
      eexists; split; [reflexivity|]. exists new_expires. done.
  - intros Hrem ambs.
    assert (Hinv : ∀ r', row_of sid db = Some r' →
                         expires_at r' = expires_at r ∧ remember_me r' = true).
    { intros r'. rewrite Hrow. by intros [= <-]. }
    clear Hrow Hrem. revert db Hnd Hinv. unfold validate_repeatedly.
    induction ambs as [|a ambs IH]; intros db Hnd Hinv r'; cbn.
    + intros Hr'. by apply Hinv.
    + destruct (validate_session_keeps_remembered sid token a db _ Hnd Hinv)
        as [Hnd' Hinv'].
      by apply IH.
Qed.

Lemma validate_session_renewal_witness :
  let plain := Sample.stored "sid-0" "tok-0" 7 "2024-05-01T12:10:00" false in
  let kept := Sample.stored "sid-1" "tok-1" 8 "2024-05-01T12:10:00" true in
  let a := Sample.drawing "" "" Sample.noon in
  let later := Sample.drawing "" "" (Sample.at_time 12 5 0) in
  (NoDup (session_id <$> [plain; kept]) ∧ row_of "sid-0" [plain; kept] = Some plain)
  ∧ (∃ r', row_of "sid-0"
             (snd (validate_session "sid-0" "tok-0" true a [plain; kept]))
           = Some r'
           ∧ ∃ new_expires,
               add Sample.noon (timedelta_of 0 30) = Some new_expires
               ∧ expires_at r' = isoformat new_expires)
  ∧ (∀ r', row_of "sid-1"
             (validate_repeatedly "sid-1" "tok-1" true [a; later] [plain; kept])
           = Some r' →
           expires_at r' = "2024-05-01T12:10:00").
Proof.
  assert (Hnd : NoDup (session_id <$>
            [Sample.stored "sid-0" "tok-0" 7 "2024-05-01T12:10:00" false;
             Sample.stored "sid-1" "tok-1" 8 "2024-05-01T12:10:00" true])).
  { cbn. apply NoDup_cons. split; [|apply NoDup_singleton].
    rewrite list_elem_of_singleton. discriminate. }
  split; [split; [exact Hnd|reflexivity]|]. split.
  - destruct (validate_session_renewal _ "sid-0" "tok-0"
                (Sample.stored "sid-0" "tok-0" 7 "2024-05-01T12:10:00" false)
                Hnd eq_refl) as [Hstep _].
    apply (Hstep (Sample.drawing "" "" Sample.noon) 7 "user" "a@b.com" false
             (Sample.at_time 12 10 0)).
    vm_compute; reflexivity.
  - destruct (validate_session_renewal _ "sid-1" "tok-1"
                (Sample.stored "sid-1" "tok-1" 8 "2024-05-01T12:10:00" true)
                Hnd eq_refl) as [_ Hrepeat].
    apply (Hrepeat eq_refl).
Defined.

(** A stored, unexpired session is found valid: the call returns
    ["valid": True] (provided, when it renews, that [now + 30 minutes] is a
    representable datetime). *)
Lemma validate_session_valid (db : table) (r : session) prolong a expires :
  NoDup (session_id <$> db) → r ∈ db →
  session_id r ≠ "" → access_token r ≠ "" →
  fromisoformat (expires_at r) = Some expires →
  gtb (now0 a) expires = false →
  (prolong && negb (remember_me r) = true →
   is_Some (add (now1 a) (timedelta_of 0 30))) →
  ∃ db', validate_session (session_id r) (access_token r) prolong a db
         = (Valid (user_id r) (user_login r) (email r) (remember_me r) expires,
            db').
Proof.
  intros Hnd Hr Hsid Htok Hparse Hlive Hadd.
  rewrite validate_session_run, !falsy_false by assumption; cbn.
  rewrite find_has_pair, Hparse, Hlive by assumption.
  destruct (prolong && negb (remember_me r)); [|by eexists].
  destruct (Hadd eq_refl) as [new_expires ->]. by eexists.
Qed.

(** C10: a call that finds the session valid leaves every row in place
    and changes no column but [last_activity] of that session's row and,
    only under [prolong] without remember-me, its [expires_at]; rows of
    other sessions are identical afterwards; with [prolong = False] every
    row keeps its [expires_at]. *)
Theorem validate_session_frame
    (db : table) sid token prolong a uid login mail remember expires db' :
  NoDup (session_id <$> db) →
  validate_session sid token prolong a db
    = (Valid uid login mail remember expires, db') →
  Forall2 (validate_frame sid prolong a) db db'
  ∧ (prolong = false → expires_at <$> db' = expires_at <$> db).
Proof.
  intros Hnd. rewrite validate_session_run.
  destruct (PyStr.falsy sid || PyStr.falsy token); [discriminate|].
  destruct (List.find (has_pair sid token) db) as [r|] eqn:Hfind;
    [|discriminate].
  apply find_pair_row_of in Hfind; [|exact Hnd].
  pose proof (find_elem_of _ _ _ Hfind) as [Hr Hid]. apply has_id_true in Hid.
  assert (Hsame : ∀ old, old ∈ db → session_id old = sid → old = r).
  { intros old Hold Heq. apply (distinct_ids_eq db); congruence. }
  destruct (fromisoformat (expires_at r)) as [e|]; [|discriminate].
  destruct (gtb (now0 a) e); [discriminate|].
  destruct (prolong && negb (remember_me r)) eqn:Hrenew.
  - destruct (add (now1 a) (timedelta_of 0 30)) as [new_expires|];
      [|discriminate].
    intros [= <- <- <- <- <- <-].
    apply andb_true_iff in Hrenew as [-> Hrem].
    apply negb_true_iff in Hrem.
    split; [|discriminate].
    unfold renewed, touched. rewrite <- list_fmap_compose.
    apply Forall2_fmap_r, Forall_Forall2_diag, Forall_forall.
    intros old Hold. unfold validate_frame; cbn.
    destruct (has_id sid old) eqn:Hold_id; cbn.
    + unfold has_id; cbn. fold (has_id sid old). rewrite Hold_id; cbn.
      apply has_id_true in Hold_id.
      rewrite (Hsame old Hold Hold_id). repeat split; try done.
    + rewrite Hold_id.
      apply not_true_iff_false in Hold_id. rewrite has_id_true in Hold_id.
      repeat split; try done.
  - intros [= <- <- <- <- <- <-]. unfold touched. split.
    + apply Forall2_fmap_r, Forall_Forall2_diag, Forall_forall.
      intros old Hold. unfold validate_frame; cbn.
      destruct (has_id sid old) eqn:Hold_id; cbn.
      * apply has_id_true in Hold_id. repeat split; try done.
      * apply not_true_iff_false in Hold_id. rewrite has_id_true in Hold_id.
        repeat split; try done.
    + intros _. rewrite <- list_fmap_compose. apply list_fmap_ext.
      intros i old _; cbn. by destruct (has_id sid old).
Qed.

Lemma validate_session_frame_witness :
  let mine := Sample.stored "sid-0" "tok-0" 7 "2024-05-01T12:10:00" false in
  let other := Sample.stored "sid-1" "tok-1" 8 "2024-05-01T12:45:00" false in
  let a := Sample.drawing "" "" Sample.noon in
  let db' := snd (validate_session "sid-0" "tok-0" false a [mine; other]) in
  NoDup (session_id <$> [mine; other])
  ∧ validate_session "sid-0" "tok-0" false a [mine; other]
    = (Valid 7 "user" "a@b.com" false (Sample.at_time 12 10 0), db')
  ∧ Forall2 (validate_frame "sid-0" false a) [mine; other] db'
  ∧ (false = false → expires_at <$> db' = expires_at <$> [mine; other]).
Proof.
  assert (Hnd : NoDup (session_id <$>
            [Sample.stored "sid-0" "tok-0" 7 "2024-05-01T12:10:00" false;
             Sample.stored "sid-1" "tok-1" 8 "2024-05-01T12:45:00" false])).
  { cbn. apply NoDup_cons. split; [|apply NoDup_singleton].
    rewrite list_elem_of_singleton. discriminate. }
  split; [exact Hnd|]. split; [vm_compute; reflexivity|].
  apply (validate_session_frame _ "sid-0" "tok-0" false
           (Sample.drawing "" "" Sample.noon) 7 "user" "a@b.com" false
           (Sample.at_time 12 10 0) _ Hnd).
  vm_compute; reflexivity.
Defined.

(** ** The consent gate *)

Lemma prefix_app (p s : string) :
  String.prefix p s = true ↔ ∃ rest, s = p +:+ rest.
Proof.
  revert s. induction p as [|c p IH]; intros s.
  - destruct s; cbn; split; eauto.
  - destruct s as [|d s]; cbn.
    + split; [discriminate|]. intros [rest [=]].
    + destruct (ascii_dec c d) as [->|Hne].
      * rewrite IH. split; intros [rest Hrest]; exists rest.
        -- rewrite Hrest. reflexivity.
        -- by injection Hrest.
      * split; [discriminate|]. intros [rest [= <- _]]. done.
Qed.

Lemma split_head_before_colon (s : string) :
  head (PyStr.split ":" s) = Some (PyStr.before_colon s).
Proof.
  induction s as [|c s IH]; [reflexivity|]. cbn.
  destruct (Ascii.eqb c ":"); [reflexivity|].
  destruct (PyStr.split ":" s); cbn in *; congruence.
Qed.

Lemma split_selected (rest : string) :
  PyStr.split ":" ("selected:" +:+ rest) !! 1%nat
  = Some (PyStr.before_colon rest).
Proof.
  change (PyStr.split ":" ("selected:" +:+ rest))
    with ("selected" :: PyStr.split ":" rest).
  change (("selected" :: PyStr.split ":" rest) !! 1%nat)
    with (PyStr.split ":" rest !! 0%nat).
  rewrite <- head_lookup. apply split_head_before_colon.
Qed.

(** C5, as the code has it: [can_set_session_cookies] is a function of
    the [cookies_accepted] cookie alone, an absent cookie counting as
    ["false"]; it is true iff that value is exactly ["true"], or is
    ["selected:"] followed by a rest whose part before the next colon (all
    of it when there is none), split at the commas, contains ["session"]. *)
Theorem can_set_session_cookies_iff (request : Request) :
  let preference := default "false" (cookies request !! "cookies_accepted") in
  can_set_session_cookies request = true
  ↔ preference = "true"
    ∨ ∃ rest, preference = "selected:" +:+ rest
              ∧ "session" ∈ PyStr.split "," (PyStr.before_colon rest).
Proof.
  unfold can_set_session_cookies.
  set (preference := default "false" (cookies request !! "cookies_accepted")).
  cbn. destruct (String.eqb preference "true") eqn:Htrue.
  { apply String.eqb_eq in Htrue. tauto. }
  apply String.eqb_neq in Htrue.
  unfold PyStr.startswith.
  destruct (String.prefix "selected:" preference) eqn:Hprefix.
  - apply prefix_app in Hprefix as [rest ->].
    rewrite split_selected, bool_decide_eq_true. split.
    + intros Hin. right. exists rest. done.
    + intros [?|(rest' & Heq & Hin)]; [done|].
      apply (inj (String.app "selected:")) in Heq as ->. done.
  - split; [discriminate|]. intros [?|(rest & Heq & _)]; [done|].
    assert (String.prefix "selected:" preference = true) as Hp
      by (apply prefix_app; eauto).
    congruence.
Qed.

(** C5 as stated fails on a value with a second colon: the code reads
    only the part between the first two colons, so it accepts
    ["selected:session:x"], whose category list [["session:x"]] does not
    contain ["session"]. *)
Lemma can_set_session_cookies_second_colon :
  can_set_session_cookies (Sample.request_with "selected:session:x") = true
  ∧ MayIssueSessionCookie_spec "selected:session:x" = false
  ∧ "session" ∉ PyStr.split "," (PyStr.slice_from 9 "selected:session:x").
Proof.
  split; [vm_compute; reflexivity|]. split; [vm_compute; reflexivity|].
  apply (bool_decide_eq_false_1 _). vm_compute; reflexivity.
Qed.

(** On every preference without a second colon, the one form the consent
    endpoints of the program write, the code agrees with the wording of
    the specification. *)
Lemma can_set_session_cookies_single_colon (request : Request) :
  let preference := default "false" (cookies request !! "cookies_accepted") in
  PyStr.before_colon (PyStr.slice_from 9 preference)
  = PyStr.slice_from 9 preference →
  can_set_session_cookies request = MayIssueSessionCookie_spec preference.
Proof.
  cbv zeta. unfold can_set_session_cookies, MayIssueSessionCookie_spec.
  set (preference := default "false" (cookies request !! "cookies_accepted")).
  destruct (String.eqb preference "true"); [reflexivity|]. cbn [orb].
  unfold PyStr.startswith.
  destruct (String.prefix "selected:" preference) eqn:Hprefix; [|reflexivity].
  apply prefix_app in Hprefix as [rest ->].
  change (PyStr.slice_from 9 ("selected:" +:+ rest)) with rest.
  intros Heq. by rewrite split_selected, Heq.
Qed.

(** ** The sweep *)

(** The WHERE clause of the sweep, as SQLite evaluates it: a comparison of
    two TEXT values. *)
Lemma cleanup_expired_sessions_run a (db : table) :
  cleanup_expired_sessions a db
  = (Z.of_nat (length (filter
       (λ r, text_lt (expires_at r) (datetime_text (sqlite_now a)) = true) db)),
     filter (λ r, text_lt (expires_at r) (datetime_text (sqlite_now a)) ≠ true)
       db).
Proof. reflexivity. Qed.

(** C8 fails on the code: a session created at 09:00 expires at 10:00;
    a sweep at 12:00 of the same day leaves its row in the table and
    reports 0 deleted rows, while [validate_session] at that moment finds
    the session expired.  [expires_at] holds isoformat text, with ['T']
    after the date, and [datetime('now')] has a space there; as TEXT, every
    [expires_at] of the current date is greater than [datetime('now')]. *)
Lemma cleanup_expired_sessions_keeps_expired_of_today :
  let login := create_session 7 "user" "a@b.com" (Sample.request_with "true")
                 false (Sample.drawing "sid-0" "tok-0" (Sample.at_time 9 0 0))
                 [] in
  let db := snd login in
  let a := Sample.drawing "" "" Sample.noon in
  fst login = Returns (Some "sid-0", Some "tok-0", 1800)
  ∧ expires_at <$> db = ["2024-05-01T10:00:00"]
  ∧ fromisoformat "2024-05-01T10:00:00" = Some (Sample.at_time 10 0 0)
  ∧ PyDatetime.ltb (Sample.at_time 10 0 0) (sqlite_now a) = true
  ∧ datetime_text (sqlite_now a) = "2024-05-01 12:00:00"
  ∧ text_lt "2024-05-01T10:00:00" "2024-05-01 12:00:00" = false
  ∧ cleanup_expired_sessions a db = (0, db)
  ∧ fst (validate_session "sid-0" "tok-0" false a db)
    = Invalid "session_expired" None.
Proof. vm_compute. repeat split; reflexivity. Qed.

(** ** The schema constraints hold in every table the program reaches *)

Lemma table_ok_filter (P : session → Prop) `{!∀ r, Decision (P r)} (db : table) :
  table_ok db → table_ok (filter P db).
Proof. intros [Hid Htok]. split; by apply NoDup_fmap_filter. Qed.

Lemma table_ok_update (p : session → bool) (f : session → session) (db : table) :
  (∀ r, session_id (f r) = session_id r) →
  (∀ r, access_token (f r) = access_token r) →
  table_ok db → table_ok ((λ r, if p r then f r else r) <$> db).
Proof.
  intros Hid Htok [Hnd1 Hnd2]. split.
  - by rewrite update_ids.
  - rewrite <- list_fmap_compose.
    erewrite list_fmap_ext; [exact Hnd2|].
    intros i r _; cbn. destruct (p r); [apply Htok|reflexivity].
Qed.

Lemma table_ok_insert (row : session) (db : table) :
  existsb (collides row) db = false →
  table_ok db → table_ok (db ++ [row]).
Proof.
  intros Hfree [Hid Htok].
  assert (Hno : ∀ r, r ∈ db →
            session_id r ≠ session_id row ∧ access_token r ≠ access_token row).
  { intros r Hr.
    rewrite <- not_true_iff_false, existsb_exists in Hfree.
    split; intros Heq; apply Hfree; exists r;
      (split; [by apply list_elem_of_In|]);
      unfold collides; apply orb_true_iff; [left|right];
      by apply String.eqb_eq. }
  split; rewrite fmap_app; apply NoDup_app; (split; [done|]);
    (split; [|apply NoDup_singleton]);
    intros v Hv Hin; apply list_elem_of_singleton in Hin as ->;
    apply list_elem_of_fmap in Hv as (r & Heq & Hr);
    destruct (Hno r Hr); congruence.
Qed.

Lemma create_session_table_ok uid login mail request remember a (db : table) :
  table_ok db →
  table_ok (snd (create_session uid login mail request remember a db)).
Proof.
  intros Hok. unfold create_session.
  destruct (can_set_session_cookies request); cbn; [|exact Hok].
  destruct remember;
    (destruct (add (now0 a) _) as [expires|]; [|exact Hok]);
    rewrite create_session_tx_run; cbn;
    (destruct (fits_int64 uid); [|exact Hok]);
    (destruct (existsb _ _) eqn:Hfree; [exact Hok|]); cbn;
    (apply table_ok_insert; [exact Hfree|by apply table_ok_filter]).
Qed.

Lemma validate_session_table_ok sid token prolong a (db : table) :
  table_ok db → table_ok (snd (validate_session sid token prolong a db)).
Proof.
  intros Hok. rewrite validate_session_run.
  destruct (PyStr.falsy sid || PyStr.falsy token); [exact Hok|].
  destruct (List.find (has_pair sid token) db) as [r|]; [|exact Hok].
  destruct (fromisoformat (expires_at r)) as [expires|]; [|exact Hok].
  destruct (gtb (now0 a) expires); [by apply table_ok_filter|].
  destruct (prolong && negb (remember_me r)).
  - destruct (add (now1 a) (timedelta_of 0 30)); [|exact Hok].
    unfold renewed, touched; cbn.
    apply table_ok_update; [done|done|]. by apply table_ok_update.
  - unfold touched; cbn. by apply table_ok_update.
Qed.

Lemma cleanup_expired_sessions_table_ok a (db : table) :
  table_ok db → table_ok (snd (cleanup_expired_sessions a db)).
Proof. intros Hok. rewrite cleanup_expired_sessions_run. by apply table_ok_filter. Qed.

Lemma logout_table_ok request (db : table) :
  table_ok db → table_ok (logout request db).
Proof.
  intros Hok. unfold logout.
  destruct (cookies request !! "session_id") as [sid|]; [|exact Hok].
  destruct (PyStr.falsy sid); [exact Hok|]. by apply table_ok_filter.
Qed.

(** Session ids and access tokens are pairwise distinct in every table
    the program can reach. *)
Lemma reachable_table_ok (db : table) : reachable db → table_ok db.
Proof.
  induction 1.
  - split; cbn; apply NoDup_nil_2.
  - by apply create_session_table_ok.
  - by apply validate_session_table_ok.
  - by apply cleanup_expired_sessions_table_ok.
  - by apply logout_table_ok.
Qed.

(** ** Zero-padded numbers as text *)

Lemma app_String (c : ascii) (s t : string) :
  String c s +:+ t = String c (s +:+ t).
Proof. reflexivity. Qed.

Lemma app_Empty (s : string) : EmptyString +:+ s = s.
Proof. reflexivity. Qed.

Lemma app_assoc_str (s t u : string) : (s +:+ t) +:+ u = s +:+ (t +:+ u).
Proof.
  induction s as [|c s IH]; [reflexivity|].
  rewrite !app_String. by rewrite IH.
Qed.

Lemma digit_cases (d : Z) :
  0 <= d < 10 →
  d = 0 ∨ d = 1 ∨ d = 2 ∨ d = 3 ∨ d = 4 ∨ d = 5 ∨ d = 6 ∨ d = 7 ∨ d = 8 ∨ d = 9.
Proof. lia. Qed.

Lemma digit_char_compare (a b : Z) :
  0 <= a < 10 → 0 <= b < 10 →
  Ascii.compare (PyStr.digit_char a) (PyStr.digit_char b) = (a ?= b).
Proof.
  intros Ha Hb.
  destruct (digit_cases a Ha) as [->|[->|[->|[->|[->|[->|[->|[->|[->| ->]]]]]]]]];
  destruct (digit_cases b Hb) as [->|[->|[->|[->|[->|[->|[->|[->|[->| ->]]]]]]]]];
  reflexivity.
Qed.

Lemma compare_div10 (a b : Z) (k : comparison) :
  match a / 10 ?= b / 10 with
  | Eq => match a mod 10 ?= b mod 10 with Eq => k | c => c end
  | c => c
  end
  = match a ?= b with Eq => k | c => c end.
Proof.
  pose proof (Z.div_mod a 10 ltac:(lia)).
  pose proof (Z.div_mod b 10 ltac:(lia)).
  pose proof (Z.mod_pos_bound a 10 ltac:(lia)).
  pose proof (Z.mod_pos_bound b 10 ltac:(lia)).
  destruct (Z.compare_spec (a / 10) (b / 10));
    destruct (Z.compare_spec (a mod 10) (b mod 10));
    destruct (Z.compare_spec a b); try reflexivity; lia.
Qed.

Lemma zfill_bounds_step (w : nat) (a : Z) :
  0 <= a < 10 ^ Z.of_nat (S w) →
  0 <= a / 10 < 10 ^ Z.of_nat w ∧ 0 <= a mod 10 < 10.
Proof.
  rewrite Nat2Z.inj_succ, Z.pow_succ_r by lia. intros [H0 H1].
  split; [|apply Z.mod_pos_bound; lia].
  split; [apply Z.div_pos; lia|apply Z.div_lt_upper_bound; lia].
Qed.

Lemma compare_same_head (c : ascii) (s t : string) :
  String.compare (String c s) (String c t) = String.compare s t.
Proof.
  cbn [String.compare]. unfold Ascii.compare. by rewrite N.compare_refl.
Qed.

(** Text order on two numbers padded to the same width is numeric order,
    whatever follows them deciding only between equal numbers. *)
Lemma compare_zfill (w : nat) (a b : Z) (s t : string) :
  0 <= a < 10 ^ Z.of_nat w → 0 <= b < 10 ^ Z.of_nat w →
  String.compare (PyStr.zfill w a +:+ s) (PyStr.zfill w b +:+ t)
  = match a ?= b with Eq => String.compare s t | c => c end.
Proof.
  revert a b s t. induction w as [|w IH]; intros a b s t Ha Hb.
  - change (10 ^ Z.of_nat 0) with 1 in *.
    assert (a = 0) as -> by lia. assert (b = 0) as -> by lia. reflexivity.
  - apply zfill_bounds_step in Ha as [Ha1 Ha2].
    apply zfill_bounds_step in Hb as [Hb1 Hb2].
    change (PyStr.zfill (S w) a)
      with (PyStr.zfill w (a / 10)
            +:+ String (PyStr.digit_char (a mod 10)) EmptyString).
    change (PyStr.zfill (S w) b)
      with (PyStr.zfill w (b / 10)
            +:+ String (PyStr.digit_char (b mod 10)) EmptyString).
    rewrite !app_assoc_str, !app_String, IH by assumption.
    change (String.compare (String ?c (EmptyString +:+ s))
              (String ?d (EmptyString +:+ t)))
      with (match Ascii.compare c d with
            | Eq => String.compare s t
            | ne => ne
            end).
    rewrite digit_char_compare by assumption.
    apply compare_div10.
Qed.

Lemma days_in_month_le (y m : Z) : 1 <= m <= 12 → days_in_month y m <= 31.
Proof.
  intros Hm. unfold days_in_month.
  destruct ((m =? 2) && is_leap y); [lia|].
  assert (m = 1 ∨ m = 2 ∨ m = 3 ∨ m = 4 ∨ m = 5 ∨ m = 6 ∨ m = 7 ∨ m = 8
          ∨ m = 9 ∨ m = 10 ∨ m = 11 ∨ m = 12) as Hcases by lia.
  destruct Hcases as [->|[->|[->|[->|[->|[->|[->|[->|[->|[->|[->| ->]]]]]]]]]]];
    simpl; lia.
Qed.

Lemma valid_bounds (t : datetime) :
  valid t = true →
  1 <= year t <= 9999 ∧ 1 <= month t <= 12 ∧ 1 <= day t <= 31
  ∧ 0 <= hour t < 24 ∧ 0 <= minute t < 60 ∧ 0 <= second t < 60
  ∧ 0 <= microsecond t < 1000000.
Proof.
  unfold valid. rewrite !andb_true_iff, !Z.leb_le, !Z.ltb_lt.
  intros Hv. pose proof (days_in_month_le (year t) (month t)). lia.
Qed.

(** As TEXT, an isoformat datetime is smaller than SQLite's datetime text
    exactly when its calendar date is the earlier one: on equal dates the
    ['T'] of isoformat is greater than the space of SQLite's format, and
    the times of day are never compared. *)
Lemma text_lt_isoformat_datetime_text (e n : datetime) :
  valid e = true → valid n = true →
  text_lt (isoformat e) (datetime_text n) = date_ltb e n.
Proof.
  intros He Hn.
  apply valid_bounds in He as (Hy & Hm & Hd & _).
  apply valid_bounds in Hn as (Hy' & Hm' & Hd' & _).
  unfold text_lt, String.ltb, isoformat, datetime_text, date_ltb, date_of.
  rewrite compare_zfill
    by (change (10 ^ Z.of_nat 4) with 10000; lia).
  cbn [lex_compare].
  destruct (year e ?= year n); try reflexivity.
  rewrite ?app_String, compare_same_head, ?app_Empty.
  rewrite compare_zfill by (change (10 ^ Z.of_nat 2) with 100; lia).
  destruct (month e ?= month n); try reflexivity.
  rewrite ?app_String, compare_same_head, ?app_Empty.
  rewrite compare_zfill by (change (10 ^ Z.of_nat 2) with 100; lia).
  destruct (day e ?= day n); reflexivity.
Qed.

(** What the sweep does to a row holding isoformat text: the row goes
    exactly when its expiry date is before the UTC date of the sweep. *)
Lemma cleanup_expired_sessions_by_date a (db : table) (r : session) e :
  valid (sqlite_now a) = true →
  expires_at r = isoformat e → valid e = true →
  r ∈ snd (cleanup_expired_sessions a db)
  ↔ r ∈ db ∧ date_ltb e (sqlite_now a) = false.
Proof.
  intros Hnow Htext He. rewrite cleanup_expired_sessions_run; cbn [snd].
  rewrite list_elem_of_filter, Htext, text_lt_isoformat_datetime_text by done.
  rewrite not_true_iff_false. tauto.
Qed.

(** ** [fromisoformat] reads back what [isoformat] writes *)

Lemma digit_val_digit_char (d : Z) :
  0 <= d < 10 → PyStr.digit_val (PyStr.digit_char d) = Some d.
Proof.
  intros Hd.
  destruct (digit_cases d Hd) as [->|[->|[->|[->|[->|[->|[->|[->|[->| ->]]]]]]]]];
    reflexivity.
Qed.

Lemma digits_from_app (acc : Z) (s t : string) :
  PyStr.digits_from acc (s +:+ t)
  = PyStr.digits_from acc s ≫= λ acc', PyStr.digits_from acc' t.
Proof.
  revert acc. induction s as [|c s IH]; intros acc; [reflexivity|].
  rewrite app_String. cbn [PyStr.digits_from].
  destruct (PyStr.digit_val c); [apply IH|reflexivity].
Qed.

Lemma digits_from_zfill (w : nat) (n acc : Z) :
  0 <= n < 10 ^ Z.of_nat w →
  PyStr.digits_from acc (PyStr.zfill w n) = Some (acc * 10 ^ Z.of_nat w + n).
Proof.
  revert n. induction w as [|w IH]; intros n Hn.
  - change (10 ^ Z.of_nat 0) with 1 in *.
    change (PyStr.zfill 0 n) with EmptyString. cbn [PyStr.digits_from].
    f_equal. lia.
  - pose proof (zfill_bounds_step w n Hn) as [Hdiv Hmod].
    change (PyStr.zfill (S w) n)
      with (PyStr.zfill w (n / 10)
            +:+ String (PyStr.digit_char (n mod 10)) EmptyString).
    rewrite digits_from_app, IH by assumption. cbn [mbind option_bind].
    cbn [PyStr.digits_from]. rewrite digit_val_digit_char by assumption.
    f_equal. rewrite Nat2Z.inj_succ, Z.pow_succ_r by lia.
    pose proof (Z.div_mod n 10 ltac:(lia)). lia.
Qed.

Lemma zfill_not_empty (w : nat) (n : Z) : PyStr.zfill (S w) n ≠ EmptyString.
Proof.
  change (PyStr.zfill (S w) n)
    with (PyStr.zfill w (n / 10)
          +:+ String (PyStr.digit_char (n mod 10)) EmptyString).
  destruct (PyStr.zfill w (n / 10)); discriminate.
Qed.

Lemma parse_digits_zfill (w : nat) (n : Z) :
  0 <= n < 10 ^ Z.of_nat (S w) →
  PyStr.parse_digits (PyStr.zfill (S w) n) = Some n.
Proof.
  intros Hn. unfold PyStr.parse_digits.
  pose proof (zfill_not_empty w n) as Hne.
  destruct (PyStr.zfill (S w) n) eqn:Hz; [done|].
  rewrite <- Hz, digits_from_zfill by assumption. done.
Qed.

Lemma zfill_2 (n : Z) :
  PyStr.zfill 2 n
  = String (PyStr.digit_char (n / 10 mod 10))
      (String (PyStr.digit_char (n mod 10)) EmptyString).
Proof. reflexivity. Qed.

Lemma zfill_4 (n : Z) :
  PyStr.zfill 4 n
  = String (PyStr.digit_char (n / 10 / 10 / 10 mod 10))
      (String (PyStr.digit_char (n / 10 / 10 mod 10))
         (String (PyStr.digit_char (n / 10 mod 10))
            (String (PyStr.digit_char (n mod 10)) EmptyString))).
Proof. reflexivity. Qed.

Lemma zfill_6 (n : Z) :
  PyStr.zfill 6 n
  = String (PyStr.digit_char (n / 10 / 10 / 10 / 10 / 10 mod 10))
      (String (PyStr.digit_char (n / 10 / 10 / 10 / 10 mod 10))
         (String (PyStr.digit_char (n / 10 / 10 / 10 mod 10))
            (String (PyStr.digit_char (n / 10 / 10 mod 10))
               (String (PyStr.digit_char (n / 10 mod 10))
                  (String (PyStr.digit_char (n mod 10)) EmptyString))))).
Proof. reflexivity. Qed.

Lemma fromisoformat_isoformat (t : datetime) :
  valid t = true → fromisoformat (isoformat t) = Some t.
Proof.
  intros Hvalid.
  pose proof (valid_bounds t Hvalid) as (Hy & Hm & Hd & Hh & Hmi & Hs & Hus).
  assert (Py : PyStr.parse_digits (PyStr.zfill 4 (year t)) = Some (year t))
    by (apply parse_digits_zfill; change (10 ^ Z.of_nat 4) with 10000; lia).
  assert (P2 : ∀ n, 0 <= n < 100 →
                    PyStr.parse_digits (PyStr.zfill 2 n) = Some n)
    by (intros n Hn; apply parse_digits_zfill;
        change (10 ^ Z.of_nat 2) with 100; lia).
  assert (Pus : PyStr.parse_digits (PyStr.zfill 6 (microsecond t))
                = Some (microsecond t))
    by (apply parse_digits_zfill; change (10 ^ Z.of_nat 6) with 1000000; lia).
  pose proof (P2 (month t) ltac:(lia)) as Pm.
  pose proof (P2 (day t) ltac:(lia)) as Pd.
  pose proof (P2 (hour t) ltac:(lia)) as Ph.
  pose proof (P2 (minute t) ltac:(lia)) as Pmi.
  pose proof (P2 (second t) ltac:(lia)) as Ps.
  clear P2. rewrite zfill_2 in Pm, Pd, Ph, Pmi, Ps.
  rewrite zfill_4 in Py. rewrite zfill_6 in Pus.
  unfold fromisoformat, isoformat. rewrite zfill_4, !zfill_2.
  destruct (microsecond t =? 0) eqn:Hzero.
  - apply Z.eqb_eq in Hzero.
    cbv [String.append].
    match goal with |- (if iso_layout ?s then _ else _) = _ =>
      change (iso_layout s) with true;
      change (Nat.eqb (String.length s) 19) with true
    end.
    cbn [String.substring].
    rewrite Py, Pm, Pd, Ph, Pmi, Ps. cbn [mbind option_bind].
    rewrite <- Hzero. destruct t; cbn in *. by rewrite Hvalid.
  - rewrite zfill_6. cbv [String.append].
    match goal with |- (if iso_layout ?s then _ else _) = _ =>
      change (iso_layout s) with true;
      change (Nat.eqb (String.length s) 19) with false
    end.
    cbn [String.substring].
    rewrite Py, Pm, Pd, Ph, Pmi, Ps, Pus. cbn [mbind option_bind].
    destruct t; cbn in *. by rewrite Hvalid.
Qed.

(** ** [datetime + timedelta] is a well-formed datetime *)

Lemma month_day_ok_all (leapyear : bool) (n : Z) :
  0 <= n < 365 → month_day_ok leapyear n = true.
Proof.
  intros Hn.
  assert (Hall : forallb (λ k, month_day_ok true (Z.of_nat k)
                               && month_day_ok false (Z.of_nat k))
                   (seq 0 365) = true) by (vm_compute; reflexivity).
  rewrite forallb_forall in Hall.
  specialize (Hall (Z.to_nat n)).
  rewrite Z2Nat.id in Hall by lia.
  assert (Hin : In (Z.to_nat n) (seq 0 365)) by (apply in_seq; lia).
  apply Hall, andb_true_iff in Hin as [Ht Hf].
  by destruct leapyear.
Qed.

Lemma is_leap_of_cycles (n400 n100 n4 n1 : Z) :
  0 <= n400 → 0 <= n100 <= 3 → 0 <= n4 <= 24 → 0 <= n1 <= 3 →
  is_leap (n400 * 400 + 1 + n100 * 100 + n4 * 4 + n1)
  = (n1 =? 3) && (negb (n4 =? 24) || (n100 =? 3)).
Proof.
  intros H400 H100 H4 H1. unfold is_leap.
  set (y := n400 * 400 + 1 + n100 * 100 + n4 * 4 + n1).
  pose proof (Z.div_mod y 4 ltac:(lia)).
  pose proof (Z.mod_pos_bound y 4 ltac:(lia)).
  pose proof (Z.div_mod y 100 ltac:(lia)).
  pose proof (Z.mod_pos_bound y 100 ltac:(lia)).
  pose proof (Z.div_mod y 400 ltac:(lia)).
  pose proof (Z.mod_pos_bound y 400 ltac:(lia)).
  destruct (Z.eqb_spec (y mod 4) 0), (Z.eqb_spec (y mod 100) 0),
    (Z.eqb_spec (y mod 400) 0), (Z.eqb_spec n1 3), (Z.eqb_spec n4 24),
    (Z.eqb_spec n100 3); cbn; try reflexivity; exfalso; subst y; lia.
Qed.

Lemma ord2ymd_valid (n : Z) :
  1 <= n <= MAXORDINAL →
  let '(y, m, d) := ord2ymd n in
  1 <= y <= 9999 ∧ 1 <= m <= 12 ∧ 1 <= d <= days_in_month y m.
Proof.
  unfold MAXORDINAL, ord2ymd, DI400Y, DI100Y, DI4Y. intros Hn. cbv zeta.
  pose proof (Z.div_mod (n - 1) 146097 ltac:(lia)) as E400.
  pose proof (Z.mod_pos_bound (n - 1) 146097 ltac:(lia)) as B400.
  set (n400 := (n - 1) / 146097) in *. set (r400 := (n - 1) mod 146097) in *.
  pose proof (Z.div_mod r400 36524 ltac:(lia)) as E100.
  pose proof (Z.mod_pos_bound r400 36524 ltac:(lia)) as B100.
  set (n100 := r400 / 36524) in *. set (r100 := r400 mod 36524) in *.
  pose proof (Z.div_mod r100 1461 ltac:(lia)) as E4.
  pose proof (Z.mod_pos_bound r100 1461 ltac:(lia)) as B4.
  set (n4 := r100 / 1461) in *. set (r4 := r100 mod 1461) in *.
  pose proof (Z.div_mod r4 365 ltac:(lia)) as E1.
  pose proof (Z.mod_pos_bound r4 365 ltac:(lia)) as B1.
  set (n1 := r4 / 365) in *. set (r1 := r4 mod 365) in *.
  assert (0 <= n400 ∧ 0 <= n100 <= 4 ∧ 0 <= n4 <= 24 ∧ 0 <= n1 <= 4)
    as (P400 & P100 & P4 & P1) by lia.
  destruct ((n1 =? 4) || (n100 =? 4)) eqn:Hend.
  - apply orb_true_iff in Hend. rewrite !Z.eqb_eq in Hend.
    unfold days_in_month. change (12 =? 2) with false. cbn [andb].
    change (nth (Z.to_nat (12 - 1)) days_in_month_table 0) with 31. lia.
  - apply orb_false_iff in Hend as [Hn1 Hn100].
    apply Z.eqb_neq in Hn1, Hn100.
    rewrite <- (is_leap_of_cycles n400 n100 n4 n1) by lia.
    set (y := n400 * 400 + 1 + n100 * 100 + n4 * 4 + n1).
    pose proof (month_day_ok_all (is_leap y) r1 ltac:(lia)) as Hmd.
    unfold month_day_ok in Hmd.
    destruct (month_day (is_leap y) r1) as [m d].
    rewrite !andb_true_iff, !Z.leb_le in Hmd.
    unfold days_in_month. subst y. lia.
Qed.

Lemma add_valid (t : datetime) (delta : timedelta) (t' : datetime) :
  add t delta = Some t' → valid t' = true.
Proof.
  unfold add. cbv zeta.
  set (total := _ + _ + _).
  destruct ((0 <? total / US_PER_DAY) && (total / US_PER_DAY <=? MAXORDINAL))
    eqn:Hrange; [|discriminate].
  apply andb_true_iff in Hrange as [Hlo Hhi].
  apply Z.ltb_lt in Hlo. apply Z.leb_le in Hhi.
  pose proof (ord2ymd_valid (total / US_PER_DAY) ltac:(lia)) as Hymd.
  destruct (ord2ymd (total / US_PER_DAY)) as [[y m] d].
  intros [= <-]. unfold valid; cbn [year month day hour minute second microsecond].
  unfold US_PER_DAY in *.
  pose proof (Z.mod_pos_bound total (86400 * 1000000) ltac:(lia)) as Hrest.
  set (rest := total mod (86400 * 1000000)) in *.
  pose proof (Z.div_mod rest 1000000 ltac:(lia)) as Esec.
  pose proof (Z.mod_pos_bound rest 1000000 ltac:(lia)) as Bus.
  set (secs := rest / 1000000) in *.
  pose proof (Z.div_mod secs 3600 ltac:(lia)) as Eh.
  pose proof (Z.mod_pos_bound secs 3600 ltac:(lia)) as Bh.
  pose proof (Z.div_mod (secs mod 3600) 60 ltac:(lia)) as Em.
  pose proof (Z.mod_pos_bound (secs mod 3600) 60 ltac:(lia)) as Bm.
  pose proof (Z.mod_pos_bound secs 60 ltac:(lia)) as Bs.
  rewrite !andb_true_iff, !Z.leb_le, !Z.ltb_lt. lia.
Qed.

(** ** Every stored row is well formed *)

Lemma create_session_table uid login mail request remember a (db : table) :
  snd (create_session uid login mail request remember a db) = db
  ∨ ∃ expires,
      add (now0 a) (session_duration remember) = Some expires
      ∧ snd (create_session uid login mail request remember a db)
        = other_users uid db
          ++ [inserted_row uid login mail request remember a expires].
Proof.
  unfold create_session, session_duration.
  destruct (can_set_session_cookies request); cbn; [|by left].
  destruct remember;
    (destruct (add (now0 a) _) as [expires|]; [|by left]);
    rewrite create_session_tx_run; cbn;
    (destruct (fits_int64 uid); [|by left]);
    (destruct (existsb _ _); [by left|]);
    right; by exists expires.
Qed.

Lemma validate_session_table sid token prolong a (db : table) :
  snd (validate_session sid token prolong a db) = db
  ∨ snd (validate_session sid token prolong a db) = without_id sid db
  ∨ snd (validate_session sid token prolong a db) = touched sid a db
  ∨ ∃ new_expires,
      add (now1 a) (timedelta_of 0 30) = Some new_expires
      ∧ snd (validate_session sid token prolong a db)
        = renewed sid (isoformat new_expires) (touched sid a db).
Proof.
  rewrite validate_session_run.
  destruct (PyStr.falsy sid || PyStr.falsy token); [by left|].
  destruct (List.find (has_pair sid token) db) as [r|]; [|by left].
  destruct (fromisoformat (expires_at r)) as [expires|]; [|by left].
  destruct (gtb (now0 a) expires); [by right; left|].
  destruct (prolong && negb (remember_me r)); [|by right; right; left].
  destruct (add (now1 a) (timedelta_of 0 30)) as [new_expires|]; [|by left].
  right; right; right. by exists new_expires.
Qed.

Lemma rows_ok_filter (P : session → Prop) `{!∀ r, Decision (P r)} (db : table) :
  Forall row_ok db → Forall row_ok (filter P db).
Proof.
  rewrite !Forall_forall. intros Hdb r Hr.
  apply list_elem_of_filter in Hr as [_ Hr]. by apply Hdb.
Qed.

Lemma rows_ok_update (p : session → bool) (f : session → session) (db : table) :
  (∀ r, row_ok r → row_ok (f r)) →
  Forall row_ok db → Forall row_ok ((λ r, if p r then f r else r) <$> db).
Proof.
  intros Hf Hdb. apply Forall_fmap. eapply Forall_impl; [exact Hdb|].
  intros r Hr. cbn. destruct (p r); auto.
Qed.

Lemma reachable_rows_ok (db : table) : reachable db → Forall row_ok db.
Proof.
  induction 1 as [|uid login mail request remember a db Hsid Htok _ IH
                  |sid token prolong a db _ IH|a db _ IH|request db _ IH].
  - constructor.
  - destruct (create_session_table uid login mail request remember a db)
      as [->|(expires & Hadd & ->)]; [exact IH|].
    apply Forall_app. split; [by apply rows_ok_filter|].
    apply Forall_singleton. repeat split; try done.
    exists expires. split; [by eapply add_valid|reflexivity].
  - destruct (validate_session_table sid token prolong a db)
      as [->|[->|[->|(new_expires & Hadd & ->)]]].
    + exact IH.
    + by apply rows_ok_filter.
    + apply rows_ok_update; [|exact IH]. by intros r (? & ? & ?).
    + apply rows_ok_update.
      * intros r (? & ? & _). repeat split; try done.
        exists new_expires. split; [by eapply add_valid|reflexivity].
      * apply rows_ok_update; [|exact IH]. by intros r (? & ? & ?).
  - rewrite cleanup_expired_sessions_run. by apply rows_ok_filter.
  - unfold logout.
    destruct (cookies request !! "session_id") as [sid|]; [|exact IH].
    destruct (PyStr.falsy sid); [exact IH|]. by apply rows_ok_filter.
Qed.

(** A stored row's [expires_at] is read back by [validate_session] as the
    datetime it was written from. *)
Lemma row_ok_parses (r : session) :
  row_ok r → ∃ e, valid e = true ∧ fromisoformat (expires_at r) = Some e.
Proof.
  intros (_ & _ & e & Hvalid & ->). exists e.
  split; [exact Hvalid|by apply fromisoformat_isoformat].
Qed.

(** Every hypothesis the theorems above make on a stored session holds of
    every session in a table the program reached. *)
Lemma reachable_stored_session (db : table) (r : session) :
  reachable db → r ∈ db →
  NoDup (session_id <$> db)
  ∧ session_id r ≠ "" ∧ access_token r ≠ ""
  ∧ ∃ e, valid e = true ∧ fromisoformat (expires_at r) = Some e.
Proof.
  intros Hreach Hr.
  destruct (reachable_table_ok db Hreach) as [Hids _].
  pose proof (reachable_rows_ok db Hreach) as Hrows.
  rewrite Forall_forall in Hrows. specialize (Hrows r Hr).
  destruct (row_ok_parses r Hrows) as (e & Hvalid & Hparse).
  destruct Hrows as (Hsid & Htok & _). eauto 10.
Qed.

(** ** The end-to-end scenarios of the specification *)

Example scenario_1_create :
  let login := run_create (Sample.login_of 7 false "sid-A" "tok-A") [] in
  fst login = Returns (Some "sid-A", Some "tok-A", 1800)
  ∧ user_id <$> snd login = [7].
Proof. vm_compute. split; reflexivity. Qed.

Example scenario_2_create_again :
  let db := run_creates [Sample.login_of 7 false "sid-A" "tok-A";
                         Sample.login_of 7 false "sid-B" "tok-B"] [] in
  session_id <$> db = ["sid-B"]
  ∧ fst (validate_session "sid-A" "tok-A" true
           (Sample.drawing "" "" Sample.noon) db)
    = Invalid "session_not_found" None.
Proof. vm_compute. split; reflexivity. Qed.

Example scenario_3_expired :
  validate_session "sid-0" "tok-0" false (Sample.drawing "" "" Sample.noon)
    [Sample.stored "sid-0" "tok-0" 7 "2024-05-01T11:59:59" false]
  = (Invalid "session_expired" None, []).
Proof. vm_compute. reflexivity. Qed.

Example scenario_4_expired_remembered :
  validate_session "sid-0" "tok-0" false (Sample.drawing "" "" Sample.noon)
    [Sample.stored "sid-0" "tok-0" 7 "2024-05-01T11:59:59" true]
  = (Invalid "session_expired" (Some ("a@b.com", true)), []).
Proof. vm_compute. reflexivity. Qed.

Example scenario_5_wrong_token :
  fst (validate_session "sid-0" "tok-X" true (Sample.drawing "" "" Sample.noon)
         [Sample.stored "sid-0" "tok-0" 7 "2024-05-01T12:30:00" false])
  = Invalid "session_not_found" None.
Proof. vm_compute. reflexivity. Qed.

Example scenario_6_no_consent :
  can_set_session_cookies (Sample.request_with "selected:functional") = false
  ∧ create_session 7 "user" "a@b.com"
      (Sample.request_with "selected:functional") false
      (Sample.drawing "sid-A" "tok-A" Sample.noon) []
    = (Returns (None, None, 0), []).
Proof. vm_compute. split; reflexivity. Qed.

(** * Further properties of the session core *)

(** ** Helper facts *)

Lemma filter_split_length {A} (p : A → bool) (l : list A) :
  (length (filter (λ x, p x = true) l)
   + length (filter (λ x, p x ≠ true) l))%nat = length l.
Proof.
  induction l as [|x l IH]; [reflexivity|].
  rewrite !filter_cons.
  destruct (decide (p x = true)), (decide (p x ≠ true)); cbn; try lia; done.
Qed.

Lemma filter_filter_same {A} (P : A → Prop) `{!∀ x, Decision (P x)} (l : list A) :
  filter P (filter P l) = filter P l.
Proof.
  induction l as [|x l IH]; [reflexivity|].
  rewrite filter_cons. destruct (decide (P x)); [|exact IH].
  rewrite filter_cons_True by done. by rewrite IH.
Qed.



Lemma date_not_before (now e : datetime) :
  gtb now e = false → date_ltb e now = false.
Proof.
  unfold gtb, date_ltb, compare, fields, date_of. cbn [lex_compare].
  rewrite (Z.compare_antisym (year now) (year e)).
  rewrite (Z.compare_antisym (month now) (month e)).
  rewrite (Z.compare_antisym (day now) (day e)).
  destruct (year now ?= year e); cbn; try done.
  destruct (month now ?= month e); cbn; try done.
  destruct (day now ?= day e); cbn; done.
Qed.

Lemma select_none (sid token : string) (db : table) :
  (∀ r, r ∈ db → ¬ (session_id r = sid ∧ access_token r = token)) →
  List.find (has_pair sid token) db = None.
Proof.
  intros Hnone. apply find_none_iff. intros r Hr.
  apply not_true_iff_false. rewrite has_pair_true. by apply Hnone.
Qed.

Lemma validate_session_not_found sid token prolong a (db : table) :
  sid ≠ "" → token ≠ "" →
  (∀ r, r ∈ db → ¬ (session_id r = sid ∧ access_token r = token)) →
  validate_session sid token prolong a db
  = (Invalid "session_not_found" None, db).
Proof.
  intros Hsid Htok Hnone.
  rewrite validate_session_run, !falsy_false by assumption; cbn.
  by rewrite select_none.
Qed.

Lemma create_session_success_table_ok uid login mail request remember a
      (db : table) sid token max_age db' :
  table_ok db →
  create_session uid login mail request remember a db
    = (Returns (Some sid, Some token, max_age), db') →
  table_ok db'.
Proof.
  intros Hok Hrun.
  pose proof (create_session_table_ok uid login mail request remember a db Hok)
    as Hok'.
  by rewrite Hrun in Hok'.
Qed.

(** ** The table invariant *)

(** X1: in every table the program reaches from the empty one (by
    [create_session], [validate_session], [cleanup_expired_sessions] and
    [logout], tokens drawn being non-empty), session ids are pairwise
    distinct, access tokens are pairwise distinct, and every row carries a
    non-empty pair and an [expires_at] that [fromisoformat] reads as a
    well-formed datetime. *)
Theorem reachable_table_invariant (db : table) :
  reachable db →
  NoDup (session_id <$> db) ∧ NoDup (access_token <$> db)
  ∧ ∀ r, r ∈ db →
      session_id r ≠ "" ∧ access_token r ≠ ""
      ∧ ∃ e, valid e = true ∧ fromisoformat (expires_at r) = Some e.
Proof.
  intros Hreach.
  destruct (reachable_table_ok db Hreach) as [Hids Htoks].
  split; [exact Hids|]. split; [exact Htoks|].
  intros r Hr.
  destruct (reachable_stored_session db r Hreach Hr) as (_ & ? & ? & ?).
  done.
Qed.

Lemma reachable_table_invariant_witness :
  let db := snd (create_session 8 "user" "a@b.com" (Sample.request_with "true")
                   true (Sample.drawing "sid-B" "tok-B" Sample.noon)
                   (snd (create_session 7 "user" "a@b.com"
                           (Sample.request_with "true") false
                           (Sample.drawing "sid-A" "tok-A" Sample.noon) []))) in
  session_id <$> db = ["sid-A"; "sid-B"]
  ∧ NoDup (session_id <$> db) ∧ NoDup (access_token <$> db)
  ∧ ∀ r, r ∈ db →
      session_id r ≠ "" ∧ access_token r ≠ ""
      ∧ ∃ e, valid e = true ∧ fromisoformat (expires_at r) = Some e.
Proof.
  split; [vm_compute; reflexivity|].
  apply reachable_table_invariant.
  apply reach_create; [discriminate|discriminate|].
  apply reach_create; [discriminate|discriminate|].
  apply reach_init.
Defined.

(** ** The sweep *)

(** X2: a row whose [expires_at] is the isoformat text of a datetime [e]
    survives [cleanup_expired_sessions] exactly when the calendar date of
    [e] is not before the calendar date of SQLite's UTC [now]: it is
    removed when its date is an earlier day, and the times of day play no
    part. *)
Theorem sweep_removes_by_calendar_date a (db : table) (r : session) e :
  valid (sqlite_now a) = true →
  valid e = true → expires_at r = isoformat e → r ∈ db →
  (r ∈ snd (cleanup_expired_sessions a db)
   ↔ date_ltb e (sqlite_now a) = false).
Proof.
  intros Hnow He Htext Hr.
  rewrite (cleanup_expired_sessions_by_date a db r e Hnow Htext He). tauto.
Qed.

Lemma sweep_removes_by_calendar_date_witness :
  let today := Sample.stored "sid-0" "tok-0" 7 "2024-05-01T00:00:01" false in
  let yesterday := Sample.stored "sid-1" "tok-1" 8 "2024-04-30T23:59:59" false in
  let a := Sample.drawing "" "" Sample.noon in
  (today ∈ snd (cleanup_expired_sessions a [today; yesterday]))
  ∧ (yesterday ∉ snd (cleanup_expired_sessions a [today; yesterday])).
Proof.
  pose (today := Sample.stored "sid-0" "tok-0" 7 "2024-05-01T00:00:01" false).
  pose (yesterday := Sample.stored "sid-1" "tok-1" 8 "2024-04-30T23:59:59" false).
  pose (a := Sample.drawing "" "" Sample.noon).
  split.
  - apply (sweep_removes_by_calendar_date a [today; yesterday] today
             (Sample.at_time 0 0 1));
      [reflexivity|reflexivity|reflexivity|left|reflexivity].
  - intros Hin.
    apply (sweep_removes_by_calendar_date a [today; yesterday] yesterday
             (mk_datetime 2024 4 30 23 59 59 0)) in Hin;
      [discriminate Hin|reflexivity|reflexivity|reflexivity|right; left].
Defined.

(** X3: a row whose [expires_at], read as a naive datetime, is not before
    SQLite's UTC [now] is never removed by the sweep. *)
Theorem sweep_spares_unexpired a (db : table) (r : session) e :
  valid (sqlite_now a) = true →
  valid e = true → expires_at r = isoformat e → r ∈ db →
  gtb (sqlite_now a) e = false →
  r ∈ snd (cleanup_expired_sessions a db).
Proof.
  intros Hnow He Htext Hr Hlive.
  apply (cleanup_expired_sessions_by_date a db r e Hnow Htext He).
  split; [exact Hr|]. by apply date_not_before.
Qed.

Lemma sweep_spares_unexpired_witness :
  let r := Sample.stored "sid-0" "tok-0" 7 "2024-05-01T12:00:00" false in
  r ∈ snd (cleanup_expired_sessions (Sample.drawing "" "" Sample.noon) [r]).
Proof.
  apply (sweep_spares_unexpired (Sample.drawing "" "" Sample.noon) _ _
           Sample.noon); [reflexivity|reflexivity|reflexivity|left|reflexivity].
Defined.

(** X4: [cleanup_expired_sessions] returns the number of rows it removed,
    keeps the remaining rows unchanged and in order, and a second sweep at
    the same [now] removes nothing. *)
Theorem cleanup_expired_sessions_count_idempotent a (db : table) :
  let '(deleted_count, db') := cleanup_expired_sessions a db in
  deleted_count = Z.of_nat (length db) - Z.of_nat (length db')
  ∧ db' `sublist_of` db
  ∧ cleanup_expired_sessions a db' = (0, db').
Proof.
  rewrite !cleanup_expired_sessions_run.
  split; [|split].
  - pose proof (filter_split_length
                  (λ r, text_lt (expires_at r) (datetime_text (sqlite_now a)))
                  db) as Hsplit.
    cbn beta in Hsplit. lia.
  - apply sublist_filter.
  - rewrite filter_filter_same. f_equal.
    rewrite filter_none; [reflexivity|].
    intros r Hr. by apply list_elem_of_filter in Hr as [? _].
Qed.

(** ** [validate_session] beyond the valid path *)

Lemma same_identity_update (p : session → bool) (f : session → session)
    (db : table) (r' : session) :
  (∀ r, same_identity r (f r)) →
  r' ∈ (λ r, if p r then f r else r) <$> db →
  ∃ r, r ∈ db ∧ same_identity r r'.
Proof.
  intros Hf Hr'. apply list_elem_of_fmap in Hr' as (r & -> & Hr).
  exists r. split; [exact Hr|].
  destruct (p r); [apply Hf|]. by repeat split.
Qed.

(** X5: whatever it answers, [validate_session] adds no row and gives no
    row another identity: the session ids afterwards are a sub-list of the
    ids before, and every row afterwards is a row from before in all
    columns but [last_activity] and [expires_at]. *)
Theorem validate_session_keeps_identity sid token prolong a (db : table) :
  let db' := snd (validate_session sid token prolong a db) in
  session_id <$> db' `sublist_of` session_id <$> db
  ∧ ∀ r', r' ∈ db' → ∃ r, r ∈ db ∧ same_identity r r'.
Proof.
  cbv zeta.
  destruct (validate_session_table sid token prolong a db)
    as [->|[->|[->|(new_expires & _ & ->)]]].
  - split; [done|]. intros r' Hr'. exists r'. by repeat split.
  - split.
    + apply fmap_sublist, sublist_filter.
    + intros r' Hr'. apply without_id_spec in Hr' as [Hr' _].
      exists r'. by repeat split.
  - unfold touched. split.
    + by rewrite update_ids.
    + intros r' Hr'. eapply same_identity_update; [|exact Hr'].
      intros r. by repeat split.
  - unfold renewed, touched. split.
    + by rewrite !update_ids.
    + intros r' Hr'.
      eapply same_identity_update in Hr' as (r1 & Hr1 & Hid1);
        [|intros r; by repeat split].
      eapply same_identity_update in Hr1 as (r & Hr & Hid);
        [|intros r; by repeat split].
      exists r. split; [exact Hr|].
      unfold same_identity in *. intuition congruence.
Qed.

(** X6: once [validate_session] has answered ["session_expired"] for a
    pair, the same pair is answered ["session_not_found"] from then on, as
    long as no new session is created: the row is gone. *)
Theorem validate_session_expired_then_not_found
    (db : table) (r : session) prolong a expires prolong' a' :
  NoDup (session_id <$> db) → r ∈ db →
  session_id r ≠ "" → access_token r ≠ "" →
  fromisoformat (expires_at r) = Some expires →
  gtb (now0 a) expires = true →
  let db' := snd (validate_session (session_id r) (access_token r) prolong a db) in
  validate_session (session_id r) (access_token r) prolong' a' db'
  = (Invalid "session_not_found" None, db').
Proof.
  intros Hnd Hr Hsid Htok Hparse Hlate. cbv zeta.
  rewrite (validate_session_run _ _ prolong a db), !falsy_false by assumption.
  cbn [orb]. rewrite find_has_pair, Hparse, Hlate by assumption. cbn [snd].
  apply validate_session_not_found; [assumption|assumption|].
  intros r' Hr' [Hid _]. by apply without_id_spec in Hr' as [_ ?].
Qed.

Lemma validate_session_expired_then_not_found_witness :
  let r := Sample.stored "sid-0" "tok-0" 7 "2024-05-01T11:59:59" true in
  let a := Sample.drawing "" "" Sample.noon in
  let db' := snd (validate_session "sid-0" "tok-0" true a [r]) in
  fst (validate_session "sid-0" "tok-0" true a [r])
  = Invalid "session_expired" (Some ("a@b.com", true))
  ∧ validate_session "sid-0" "tok-0" true a db'
    = (Invalid "session_not_found" None, db').
Proof.
  split; [vm_compute; reflexivity|].
  apply (validate_session_expired_then_not_found
           [Sample.stored "sid-0" "tok-0" 7 "2024-05-01T11:59:59" true]
           (Sample.stored "sid-0" "tok-0" 7 "2024-05-01T11:59:59" true)
           true (Sample.drawing "" "" Sample.noon) (Sample.at_time 11 59 59)).
  - cbn. apply NoDup_singleton.
  - left.
  - discriminate.
  - discriminate.
  - vm_compute; reflexivity.
  - vm_compute; reflexivity.
Defined.

(** X7: when a valid session is to be renewed but [now + 30 minutes] is
    past the last representable datetime, [validate_session] answers
    ["error"] and the table is left as it was: the update of
    [last_activity] made before the failure is never committed. *)
Theorem validate_session_renewal_out_of_range
    (db : table) (r : session) a expires :
  NoDup (session_id <$> db) → r ∈ db →
  session_id r ≠ "" → access_token r ≠ "" →
  fromisoformat (expires_at r) = Some expires →
  gtb (now0 a) expires = false →
  remember_me r = false →
  add (now1 a) (timedelta_of 0 30) = None →
  validate_session (session_id r) (access_token r) true a db
  = (Invalid "error" None, db).
Proof.
  intros Hnd Hr Hsid Htok Hparse Hlive Hrem Hadd.
  rewrite validate_session_run, !falsy_false by assumption. cbn [orb].
  rewrite find_has_pair, Hparse, Hlive, Hrem, Hadd by assumption.
  reflexivity.
Qed.

Lemma validate_session_renewal_out_of_range_witness :
  let r := Sample.stored "sid-0" "tok-0" 7 "9999-12-31T23:59:00" false in
  let late := mk_datetime 9999 12 31 23 45 0 0 in
  validate_session "sid-0" "tok-0" true (Sample.drawing "" "" late) [r]
  = (Invalid "error" None, [r]).
Proof.
  apply (validate_session_renewal_out_of_range
           [Sample.stored "sid-0" "tok-0" 7 "9999-12-31T23:59:00" false]
           (Sample.stored "sid-0" "tok-0" 7 "9999-12-31T23:59:00" false)
           (Sample.drawing "" "" (mk_datetime 9999 12 31 23 45 0 0))
           (mk_datetime 9999 12 31 23 59 0 0)).
  - cbn. apply NoDup_singleton.
  - left.
  - discriminate.
  - discriminate.
  - vm_compute; reflexivity.
  - vm_compute; reflexivity.
  - reflexivity.
  - vm_compute; reflexivity.
Defined.

(** ** [create_session]: when it succeeds, what it stores, what it revokes *)




(** X10: the pair a successful [create_session] returns is accepted by
    [validate_session] on the table it left, with the data given at
    creation, at any moment that is not after the stored expiry (and, when
    the call renews, at which [now + 30 minutes] is representable). *)
Theorem create_session_then_validate
    uid login mail request remember a (db : table) sid token max_age db'
    expires prolong a' :
  table_ok db → sid ≠ "" → token ≠ "" →
  create_session uid login mail request remember a db
    = (Returns (Some sid, Some token, max_age), db') →
  add (now0 a) (session_duration remember) = Some expires →
  gtb (now0 a') expires = false →
  (prolong && negb remember = true →
   is_Some (add (now1 a') (timedelta_of 0 30))) →
  fst (validate_session sid token prolong a' db')
  = Valid uid login mail remember expires.
Proof.
  intros Hok Hsid Htok Hrun Hadd Hlive Hrenew.
  pose proof (create_session_success_table_ok _ _ _ _ _ _ _ _ _ _ _ Hok Hrun)
    as [Hids _].
  apply create_session_success in Hrun
    as (expires' & _ & Hadd' & -> & -> & _ & _ & ->).
  rewrite Hadd in Hadd'. injection Hadd' as <-.
  set (row := inserted_row uid login mail request remember a expires) in *.
  destruct (validate_session_valid (other_users uid db ++ [row]) row
              prolong a' expires) as [db'' Hvalid]; try done.
  - apply elem_of_app. right. left.
  - apply fromisoformat_isoformat. by eapply add_valid.
  - change (session_id row) with (token_urlsafe_32 a) in Hvalid.
    change (access_token row) with (token_urlsafe_48 a) in Hvalid.
    by rewrite Hvalid.
Qed.

Lemma create_session_then_validate_witness :
  let a := Sample.drawing "sid-A" "tok-A" Sample.noon in
  let db' := snd (create_session 7 "user" "a@b.com"
                    (Sample.request_with "true") false a []) in
  fst (validate_session "sid-A" "tok-A" true
         (Sample.drawing "" "" (Sample.at_time 13 0 0)) db')
  = Valid 7 "user" "a@b.com" false (Sample.at_time 13 0 0).
Proof.
  apply (create_session_then_validate 7 "user" "a@b.com"
           (Sample.request_with "true") false
           (Sample.drawing "sid-A" "tok-A" Sample.noon) []
           "sid-A" "tok-A" 1800 _ (Sample.at_time 13 0 0) true
           (Sample.drawing "" "" (Sample.at_time 13 0 0))).
  - split; cbn; apply NoDup_nil_2.
  - discriminate.
  - discriminate.
  - vm_compute; reflexivity.
  - vm_compute; reflexivity.
  - vm_compute; reflexivity.
  - intros _. vm_compute. eauto.
Defined.

(** X11: a successful [create_session] revokes the user's earlier
    sessions: a pair that belonged to a row of that user before the call,
    and is not the new pair, is answered ["session_not_found"]
    afterwards. *)
Theorem create_session_revokes_old_pairs
    uid login mail request remember a (db : table) sid token max_age db'
    (old : session) prolong a' :
  NoDup (session_id <$> db) →
  create_session uid login mail request remember a db
    = (Returns (Some sid, Some token, max_age), db') →
  old ∈ db → user_id old = uid →
  session_id old ≠ "" → access_token old ≠ "" →
  ¬ (session_id old = sid ∧ access_token old = token) →
  validate_session (session_id old) (access_token old) prolong a' db'
  = (Invalid "session_not_found" None, db').
Proof.
  intros Hnd Hrun Hold Huid Hsid Htok Hnew.
  apply create_session_success in Hrun
    as (expires & _ & _ & -> & -> & _ & _ & ->).
  apply validate_session_not_found; [assumption|assumption|].
  intros r Hr [Hid Hacc].
  apply elem_of_app in Hr as [Hr|Hr].
  - apply other_users_spec in Hr as [Hr Hother].
    apply Hother. rewrite <- Huid. f_equal.
    by apply (distinct_ids_eq db).
  - apply list_elem_of_singleton in Hr as ->.
    apply Hnew. split; [by rewrite <- Hid|by rewrite <- Hacc].
Qed.

Lemma create_session_revokes_old_pairs_witness :
  let old := Sample.stored "sid-0" "tok-0" 7 "2024-05-01T12:30:00" false in
  let db' := snd (create_session 7 "user" "a@b.com"
                    (Sample.request_with "true") false
                    (Sample.drawing "sid-A" "tok-A" Sample.noon) [old]) in
  validate_session "sid-0" "tok-0" true (Sample.drawing "" "" Sample.noon) db'
  = (Invalid "session_not_found" None, db').
Proof.
  apply (create_session_revokes_old_pairs 7 "user" "a@b.com"
           (Sample.request_with "true") false
           (Sample.drawing "sid-A" "tok-A" Sample.noon)
           [Sample.stored "sid-0" "tok-0" 7 "2024-05-01T12:30:00" false]
           "sid-A" "tok-A" 1800 _
           (Sample.stored "sid-0" "tok-0" 7 "2024-05-01T12:30:00" false)
           true (Sample.drawing "" "" Sample.noon)).
  - cbn. apply NoDup_singleton.
  - vm_compute; reflexivity.
  - left.
  - reflexivity.
  - discriminate.
  - discriminate.
  - intros [Hid _]. discriminate Hid.
Defined.

(** * Properties of the request handlers *)

(** ** The consent endpoints *)

Lemma consent_reads_one_cookie (r1 r2 : Request) :
  cookies r1 !! "cookies_accepted" = cookies r2 !! "cookies_accepted" →
  can_set_session_cookies r1 = can_set_session_cookies r2
  ∧ cookie_status r1 = cookie_status r2.
Proof.
  intros Heq. unfold can_set_session_cookies, cookie_status.
  by rewrite Heq.
Qed.

Lemma with_consent_cookie (v : string) (age : Z) (request : Request) :
  cookies (with_cookies [lax_cookie "cookies_accepted" v age true] request)
    !! "cookies_accepted"
  = cookies (Sample.request_with v) !! "cookies_accepted".
Proof.
  cbn. rewrite lookup_insert_eq. symmetry. apply lookup_singleton_eq.
Qed.

(** X12: the ["session"] flag [cookie_status] reports is the answer of
    [can_set_session_cookies] on the same request, and a category is only
    reported as accepted together with ["cookies_accepted"]. *)
Theorem cookie_status_session_is_gate (request : Request) :
  Http.session (cookie_status request) = can_set_session_cookies request
  ∧ (Http.session (cookie_status request) = true
     ∨ Http.functional (cookie_status request) = true
     ∨ Http.all_accepted (cookie_status request) = true →
     Http.cookies_accepted (cookie_status request) = true).
Proof.
  unfold cookie_status, can_set_session_cookies.
  destruct (String.eqb _ "true"); [by split|].
  destruct (PyStr.startswith _ "selected:"); [|cbn; split; [done|]].
  - destruct (_ !! 1%nat); cbn; split; try done.
    intros [?|[?|?]]; done.
  - intros [?|[?|?]]; done.
Qed.

(** X13: the cookie [accept_selected_cookies] sets, sent back on the next
    request, makes [cookie_status] report exactly the two choices made and
    opens the session gate exactly when ["session"] was chosen; with
    neither chosen the endpoint answers 400 and sets no cookie.  After
    [accept_cookies] the gate is open, after [reject_cookies] it is
    closed. *)
Theorem consent_choice_round_trip (functional session : bool) (request : Request) :
  let next answer :=
    with_cookies (option_list (Http.consent_cookie answer)) request in
  (functional || session = true →
   cookie_status (next (accept_selected_cookies functional session))
   = {| Http.cookies_accepted := true; Http.all_accepted := false;
        Http.functional := functional; Http.session := session |}
   ∧ can_set_session_cookies (next (accept_selected_cookies functional session))
     = session)
  ∧ (functional || session = false →
     Http.code (accept_selected_cookies functional session) = 400
     ∧ Http.consent_cookie (accept_selected_cookies functional session) = None)
  ∧ can_set_session_cookies (next accept_cookies) = true
  ∧ can_set_session_cookies (next reject_cookies) = false.
Proof.
  cbv zeta. split; [|split; [|split]].
  - destruct functional, session; try discriminate; intros _;
      unfold accept_selected_cookies;
      cbn [app Http.consent_cookie];
      match goal with
      | |- context [option_list (Some ?c)] =>
          change (option_list (Some c)) with [c]
      end;
      match goal with
      | |- cookie_status (with_cookies [lax_cookie _ ?v ?age _] _) = _ ∧ _ =>
          destruct (consent_reads_one_cookie _ (Sample.request_with v)
                      (with_consent_cookie v age request)) as [-> ->]
      end; split; vm_compute; reflexivity.
  - destruct functional, session; try discriminate; intros _; by split.
  - change (option_list (Http.consent_cookie accept_cookies))
      with [lax_cookie "cookies_accepted" "true" (365 * 24 * 60 * 60) true].
    destruct (consent_reads_one_cookie _ (Sample.request_with "true")
                (with_consent_cookie "true" (365 * 24 * 60 * 60) request))
      as [-> _].
    vm_compute; reflexivity.
  - change (option_list (Http.consent_cookie reject_cookies))
      with [lax_cookie "cookies_accepted" "false" (30 * 24 * 60 * 60) true].
    destruct (consent_reads_one_cookie _ (Sample.request_with "false")
                (with_consent_cookie "false" (30 * 24 * 60 * 60) request))
      as [-> _].
    vm_compute; reflexivity.
Qed.

(** ** [logout] *)

Lemma logout_run (request : Request) (db : table) :
  logout request db
  = match cookies request !! "session_id" with
    | Some sid => if PyStr.falsy sid then db else without_id sid db
    | None => db
    end.
Proof.
  unfold logout. destruct (cookies request !! "session_id"); [|reflexivity].
  destruct (PyStr.falsy _); reflexivity.
Qed.

(** X14: [logout] with a non-empty [session_id] cookie removes the row of
    that session and no other, whatever [access_token] the request
    carries; from then on every pair with that session id is answered
    ["session_not_found"].  The response redirects to ["/"] and deletes
    the five cookies [login] sets. *)
Theorem logout_revokes_session (request : Request) (db : table) sid :
  cookies request !! "session_id" = Some sid → sid ≠ "" →
  let '(response, db') := logout_route request db in
  response = Http.Redirect "/" 307 []
               ["session_id"; "access_token"; "user_login"; "user_email";
                "remember_token"]
  ∧ (∀ r, r ∈ db' ↔ r ∈ db ∧ session_id r ≠ sid)
  ∧ ∀ token prolong a,
      token ≠ "" →
      validate_session sid token prolong a db'
      = (Invalid "session_not_found" None, db').
Proof.
  intros Hcookie Hsid. unfold logout_route.
  rewrite logout_run, Hcookie, falsy_false by assumption.
  split; [reflexivity|]. split.
  - intros r. apply without_id_spec.
  - intros token prolong a Htok.
    apply validate_session_not_found; [assumption|assumption|].
    intros r Hr [Hid _]. by apply without_id_spec in Hr as [_ ?].
Qed.

Lemma logout_revokes_session_witness :
  let mine := Sample.stored "sid-0" "tok-0" 7 "2024-05-01T12:30:00" false in
  let other := Sample.stored "sid-1" "tok-1" 8 "2024-05-01T12:45:00" false in
  let request := {| cookies := {[ "session_id" := "sid-0" ]};
                    client := None; headers := ∅ |} in
  snd (logout_route request [mine; other]) = [other]
  ∧ let '(response, db') := logout_route request [mine; other] in
    response = Http.Redirect "/" 307 []
                 ["session_id"; "access_token"; "user_login"; "user_email";
                  "remember_token"]
    ∧ (∀ r, r ∈ db' ↔ r ∈ [mine; other] ∧ session_id r ≠ "sid-0")
    ∧ ∀ token prolong a,
        token ≠ "" →
        validate_session "sid-0" token prolong a db'
        = (Invalid "session_not_found" None, db').
Proof.
  split; [vm_compute; reflexivity|].
  apply (logout_revokes_session
           {| cookies := {[ "session_id" := "sid-0" ]};
              client := None; headers := ∅ |}
           [Sample.stored "sid-0" "tok-0" 7 "2024-05-01T12:30:00" false;
            Sample.stored "sid-1" "tok-1" 8 "2024-05-01T12:45:00" false]
           "sid-0").
  - vm_compute; reflexivity.
  - discriminate.
Defined.

(** ** [auth_page] *)

Lemma falsy_false_inv (s : string) : PyStr.falsy s = false → s ≠ "".
Proof. unfold PyStr.falsy. apply String.eqb_neq. Qed.

Lemma truthy_cookie (o : option string) :
  Py.truthy o = true → ∃ s, o = Some s ∧ s ≠ "".
Proof.
  destruct o as [s|]; [|discriminate]. cbn. intros Hs.
  exists s. split; [reflexivity|].
  apply falsy_false_inv. by apply negb_true_iff.
Qed.

Lemma validate_session_valid_inv sid token prolong a (db : table)
      uid login mail remember expires db' :
  validate_session sid token prolong a db
    = (Valid uid login mail remember expires, db') →
  sid ≠ "" ∧ token ≠ ""
  ∧ ∃ r, List.find (has_pair sid token) db = Some r
         ∧ fromisoformat (expires_at r) = Some expires
         ∧ gtb (now0 a) expires = false
         ∧ uid = user_id r ∧ login = user_login r ∧ mail = email r
         ∧ remember = remember_me r.
Proof.
  rewrite validate_session_run.
  destruct (PyStr.falsy sid) eqn:Hsid; [discriminate|].
  destruct (PyStr.falsy token) eqn:Htok; [discriminate|]. cbn [orb].
  apply falsy_false_inv in Hsid, Htok.
  destruct (List.find (has_pair sid token) db) as [r|] eqn:Hfind;
    [|discriminate].
  destruct (fromisoformat (expires_at r)) as [e|] eqn:Hparse; [|discriminate].
  destruct (gtb (now0 a) e) eqn:Hlive; [discriminate|].
  destruct (prolong && negb (remember_me r)).
  - destruct (add (now1 a) (timedelta_of 0 30)); [|discriminate].
    intros [= <- <- <- <- <- _]. split; [done|]. split; [done|].
    exists r. done.
  - intros [= <- <- <- <- <- _]. split; [done|]. split; [done|].
    exists r. done.
Qed.

Lemma validate_session_no_prolong_rows sid token a (db : table) (r' : session) :
  r' ∈ snd (validate_session sid token false a db) →
  ∃ r, r ∈ db ∧ same_identity r r' ∧ expires_at r' = expires_at r.
Proof.
  rewrite validate_session_run.
  assert (Hsame : ∀ r, r ∈ db →
            ∃ r0, r0 ∈ db ∧ same_identity r0 r ∧ expires_at r = expires_at r0).
  { intros r Hr. exists r. by repeat split. }
  destruct (PyStr.falsy sid || PyStr.falsy token); [apply Hsame|].
  destruct (List.find (has_pair sid token) db) as [r0|]; [|apply Hsame].
  destruct (fromisoformat (expires_at r0)) as [e|]; [|apply Hsame].
  destruct (gtb (now0 a) e); cbn [andb snd].
  - intros Hr'. apply without_id_spec in Hr' as [Hr' _]. by apply Hsame.
  - unfold touched. intros Hr'.
    apply list_elem_of_fmap in Hr' as (r & -> & Hr).
    exists r. split; [exact Hr|]. destruct (has_id sid r); by repeat split.
Qed.

Lemma cleanup_expired_sessions_subset a (db : table) (r : session) :
  r ∈ snd (cleanup_expired_sessions a db) → r ∈ db.
Proof.
  rewrite cleanup_expired_sessions_run. cbn [snd].
  intros Hr. by apply list_elem_of_filter in Hr as [_ ?].
Qed.

(** X15: [auth_page] never extends a session: whatever it answers, every
    row left in the table is a row from before with the same [expires_at]
    and the same identity (it sweeps, drops an expired session and stamps
    [last_activity], nothing else).  It redirects to ["/main"] only a
    request whose two cookies are the pair of a stored session; every
    other request gets the login page, with the cookie banner shown exactly
    when the consent cookie is absent or ["false"]. *)
Theorem auth_page_never_renews (request : Request)
    (error email_error password_error auto_email : option string)
    (auto_remember : bool) (h : surroundings) (db : table) :
  let '(response, db') :=
    auth_page request error email_error password_error auto_email
      auto_remember h db in
  (∀ r', r' ∈ db' →
         ∃ r, r ∈ db ∧ same_identity r r' ∧ expires_at r' = expires_at r)
  ∧ ((response = Http.Redirect "/main" 302 [] []
      ∧ ∃ r sid token,
          cookies request !! "session_id" = Some sid
          ∧ cookies request !! "access_token" = Some token
          ∧ r ∈ db ∧ session_id r = sid ∧ access_token r = token)
     ∨ response
       = Http.IndexPage
           {| Http.error := error; Http.email_error := email_error;
              Http.password_error := password_error;
              Http.email_value := Py.or_empty auto_email;
              Http.auto_remember := auto_remember;
              Http.show_cookie_banner :=
                String.eqb
                  (default "false" (cookies request !! "cookies_accepted"))
                  "false" |}).
Proof.
  unfold auth_page. cbv zeta.
  set (swept := snd (cleanup_expired_sessions (at_sweep h) db)).
  assert (Hswept : ∀ r, r ∈ swept →
            ∃ r0, r0 ∈ db ∧ same_identity r0 r ∧ expires_at r = expires_at r0).
  { intros r Hr. apply cleanup_expired_sessions_subset in Hr.
    exists r. by repeat split. }
  destruct (Py.truthy (cookies request !! "session_id")) eqn:Hsid;
    [|cbn [andb]; split; [exact Hswept|by right]].
  destruct (Py.truthy (cookies request !! "access_token")) eqn:Htok;
    [|cbn [andb]; split; [exact Hswept|by right]].
  cbn [andb].
  apply truthy_cookie in Hsid as (sid & Hsid & _).
  apply truthy_cookie in Htok as (token & Htok & _).
  rewrite Hsid, Htok.
  change (default "" (Some sid)) with sid.
  change (default "" (Some token)) with token.
  destruct (validate_session sid token false (at_call h) swept)
    as [session_status db'] eqn:Hvalidate.
  assert (Hrows : ∀ r', r' ∈ db' →
            ∃ r, r ∈ db ∧ same_identity r r' ∧ expires_at r' = expires_at r).
  { intros r' Hr'.
    replace db' with (snd (validate_session sid token false (at_call h) swept))
      in Hr' by (by rewrite Hvalidate).
    apply validate_session_no_prolong_rows in Hr' as (r1 & Hr1 & Hid1 & He1).
    apply cleanup_expired_sessions_subset in Hr1.
    exists r1. done. }
  destruct session_status as [reason autologin|uid login mail remember expires].
  - split; [exact Hrows|by right].
  - split; [exact Hrows|]. left. split; [reflexivity|].
    apply validate_session_valid_inv in Hvalidate
      as (_ & _ & r & Hfind & _).
    apply find_elem_of in Hfind as [Hr Hpair].
    apply has_pair_true in Hpair as [Hid Hacc].
    apply cleanup_expired_sessions_subset in Hr.
    exists r, sid, token. done.
Qed.

(** ** [login] and [main_page] *)

Lemma create_session_cases uid login mail request remember a (db : table) :
  (∃ sid token max_age db',
     create_session uid login mail request remember a db
     = (Returns (Some sid, Some token, max_age), db'))
  ∨ create_session uid login mail request remember a db
    = (Returns (None, None, 0), db)
  ∨ create_session uid login mail request remember a db
    = (Raises OverflowError, db).
Proof.
  unfold create_session.
  destruct (can_set_session_cookies request); cbn; [|by right; left].
  destruct remember;
    (destruct (add (now0 a) _) as [expires|]; [|by right; right]);
    rewrite create_session_tx_run; cbn;
    (destruct (fits_int64 uid); [|by right; left]);
    (destruct (existsb _ _); [by right; left|]);
    left; eauto.
Qed.

Lemma create_session_returns uid login mail request remember a (db : table)
      expires :
  can_set_session_cookies request = true →
  add (now0 a) (session_duration remember) = Some expires →
  fits_int64 uid = true →
  (∀ r, r ∈ db → user_id r ≠ uid →
        session_id r ≠ token_urlsafe_32 a
        ∧ access_token r ≠ token_urlsafe_48 a) →
  create_session uid login mail request remember a db
  = (Returns (Some (token_urlsafe_32 a), Some (token_urlsafe_48 a),
              if remember then 7 * 24 * 60 * 60 else 30 * 60),
     other_users uid db
     ++ [inserted_row uid login mail request remember a expires]).
Proof.
  intros Hgate Hadd Hfit Hfree.
  unfold create_session, session_duration in *. rewrite Hgate. cbn.
  assert (Hno : existsb (collides (inserted_row uid login mail request
                                     remember a expires))
                  (other_users uid db) = false).
  { apply not_true_iff_false. rewrite existsb_exists.
    intros (r & Hr & Hcol). apply list_elem_of_In, other_users_spec in Hr.
    destruct Hr as [Hr Hother]. destruct (Hfree r Hr Hother) as [H1 H2].
    unfold collides in Hcol. apply orb_true_iff in Hcol.
    rewrite !String.eqb_eq in Hcol. by destruct Hcol. }
  unfold inserted_row in *.
  destruct remember; rewrite Hadd, create_session_tx_run; cbn;
    rewrite Hfit, Hno; reflexivity.
Qed.

Lemma create_session_success_free uid login mail request remember a
      (db : table) sid token max_age db' :
  create_session uid login mail request remember a db
    = (Returns (Some sid, Some token, max_age), db') →
  fits_int64 uid = true
  ∧ ∀ r, r ∈ db → user_id r ≠ uid →
      session_id r ≠ token_urlsafe_32 a ∧ access_token r ≠ token_urlsafe_48 a.
Proof.
  intros Hrun. split.
  - revert Hrun. unfold create_session.
    destruct (can_set_session_cookies request); cbn; [|discriminate].
    destruct remember;
      (destruct (add (now0 a) _); [|discriminate]);
      rewrite create_session_tx_run; cbn;
      (destruct (fits_int64 uid); [done|discriminate]).
  - apply create_session_success in Hrun
      as (expires & _ & _ & _ & _ & _ & Hfree & _).
    intros r Hr Hother.
    rewrite <- not_true_iff_false, existsb_exists in Hfree.
    split; intros Heq; apply Hfree; exists r;
      (split; [apply list_elem_of_In; by apply other_users_spec|]);
      unfold collides; apply orb_true_iff; [left|right];
      by apply String.eqb_eq.
Qed.

Lemma form_checked (mail password : string) :
  PyStr.falsy mail || negb (Py.contains "@" mail) || PyStr.falsy password
  = false
  ↔ mail ≠ "" ∧ Py.contains "@" mail = true ∧ password ≠ "".
Proof.
  rewrite !orb_false_iff, negb_false_iff. unfold PyStr.falsy.
  rewrite !String.eqb_neq. tauto.
Qed.

Lemma login_cookies_lookup (sid token login mail rt : string)
    (age age' age'' : Z) (remember : bool) (request : Request) :
  let sent :=
    with_cookies
      ([lax_cookie "session_id" sid age true;
        lax_cookie "access_token" token age true;
        lax_cookie "user_login" login age true;
        lax_cookie "user_email" mail age' false]
       ++ (if remember then [lax_cookie "remember_token" rt age'' true]
           else [])) request in
  cookies sent !! "session_id" = Some sid
  ∧ cookies sent !! "access_token" = Some token
  ∧ cookies sent !! "user_login" = Some login
  ∧ cookies sent !! "user_email" = Some mail.
Proof.
  destruct remember; cbn;
    repeat split;
    repeat first [apply lookup_insert_eq | rewrite lookup_insert_ne by done].
Qed.

Lemma sweep_ids a (db : table) :
  NoDup (session_id <$> db) →
  NoDup (session_id <$> snd (cleanup_expired_sessions a db)).
Proof.
  intros Hnd. rewrite cleanup_expired_sessions_run. by apply NoDup_fmap_filter.
Qed.

Lemma cookie_default (request : Request) (name : string) :
  default "" (cookies request !! name) ≠ "" →
  cookies request !! name = Some (default "" (cookies request !! name)).
Proof. destruct (cookies request !! name); [reflexivity|done]. Qed.

(** The [set_cookie] calls of [login], in one step. *)
Lemma set_cookies_run (c1 c2 c3 c4 c5 : Http.cookie) (b : bool) :
  (set ← set_cookie c1 [];
   set ← set_cookie c2 set;
   set ← set_cookie c3 set;
   set ← set_cookie c4 set;
   set ← (if b then set_cookie c5 set else Returns set);
   Returns (Http.Redirect "/main" 302 set []))
  = if Py.latin1 (Http.value c1) && Py.latin1 (Http.value c2)
       && Py.latin1 (Http.value c3) && Py.latin1 (Http.value c4)
       && (negb b || Py.latin1 (Http.value c5))
    then Returns (Http.Redirect "/main" 302
                    ([c1; c2; c3; c4] ++ (if b then [c5] else [])) [])
    else Raises UnicodeEncodeError.
Proof.
  unfold set_cookie, mbind, outcome_bind.
  destruct (Py.latin1 (Http.value c1)); [|reflexivity].
  destruct (Py.latin1 (Http.value c2)); [|reflexivity].
  destruct (Py.latin1 (Http.value c3)); [|reflexivity].
  destruct (Py.latin1 (Http.value c4)); [|reflexivity].
  destruct b; [|reflexivity].
  destruct (Py.latin1 (Http.value c5)); reflexivity.
Qed.

Section HandlerFacts.

Variable sha256_hexdigest : string → string.
Variable users_auth_by_email : string → outcome (option User.row).
Variable users_fetchall :
  string → list string → outcome (list (string * string * string)).

(** [login] after its sweep, stage by stage: the consent stage is the
    gate of [can_set_session_cookies]. *)
Lemma login_run (request : Request) (mail password remember : string)
    (h : surroundings) (db : table) :
  login sha256_hexdigest users_auth_by_email request mail password remember h db
  = let swept := snd (cleanup_expired_sessions (at_sweep h) db) in
    let selected :=
      PyStr.startswith
        (default "false" (cookies request !! "cookies_accepted")) "selected:" in
    if can_set_session_cookies request then
      if PyStr.falsy mail || negb (Py.contains "@" mail) || PyStr.falsy password
      then
        (login_page None
           (if PyStr.falsy mail then Some "Email обязателен для заполнения"
            else if negb (Py.contains "@" mail)
                 then Some "Введите корректный email" else None)
           (if PyStr.falsy password
            then Some "Пароль обязателен для заполнения" else None)
           mail (String.eqb remember "on") false, swept)
      else
        match login_try sha256_hexdigest users_auth_by_email request mail
                password remember h swept with
        | (Returns page, db') => (page, db')
        | (Raises _, db') =>
            (login_page (Some "Ошибка сервера") None None mail
               (String.eqb remember "on") false, db')
        end
    else
      (login_page
         (Some (if selected
                then "Для входа в систему необходимо разрешить сессионные cookies"
                else "Для входа в систему необходимо принять условия использования cookies"))
         None None mail (String.eqb remember "on") (negb selected), swept).
Proof.
  unfold login, can_set_session_cookies. cbv zeta.
  set (preference := default "false" (cookies request !! "cookies_accepted")).
  set (swept := snd (cleanup_expired_sessions (at_sweep h) db)).
  assert (Hstage :
    (if bool_decide
          ((if PyStr.falsy mail then Some "Email обязателен для заполнения"
            else if negb (Py.contains "@" mail)
                 then Some "Введите корректный email" else None) ≠ None
           ∨ (if PyStr.falsy password
              then Some "Пароль обязателен для заполнения" else None) ≠ None)
     then
       (login_page None
          (if PyStr.falsy mail then Some "Email обязателен для заполнения"
           else if negb (Py.contains "@" mail)
                then Some "Введите корректный email" else None)
          (if PyStr.falsy password
           then Some "Пароль обязателен для заполнения" else None)
          mail (String.eqb remember "on") false, swept)
     else
       match login_try sha256_hexdigest users_auth_by_email request mail
               password remember h swept with
       | (Returns page, db') => (page, db')
       | (Raises _, db') =>
           (login_page (Some "Ошибка сервера") None None mail
              (String.eqb remember "on") false, db')
       end)
    = (if PyStr.falsy mail || negb (Py.contains "@" mail) || PyStr.falsy password
       then
         (login_page None
            (if PyStr.falsy mail then Some "Email обязателен для заполнения"
             else if negb (Py.contains "@" mail)
                  then Some "Введите корректный email" else None)
            (if PyStr.falsy password
             then Some "Пароль обязателен для заполнения" else None)
            mail (String.eqb remember "on") false, swept)
       else
         match login_try sha256_hexdigest users_auth_by_email request mail
                 password remember h swept with
         | (Returns page, db') => (page, db')
         | (Raises _, db') =>
             (login_page (Some "Ошибка сервера") None None mail
                (String.eqb remember "on") false, db')
         end)).
  { destruct (PyStr.falsy mail), (Py.contains "@" mail), (PyStr.falsy password);
      reflexivity. }
  destruct (String.eqb preference "true"); [exact Hstage|].
  unfold PyStr.startswith.
  destruct (String.prefix "selected:" preference) eqn:Hprefix; [|reflexivity].
  apply prefix_app in Hprefix as [rest Hrest]. rewrite Hrest, split_selected.
  destruct (bool_decide ("session" ∈ _)); [exact Hstage|reflexivity].
Qed.

(** *** [login] *)

(** The [try] block of [login] once the directory returned [user] with
    the hash of the password: what is left is [create_session] and the
    cookies. *)
Lemma login_try_known (request : Request) (mail password remember : string)
    (h : surroundings) (db : table) (user : User.row) :
  users_auth_by_email mail = Returns (Some user) →
  User.password user = sha256_hexdigest password →
  login_try sha256_hexdigest users_auth_by_email request mail password
    remember h db
  = match create_session (User.id user) (User.login user) mail request
            (String.eqb remember "on") (at_call h) db with
    | (Raises e, db') => (Raises e, db')
    | (Returns (session_id, access_token, max_age), db') =>
        if negb (Py.truthy session_id) || negb (Py.truthy access_token) then
          (Returns (login_page
                      (Some "Не удалось создать сессию. Проверьте настройки cookies")
                      None None mail (String.eqb remember "on") false), db')
        else if Py.latin1 (default "" session_id)
                && Py.latin1 (default "" access_token)
                && Py.latin1 (User.login user) && Py.latin1 mail
                && (negb (String.eqb remember "on")
                    || Py.latin1 (remember_token h))
        then
          (Returns
             (Http.Redirect "/main" 302
                ([lax_cookie "session_id" (default "" session_id) max_age true;
                  lax_cookie "access_token" (default "" access_token)
                    max_age true;
                  lax_cookie "user_login" (User.login user) max_age true;
                  lax_cookie "user_email" mail
                    (if String.eqb remember "on" then 30 * 24 * 60 * 60
                     else max_age) false]
                 ++ (if String.eqb remember "on"
                     then [lax_cookie "remember_token" (remember_token h)
                             (30 * 24 * 60 * 60) true]
                     else [])) []), db')
        else (Raises UnicodeEncodeError, db')
    end.
Proof.
  intros Hdir Hhash. unfold login_try, hash_password.
  rewrite Hdir, Hhash, String.eqb_refl. cbn [negb].
  destruct (create_session _ _ _ _ _ _ _) as [[[[sid token] max_age]|e] db1];
    [|reflexivity].
  destruct (negb (Py.truthy sid) || negb (Py.truthy token)); [reflexivity|].
  rewrite set_cookies_run. cbn [Http.value lax_cookie].
  destruct (String.eqb remember "on"); cbn [negb orb];
    destruct (Py.latin1 (default "" sid)), (Py.latin1 (default "" token)),
             (Py.latin1 (User.login user)), (Py.latin1 mail);
    try reflexivity;
    destruct (Py.latin1 (remember_token h)); reflexivity.
Qed.

(** The cookies [login] sets on its redirect. *)
Lemma login_try_redirect (request : Request) (mail password remember : string)
    (h : surroundings) (db : table)
    url status_code set_cookies delete_cookies (db' : table) :
  login_try sha256_hexdigest users_auth_by_email request mail password
    remember h db
    = (Returns (Http.Redirect url status_code set_cookies delete_cookies), db') →
  ∃ user sid token max_age,
    users_auth_by_email mail = Returns (Some user)
    ∧ User.password user = sha256_hexdigest password
    ∧ create_session (User.id user) (User.login user) mail request
        (String.eqb remember "on") (at_call h) db
      = (Returns (Some sid, Some token, max_age), db')
    ∧ sid ≠ "" ∧ token ≠ ""
    ∧ url = "/main" ∧ status_code = 302 ∧ delete_cookies = []
    ∧ set_cookies
      = [lax_cookie "session_id" sid max_age true;
         lax_cookie "access_token" token max_age true;
         lax_cookie "user_login" (User.login user) max_age true;
         lax_cookie "user_email" mail
           (if String.eqb remember "on" then 30 * 24 * 60 * 60 else max_age)
           false]
        ++ (if String.eqb remember "on"
            then [lax_cookie "remember_token" (remember_token h)
                    (30 * 24 * 60 * 60) true]
            else [])
    ∧ cookies_encodable h user mail (String.eqb remember "on") = true.
Proof.
  destruct (users_auth_by_email mail) as [[user|]|e] eqn:Hdir;
    [|unfold login_try, login_page; rewrite Hdir; discriminate..].
  destruct (String.eqb (User.password user) (sha256_hexdigest password))
    eqn:Hpassword;
    [|unfold login_try, hash_password, login_page;
      rewrite Hdir, Hpassword; discriminate].
  apply String.eqb_eq in Hpassword.
  rewrite (login_try_known _ _ _ _ _ _ user Hdir Hpassword).
  unfold login_page.
  destruct (create_session _ _ _ _ _ _ _) as [[[[sid token] max_age]|e] db1]
    eqn:Hcreate; [|discriminate].
  destruct (Py.truthy sid) eqn:Hsid; cbn [negb orb]; [|discriminate].
  destruct (Py.truthy token) eqn:Htok; cbn [negb orb]; [|discriminate].
  apply truthy_cookie in Hsid as (sid' & -> & Hsid).
  apply truthy_cookie in Htok as (token' & -> & Htok).
  change (default "" (Some sid')) with sid'.
  change (default "" (Some token')) with token'.
  destruct (_ && _ && _ && _ && _) eqn:Hsent; [|discriminate].
  intros [= <- <- <- <- <-].
  exists user, sid', token', max_age.
  do 9 (split; [done|]).
  apply create_session_success in Hcreate as (_ & _ & _ & -> & -> & _).
  exact Hsent.
Qed.

(** What the [try] block answers when it does not redirect, given that
    the tokens drawn are not empty: a page or an exception with the table
    as it was, or the exception of [set_cookie] with the new session
    stored. *)
Lemma login_try_page (request : Request) (mail password remember : string)
    (h : surroundings) (db : table) (out : outcome Http.response) (db' : table) :
  token_urlsafe_32 (at_call h) ≠ "" → token_urlsafe_48 (at_call h) ≠ "" →
  login_try sha256_hexdigest users_auth_by_email request mail password
    remember h db = (out, db') →
  (∃ url status_code set_cookies delete_cookies,
     out = Returns (Http.Redirect url status_code set_cookies delete_cookies))
  ∨ db' = db
    ∧ ((∃ e, out = Raises e)
       ∨ ∃ context,
           out = Returns (Http.IndexPage context)
           ∧ Http.email_value context = mail
           ∧ Http.auto_remember context = String.eqb remember "on"
           ∧ Http.show_cookie_banner context = false
           ∧ (Http.error context ≠ None ∨ Http.email_error context ≠ None
              ∨ Http.password_error context ≠ None))
  ∨ out = Raises UnicodeEncodeError
    ∧ ∃ user expires,
        users_auth_by_email mail = Returns (Some user)
        ∧ User.password user = sha256_hexdigest password
        ∧ cookies_encodable h user mail (String.eqb remember "on") = false
        ∧ add (now0 (at_call h)) (session_duration (String.eqb remember "on"))
          = Some expires
        ∧ db' = other_users (User.id user) db
                ++ [inserted_row (User.id user) (User.login user) mail
                      request (String.eqb remember "on") (at_call h) expires].
Proof.
  intros Hsid Htok.
  destruct (users_auth_by_email mail) as [[user|]|e] eqn:Hdir.
  - destruct (String.eqb (User.password user) (sha256_hexdigest password))
      eqn:Hpassword.
    + apply String.eqb_eq in Hpassword.
      rewrite (login_try_known _ _ _ _ _ _ user Hdir Hpassword).
      unfold login_page.
      destruct (create_session_cases (User.id user) (User.login user) mail
                  request (String.eqb remember "on") (at_call h) db)
        as [(sid & token & max_age & db1 & Hcreate)|[Hcreate|Hcreate]];
        rewrite Hcreate.
      * apply create_session_success in Hcreate
          as (expires & _ & Hadd & -> & -> & _ & _ & ->).
        cbn [Py.truthy]. rewrite !falsy_false by assumption. cbn [negb orb].
        change (default "" (Some ?x)) with x.
        fold (cookies_encodable h user mail (String.eqb remember "on")).
        destruct (cookies_encodable h user mail (String.eqb remember "on"))
          eqn:Hsent.
        -- intros [= <- <-]. left. eauto.
        -- intros [= <- <-]. right. right. split; [done|].
           exists user, expires. done.
      * cbn. intros [= <- <-]. right. left. split; [done|]. right.
        eexists. split; [reflexivity|]. cbn. do 3 (split; [done|]). by left.
      * intros [= <- <-]. right. left. split; [done|]. left. eauto.
    + unfold login_try, hash_password, login_page.
      rewrite Hdir, Hpassword. cbn [negb].
      intros [= <- <-]. right. left. split; [done|]. right.
      eexists. split; [reflexivity|]. cbn. do 3 (split; [done|]).
      by right; right.
  - unfold login_try, login_page. rewrite Hdir.
    intros [= <- <-]. right. left. split; [done|]. right.
    eexists. split; [reflexivity|]. cbn. do 3 (split; [done|]).
    by right; left.
  - unfold login_try. rewrite Hdir.
    intros [= <- <-]. right. left. split; [done|]. left. eauto.
Qed.

(** X20: [login] answers with a redirect exactly when the consent gate is
    open, the form holds an email with an ["@"] and a password, the
    directory knows the email with the SHA-256 of that password,
    [create_session] can store the session (the tokens drawn are not empty,
    the expiry is representable, the user's id fits an SQLite INTEGER and
    no row of another user left by the sweep holds one of the new tokens),
    and every value put into a cookie, the user's login and the email among
    them, has no character above U+00FF. *)
Theorem login_redirects_iff (request : Request)
    (mail password remember : string) (h : surroundings) (db : table) :
  (∃ url status_code set_cookies delete_cookies db',
     login sha256_hexdigest users_auth_by_email request mail password
       remember h db
     = (Http.Redirect url status_code set_cookies delete_cookies, db'))
  ↔ can_set_session_cookies request = true
    ∧ mail ≠ "" ∧ Py.contains "@" mail = true ∧ password ≠ ""
    ∧ ∃ user,
        users_auth_by_email mail = Returns (Some user)
        ∧ User.password user = sha256_hexdigest password
        ∧ token_urlsafe_32 (at_call h) ≠ ""
        ∧ token_urlsafe_48 (at_call h) ≠ ""
        ∧ is_Some (add (now0 (at_call h))
                     (session_duration (String.eqb remember "on")))
        ∧ fits_int64 (User.id user) = true
        ∧ (∀ r, r ∈ snd (cleanup_expired_sessions (at_sweep h) db) →
                user_id r ≠ User.id user →
                session_id r ≠ token_urlsafe_32 (at_call h)
                ∧ access_token r ≠ token_urlsafe_48 (at_call h))
        ∧ cookies_encodable h user mail (String.eqb remember "on") = true.
Proof.
  rewrite login_run. cbv zeta.
  set (swept := snd (cleanup_expired_sessions (at_sweep h) db)).
  split.
  - intros (url & status_code & set_cookies & delete_cookies & db' & Hrun).
    destruct (can_set_session_cookies request); [|discriminate].
    split; [done|].
    destruct (_ || _ || _) eqn:Hform; [discriminate|].
    apply form_checked in Hform as (? & ? & ?). do 3 (split; [done|]).
    destruct (login_try _ _ _ _ _ _ _ _) as [[page|e] db1] eqn:Htry;
      [|discriminate].
    injection Hrun as -> ->.
    apply login_try_redirect in Htry
      as (user & sid & token & max_age & Hdir & Hpassword & Hcreate
          & Hsid & Htok & _ & _ & _ & _ & Hsent).
    exists user. do 2 (split; [done|]).
    pose proof (create_session_success_free _ _ _ _ _ _ _ _ _ _ _ Hcreate)
      as [Hfit Hfree].
    apply create_session_success in Hcreate
      as (expires & _ & Hadd & -> & -> & _).
    rewrite Hadd. eauto 10.
  - intros (Hgate & Hmail & Hat & Hpassword & user & Hdir & Hhash & Hsid
            & Htok & [expires Hadd] & Hfit & Hfree & Hsent).
    rewrite Hgate.
    destruct (form_checked mail password) as [_ ->]; [|done].
    rewrite (login_try_known _ _ _ _ _ _ user Hdir Hhash).
    rewrite (create_session_returns _ _ _ _ _ _ _ expires) by assumption.
    cbn [Py.truthy]. rewrite !falsy_false by assumption.
    cbn [negb orb].
    change (default "" (Some ?x)) with x.
    fold (cookies_encodable h user mail (String.eqb remember "on")).
    rewrite Hsent. eauto 10.
Qed.

(** X21: a redirect of [login] goes to ["/main"] with status 302 and
    deletes no cookie; the table is the swept table without the user's
    earlier rows and with one new row for the user the directory returned.
    The cookies set are [session_id], [access_token], [user_login] and
    [user_email], and [remember_token] exactly under remember-me; all are
    ["lax"], not [secure], and [httponly] but for [user_email]; the
    session cookies live 30 minutes, or 7 days under remember-me, when
    [user_email] and [remember_token] live 30 days.  Whatever request the
    browser sends next, with these cookies it carries the pair of the new
    row. *)
Theorem login_issues_session (request : Request)
    (mail password remember : string) (h : surroundings) (db : table)
    url status_code set_cookies delete_cookies (db' : table) :
  login sha256_hexdigest users_auth_by_email request mail password remember
    h db
    = (Http.Redirect url status_code set_cookies delete_cookies, db') →
  let swept := snd (cleanup_expired_sessions (at_sweep h) db) in
  let remember_me := String.eqb remember "on" in
  url = "/main" ∧ status_code = 302 ∧ delete_cookies = []
  ∧ (∃ user expires,
       users_auth_by_email mail = Returns (Some user)
       ∧ add (now0 (at_call h)) (session_duration remember_me) = Some expires
       ∧ db' = other_users (User.id user) swept
               ++ [inserted_row (User.id user) (User.login user) mail request
                     remember_me (at_call h) expires]
       ∧ ∀ next,
           cookies (with_cookies set_cookies next) !! "user_login"
           = Some (User.login user))
  ∧ Http.key <$> set_cookies
    = ["session_id"; "access_token"; "user_login"; "user_email"]
      ++ (if remember_me then ["remember_token"] else [])
  ∧ (∀ c, c ∈ set_cookies →
       Http.samesite c = "lax" ∧ Http.secure c = false
       ∧ Http.httponly c = negb (String.eqb (Http.key c) "user_email")
       ∧ Http.max_age c
         = if remember_me
           then if bool_decide (Http.key c ∈ ["user_email"; "remember_token"])
                then 30 * 24 * 60 * 60 else 7 * 24 * 60 * 60
           else 30 * 60)
  ∧ ∀ next,
      cookies (with_cookies set_cookies next) !! "session_id"
      = Some (token_urlsafe_32 (at_call h))
      ∧ cookies (with_cookies set_cookies next) !! "access_token"
        = Some (token_urlsafe_48 (at_call h))
      ∧ cookies (with_cookies set_cookies next) !! "user_email" = Some mail.
Proof.
  rewrite login_run. cbv zeta.
  set (swept := snd (cleanup_expired_sessions (at_sweep h) db)).
  destruct (can_set_session_cookies request); [|discriminate].
  destruct (_ || _ || _); [discriminate|].
  destruct (login_try _ _ _ _ _ _ _ _) as [[page|e] db1] eqn:Htry;
    [|discriminate].
  intros [= -> ->].
  apply login_try_redirect in Htry
    as (user & sid & token & max_age & Hdir & _ & Hcreate & _ & _
        & -> & -> & -> & -> & _).
  apply create_session_success in Hcreate
    as (expires & _ & Hadd & -> & -> & -> & _ & ->).
  do 3 (split; [reflexivity|]).
  split; [|split; [|split]].
  - exists user, expires. do 3 (split; [done|]).
    intros next. apply login_cookies_lookup.
  - destruct (String.eqb remember "on"); reflexivity.
  - intros c Hc. destruct (String.eqb remember "on"); cbn in Hc;
      repeat (apply elem_of_cons in Hc as [->|Hc]; [by vm_compute|]);
      by apply elem_of_nil in Hc.
  - intros next.
    destruct (login_cookies_lookup (token_urlsafe_32 (at_call h))
                (token_urlsafe_48 (at_call h)) (User.login user) mail
                (remember_token h)
                (if String.eqb remember "on" then 7 * 24 * 60 * 60 else 30 * 60)
                (if String.eqb remember "on" then 30 * 24 * 60 * 60
                 else if String.eqb remember "on" then 7 * 24 * 60 * 60
                      else 30 * 60)
                (30 * 24 * 60 * 60) (String.eqb remember "on") next)
      as (? & ? & _ & ?).
    done.
Qed.

(** X22: when [login] answers with the login page, the page carries the
    email as typed, the remember-me choice and at least one of its three
    error messages, and the table is the swept one, no session created and
    none revoked, in every case but one: when the credentials were right
    and the session was stored, and a value put into a cookie (the user's
    login, the email) has a character above U+00FF, [set_cookie] fails and
    the server-error page is answered with the new session left in the
    table and the user's earlier ones gone.  (The tokens drawn are taken to
    be non-empty, as [secrets.token_urlsafe] gives them.) *)
Theorem login_failure_table (request : Request)
    (mail password remember : string) (h : surroundings) (db : table)
    (context : Http.index_context) (db' : table) :
  token_urlsafe_32 (at_call h) ≠ "" → token_urlsafe_48 (at_call h) ≠ "" →
  login sha256_hexdigest users_auth_by_email request mail password remember
    h db = (Http.IndexPage context, db') →
  let swept := snd (cleanup_expired_sessions (at_sweep h) db) in
  let remember_me := String.eqb remember "on" in
  Http.email_value context = mail
  ∧ Http.auto_remember context = remember_me
  ∧ (Http.error context ≠ None ∨ Http.email_error context ≠ None
     ∨ Http.password_error context ≠ None)
  ∧ (db' = swept
     ∨ ∃ user expires,
         users_auth_by_email mail = Returns (Some user)
         ∧ User.password user = sha256_hexdigest password
         ∧ cookies_encodable h user mail remember_me = false
         ∧ Http.error context = Some "Ошибка сервера"
         ∧ add (now0 (at_call h)) (session_duration remember_me)
           = Some expires
         ∧ db' = other_users (User.id user) swept
                 ++ [inserted_row (User.id user) (User.login user) mail
                       request remember_me (at_call h) expires]).
Proof.
  intros Hsid Htok. rewrite login_run. cbv zeta.
  set (swept := snd (cleanup_expired_sessions (at_sweep h) db)).
  destruct (can_set_session_cookies request);
    [|intros [= <- <-]; cbn; do 2 (split; [done|]);
      split; [by left|by left]].
  destruct (PyStr.falsy mail) eqn:Hmail;
    [intros [= <- <-]; cbn; do 2 (split; [done|]);
     split; [by right; left|by left]|].
  destruct (Py.contains "@" mail) eqn:Hat;
    [|intros [= <- <-]; cbn; do 2 (split; [done|]);
      split; [by right; left|by left]].
  destruct (PyStr.falsy password) eqn:Hpassword;
    [intros [= <- <-]; cbn; do 2 (split; [done|]);
     split; [by right; right|by left]|].
  cbn [negb orb].
  destruct (login_try _ _ _ _ _ _ _ _) as [out db1] eqn:Htry.
  apply login_try_page in Htry
    as [(? & ? & ? & ? & ->)
       |[[-> [[e ->]|(page & -> & ? & ? & _ & ?)]]
        |(-> & user & expires & ? & ? & ? & ? & ->)]];
    try assumption.
  - discriminate.
  - intros [= <- <-]; cbn; do 2 (split; [done|]); split; [by left|by left].
  - intros [= <- <-]. do 3 (split; [done|]). by left.
  - intros [= <- <-]; cbn; do 2 (split; [done|]). split; [by left|].
    right. exists user, expires. done.
Qed.


(** *** [main_page] *)

(** [main_page] on a request carrying the pair of a row that outlives the
    sweep and is not expired. *)
Lemma main_page_valid (request : Request) (login_filter machine_type : string)
    (h : surroundings) (db : table) (r : session) (expires : datetime) :
  NoDup (session_id <$> db) → r ∈ db →
  session_id r ≠ "" → access_token r ≠ "" →
  cookies request !! "session_id" = Some (session_id r) →
  cookies request !! "access_token" = Some (access_token r) →
  valid (sqlite_now (at_sweep h)) = true →
  valid expires = true → expires_at r = isoformat expires →
  date_ltb expires (sqlite_now (at_sweep h)) = false →
  gtb (now0 (at_call h)) expires = false →
  (remember_me r = false →
   is_Some (add (now1 (at_call h)) (timedelta_of 0 30))) →
  ∃ db', main_page users_fetchall request login_filter machine_type h db
         = (Http.MainPage
              {| Http.data := fetched users_fetchall login_filter machine_type;
                 Http.login_filter := login_filter;
                 Http.machine_type := machine_type;
                 Http.user_login := user_login r |}, db').
Proof.
  intros Hnd Hr Hsid Htok Hc1 Hc2 Hnow Hvalid Htext Hdate Hlive Hadd.
  unfold main_page, fetched. cbv zeta. rewrite Hc1, Hc2.
  change (default "" (Some (session_id r))) with (session_id r).
  change (default "" (Some (access_token r))) with (access_token r).
  set (swept := snd (cleanup_expired_sessions (at_sweep h) db)).
  assert (Hswept : r ∈ swept).
  { apply (cleanup_expired_sessions_by_date _ _ _ expires); done. }
  assert (Hnd' : NoDup (session_id <$> swept)) by by apply sweep_ids.
  pose proof (fromisoformat_isoformat expires Hvalid) as Hparse.
  rewrite validate_session_run, !falsy_false by assumption. cbn [orb].
  rewrite find_has_pair by assumption. rewrite Htext, Hparse, Hlive.
  destruct (users_query login_filter machine_type) as [query params].
  cbn [fst snd andb].
  destruct (remember_me r) eqn:Hrem; cbn [negb].
  - unfold touched. rewrite row_of_update, row_of_unique by done.
    cbn. rewrite Htext, Hparse. by eexists.
  - destruct (Hadd eq_refl) as [new_expires Hnew]. rewrite Hnew.
    unfold renewed, touched.
    rewrite !row_of_update, row_of_unique by done.
    cbn. rewrite fromisoformat_isoformat by (by eapply add_valid).
    by eexists.
Qed.

(** X16: [main_page] serves the page only to a request whose two cookies
    are the pair of a session stored before the call, whose [expires_at]
    reads as a datetime that the local clock has not passed; the page
    shows that session's [user_login] and the two filters as given, and its
    rows are what the query on [users] fetched, or none. *)
Theorem main_page_admits_only_stored_sessions
    (request : Request) (login_filter machine_type : string)
    (h : surroundings) (db : table) (context : Http.main_context) (db' : table) :
  main_page users_fetchall request login_filter machine_type h db
    = (Http.MainPage context, db') →
  ∃ r expires,
    r ∈ db
    ∧ cookies request !! "session_id" = Some (session_id r)
    ∧ cookies request !! "access_token" = Some (access_token r)
    ∧ session_id r ≠ "" ∧ access_token r ≠ ""
    ∧ fromisoformat (expires_at r) = Some expires
    ∧ gtb (now0 (at_call h)) expires = false
    ∧ Http.user_login context = user_login r
    ∧ Http.login_filter context = login_filter
    ∧ Http.machine_type context = machine_type
    ∧ (Http.data context = fetched users_fetchall login_filter machine_type
       ∨ Http.data context = []).
Proof.
  unfold main_page, fetched. cbv zeta.
  set (swept := snd (cleanup_expired_sessions (at_sweep h) db)).
  set (sid := default "" (cookies request !! "session_id")).
  set (token := default "" (cookies request !! "access_token")).
  destruct (validate_session sid token true (at_call h) swept)
    as [session_status db1] eqn:Hvalidate.
  destruct session_status as [reason autologin|uid login mail remember expires].
  { destruct autologin as [[mail [|]]|]; [|discriminate|discriminate].
    destruct (String.eqb reason "session_expired"); discriminate. }
  apply validate_session_valid_inv in Hvalidate
    as (Hsid & Htok & r & Hfind & Hparse & Hlive & _ & -> & _).
  apply find_elem_of in Hfind as [Hr Hpair].
  apply has_pair_true in Hpair as [Hid Hacc].
  apply cleanup_expired_sessions_subset in Hr.
  destruct (users_query login_filter machine_type) as [query params].
  intros [= <- _]. exists r, expires. cbn [fst snd].
  rewrite Hid, Hacc.
  split; [exact Hr|]. split; [by apply cookie_default|].
  split; [by apply cookie_default|].
  do 7 (split; [done|]). cbn.
  destruct (row_of sid db1) as [session_info|]; [|by left].
  destruct (fromisoformat (expires_at session_info)); [by left|by right].
Qed.

(** X17: in a table the program reached, [main_page] serves the page to
    every request whose two cookies are the pair of a stored session, when
    the calendar date of the session's expiry is not before the UTC date
    of the sweep, the local clock has not passed the expiry and, for a
    session without remember-me, [now + 30 minutes] is representable.  The
    page carries the session's [user_login] and the fetched rows. *)
Theorem main_page_admits_live_session
    (request : Request) (login_filter machine_type : string)
    (h : surroundings) (db : table) (r : session) (expires : datetime) :
  reachable db → r ∈ db →
  cookies request !! "session_id" = Some (session_id r) →
  cookies request !! "access_token" = Some (access_token r) →
  fromisoformat (expires_at r) = Some expires →
  valid (sqlite_now (at_sweep h)) = true →
  date_ltb expires (sqlite_now (at_sweep h)) = false →
  gtb (now0 (at_call h)) expires = false →
  (remember_me r = false →
   is_Some (add (now1 (at_call h)) (timedelta_of 0 30))) →
  fst (main_page users_fetchall request login_filter machine_type h db)
  = Http.MainPage
      {| Http.data := fetched users_fetchall login_filter machine_type;
         Http.login_filter := login_filter;
         Http.machine_type := machine_type;
         Http.user_login := user_login r |}.
Proof.
  intros Hreach Hr Hc1 Hc2 Hparse Hnow Hdate Hlive Hadd.
  destruct (reachable_table_ok db Hreach) as [Hids _].
  pose proof (reachable_rows_ok db Hreach) as Hrows.
  rewrite Forall_forall in Hrows.
  destruct (Hrows r Hr) as (Hsid & Htok & e & Hvalid & Htext).
  assert (e = expires) as ->.
  { rewrite Htext, fromisoformat_isoformat in Hparse by assumption.
    congruence. }
  destruct (main_page_valid request login_filter machine_type h db r expires)
    as [db' ->]; done.
Qed.

(** X18: whatever the local clock reads, [main_page] turns away the
    holder of a stored session once the UTC date of the sweep is past the
    calendar date of the session's expiry: the sweep has removed the row, the
    answer is the redirect to the login page that deletes the four session
    cookies, and the table is the swept one. *)
Theorem main_page_rejects_by_utc_date
    (request : Request) (login_filter machine_type : string)
    (h : surroundings) (db : table) (r : session) (expires : datetime) :
  reachable db → r ∈ db →
  cookies request !! "session_id" = Some (session_id r) →
  cookies request !! "access_token" = Some (access_token r) →
  fromisoformat (expires_at r) = Some expires →
  valid (sqlite_now (at_sweep h)) = true →
  date_ltb expires (sqlite_now (at_sweep h)) = true →
  main_page users_fetchall request login_filter machine_type h db
  = (Http.Redirect "/?error=Сессия+истекла.+Пожалуйста,+войдите+снова" 302 []
       ["session_id"; "access_token"; "user_login"; "remember_token"],
     snd (cleanup_expired_sessions (at_sweep h) db)).
Proof.
  intros Hreach Hr Hc1 Hc2 Hparse Hnow Hdate.
  destruct (reachable_table_ok db Hreach) as [Hids _].
  pose proof (reachable_rows_ok db Hreach) as Hrows.
  rewrite Forall_forall in Hrows.
  destruct (Hrows r Hr) as (Hsid & Htok & e & Hvalid & Htext).
  assert (e = expires) as ->.
  { rewrite Htext, fromisoformat_isoformat in Hparse by assumption.
    congruence. }
  unfold main_page. cbv zeta. rewrite Hc1, Hc2.
  change (default "" (Some (session_id r))) with (session_id r).
  change (default "" (Some (access_token r))) with (access_token r).
  rewrite validate_session_not_found; [reflexivity|assumption|assumption|].
  intros x Hx [Hid _].
  pose proof (cleanup_expired_sessions_subset _ _ _ Hx) as Hxdb.
  assert (x = r) as -> by by apply (distinct_ids_eq db).
  apply (cleanup_expired_sessions_by_date _ _ _ expires) in Hx
    as [_ Hkept]; [congruence|done..].
Qed.

(** X19: when [main_page] does not serve the page it redirects with status
    302 and sets no cookie.  Either the redirect is the plain one to the
    login page and deletes the four session cookies, or it carries
    [auto_email] and deletes none; the latter only for a request whose two
    cookies are the pair of a stored remember-me session that the local
    clock has passed, with that session's [email] in the URL and no row of
    that session id left in the table. *)
Theorem main_page_redirects
    (request : Request) (login_filter machine_type : string)
    (h : surroundings) (db : table)
    url status_code set_cookies delete_cookies (db' : table) :
  main_page users_fetchall request login_filter machine_type h db
    = (Http.Redirect url status_code set_cookies delete_cookies, db') →
  status_code = 302 ∧ set_cookies = []
  ∧ ((url = "/?error=Сессия+истекла.+Пожалуйста,+войдите+снова"
      ∧ delete_cookies
        = ["session_id"; "access_token"; "user_login"; "remember_token"])
     ∨ ∃ r expires,
         r ∈ db
         ∧ cookies request !! "session_id" = Some (session_id r)
         ∧ cookies request !! "access_token" = Some (access_token r)
         ∧ remember_me r = true
         ∧ fromisoformat (expires_at r) = Some expires
         ∧ gtb (now0 (at_call h)) expires = true
         ∧ url = "/?auto_email=" +:+ email r
                 +:+ "&auto_remember=true&error=Сессия+истекла.+Пожалуйста,+войдите+снова"
         ∧ delete_cookies = []
         ∧ ∀ r', r' ∈ db' → session_id r' ≠ session_id r).
Proof.
  unfold main_page. cbv zeta.
  set (swept := snd (cleanup_expired_sessions (at_sweep h) db)).
  set (sid := default "" (cookies request !! "session_id")).
  set (token := default "" (cookies request !! "access_token")).
  rewrite validate_session_run.
  destruct (PyStr.falsy sid) eqn:Hsid;
    [intros [= <- <- <- <- _]; split; [done|]; split; [done|]; by left|].
  destruct (PyStr.falsy token) eqn:Htok;
    [intros [= <- <- <- <- _]; split; [done|]; split; [done|]; by left|].
  cbn [orb]. apply falsy_false_inv in Hsid, Htok.
  destruct (List.find (has_pair sid token) swept) as [r|] eqn:Hfind;
    [|intros [= <- <- <- <- _]; split; [done|]; split; [done|]; by left].
  destruct (fromisoformat (expires_at r)) as [expires|] eqn:Hparse;
    [|intros [= <- <- <- <- _]; split; [done|]; split; [done|]; by left].
  destruct (gtb (now0 (at_call h)) expires) eqn:Hlive.
  - destruct (remember_me r) eqn:Hrem;
      [|intros [= <- <- <- <- _]; split; [done|]; split; [done|]; by left].
    change (String.eqb "session_expired" "session_expired") with true.
    cbv iota. intros [= <- <- <- <- <-].
    split; [done|]. split; [done|]. right.
    apply find_elem_of in Hfind as [Hr Hpair].
    apply has_pair_true in Hpair as [Hid Hacc].
    apply cleanup_expired_sessions_subset in Hr.
    exists r, expires. rewrite Hid, Hacc.
    split; [exact Hr|]. split; [by apply cookie_default|].
    split; [by apply cookie_default|].
    do 5 (split; [done|]).
    intros r' Hr'. by apply without_id_spec in Hr' as [_ ?].
  - destruct (true && negb (remember_me r)).
    + destruct (add (now1 (at_call h)) (timedelta_of 0 30));
        [|intros [= <- <- <- <- _]; split; [done|]; split; [done|]; by left].
      destruct (users_query login_filter machine_type). discriminate.
    + destruct (users_query login_filter machine_type). discriminate.
Qed.

(** *** [login], then [main_page] *)

(** X23: the cookies a redirect of [login] sets open the main page: on
    the table [login] left, [main_page] serves the page with the user's
    login to any later request that carries these cookies, when the
    calendar date of the new session's expiry is not before the UTC date of
    the sweep, the local clock has not passed the expiry and, without
    remember-me, [now + 30 minutes] is representable. *)
Theorem login_then_main_page (request : Request)
    (mail password remember : string) (h : surroundings) (db : table)
    url status_code set_cookies delete_cookies (db' : table)
    (user : User.row) (expires : datetime)
    (next : Request) (login_filter machine_type : string) (h' : surroundings) :
  table_ok db →
  login sha256_hexdigest users_auth_by_email request mail password remember
    h db
    = (Http.Redirect url status_code set_cookies delete_cookies, db') →
  users_auth_by_email mail = Returns (Some user) →
  add (now0 (at_call h)) (session_duration (String.eqb remember "on"))
    = Some expires →
  valid (sqlite_now (at_sweep h')) = true →
  date_ltb expires (sqlite_now (at_sweep h')) = false →
  gtb (now0 (at_call h')) expires = false →
  (String.eqb remember "on" = false →
   is_Some (add (now1 (at_call h')) (timedelta_of 0 30))) →
  fst (main_page users_fetchall (with_cookies set_cookies next)
         login_filter machine_type h' db')
  = Http.MainPage
      {| Http.data := fetched users_fetchall login_filter machine_type;
         Http.login_filter := login_filter;
         Http.machine_type := machine_type;
         Http.user_login := User.login user |}.
Proof.
  intros Hok Hrun Hdir Hadd Hnow Hdate Hlive Hrenew.
  rewrite login_run in Hrun. cbv zeta in Hrun.
  set (swept := snd (cleanup_expired_sessions (at_sweep h) db)) in *.
  destruct (can_set_session_cookies request); [|discriminate].
  destruct (_ || _ || _); [discriminate|].
  destruct (login_try _ _ _ _ _ _ _ _) as [[page|e] db1] eqn:Htry;
    [|discriminate].
  injection Hrun as -> ->.
  apply login_try_redirect in Htry
    as (user' & sid & token & max_age & Hdir' & _ & Hcreate & Hsid & Htok
        & _ & _ & _ & -> & _).
  assert (user' = user) as -> by congruence.
  assert (Hok' : table_ok db').
  { eapply create_session_success_table_ok; [|exact Hcreate].
    by apply cleanup_expired_sessions_table_ok. }
  apply create_session_success in Hcreate
    as (expires' & _ & Hadd' & -> & -> & _ & _ & ->).
  assert (expires' = expires) as -> by congruence.
  set (row := inserted_row (User.id user) (User.login user) mail request
                (String.eqb remember "on") (at_call h) expires) in *.
  destruct (login_cookies_lookup (token_urlsafe_32 (at_call h))
              (token_urlsafe_48 (at_call h)) (User.login user) mail
              (remember_token h) max_age
              (if String.eqb remember "on" then 30 * 24 * 60 * 60 else max_age)
              (30 * 24 * 60 * 60) (String.eqb remember "on") next)
    as (Hc1 & Hc2 & _).
  match goal with
  | |- context [main_page _ ?sent _ _ _ _] =>
      destruct (main_page_valid sent login_filter machine_type h'
                  (other_users (User.id user) swept ++ [row]) row expires)
        as [db'' ->]; try done
  end.
  - apply Hok'.
  - apply elem_of_app. right. left.
  - by eapply add_valid.
Qed.

End HandlerFacts.

(** X24: [login] consults neither the directory nor the hash before the
    consent gate and the form check have passed: when the gate is closed,
    or the email is empty or has no ["@"], or the password is empty, the
    answer is one and the same page whatever the directory holds, and the
    table is the swept one.  Without consent the page carries the consent
    message alone, however the form was filled in; with consent it carries
    the field errors and never shows the cookie banner. *)
Theorem login_refuses_before_lookup (request : Request)
    (mail password remember : string) (h : surroundings) (db : table) :
  can_set_session_cookies request = false
  ∨ mail = "" ∨ Py.contains "@" mail = false ∨ password = "" →
  ∃ context,
    (∀ sha256_hexdigest users_auth_by_email,
       login sha256_hexdigest users_auth_by_email request mail password
         remember h db
       = (Http.IndexPage context,
          snd (cleanup_expired_sessions (at_sweep h) db)))
    ∧ (can_set_session_cookies request = false →
       Http.error context ≠ None ∧ Http.email_error context = None
       ∧ Http.password_error context = None
       ∧ Http.show_cookie_banner context
         = negb (PyStr.startswith
                   (default "false" (cookies request !! "cookies_accepted"))
                   "selected:"))
    ∧ (can_set_session_cookies request = true →
       Http.error context = None ∧ Http.show_cookie_banner context = false
       ∧ (Http.email_error context ≠ None
          ↔ mail = "" ∨ Py.contains "@" mail = false)
       ∧ (Http.password_error context ≠ None ↔ password = "")).
Proof.
  intros Hrefused.
  destruct (can_set_session_cookies request) eqn:Hgate.
  - assert (Hform : PyStr.falsy mail || negb (Py.contains "@" mail)
                    || PyStr.falsy password = true).
    { apply not_false_iff_true. rewrite form_checked.
      intros (? & ? & ?). destruct Hrefused as [?|[?|[?|?]]]; congruence. }
    eexists. split; [|split; [done|intros _]].
    + intros sha256_hexdigest users_auth_by_email.
      rewrite login_run. cbv zeta. rewrite Hgate, Hform. reflexivity.
    + cbn. do 2 (split; [done|]). unfold PyStr.falsy.
      destruct (String.eqb_spec mail "") as [->|Hmail],
               (String.eqb_spec password "") as [->|Hpassword];
        cbn; try destruct (Py.contains "@" mail); cbn;
        (split; split; first [done | intros [?|?]; done | by left | by right
                              | intros _; done | idtac]).
  - eexists. split; [|split; [intros _|done]].
    + intros sha256_hexdigest users_auth_by_email.
      rewrite login_run. cbv zeta. rewrite Hgate. reflexivity.
    + cbn. done.
Qed.

(** X25: the query [main_page] runs on [users] is one of four fixed texts:
    the two filter values reach SQLite as bound parameters only, one for
    each ["?"] of the text, and a [machine_type] of ["all"] filters as
    little as an empty one. *)
Theorem users_query_parameterised (login_filter machine_type : string) :
  let '(query, params) := users_query login_filter machine_type in
  Py.count "?" query = length params
  ∧ query ∈ ["SELECT login, machine_name, machine_type FROM users WHERE 1=1";
             "SELECT login, machine_name, machine_type FROM users WHERE 1=1 AND login LIKE ?";
             "SELECT login, machine_name, machine_type FROM users WHERE 1=1 AND machine_type = ?";
             "SELECT login, machine_name, machine_type FROM users WHERE 1=1 AND login LIKE ? AND machine_type = ?"]
  ∧ (∀ p, p ∈ params →
          p = "%" +:+ login_filter +:+ "%" ∧ login_filter ≠ ""
          ∨ p = machine_type ∧ machine_type ≠ "" ∧ machine_type ≠ "all")
  ∧ users_query login_filter "all" = users_query login_filter "".
Proof.
  unfold users_query, PyStr.falsy.
  destruct (String.eqb_spec login_filter "") as [->|Hlogin],
           (String.eqb_spec machine_type "") as [->|Hmachine];
    cbn [negb andb];
    try destruct (String.eqb_spec machine_type "all") as [->|Hall];
    cbn [negb andb];
    (split; [vm_compute; reflexivity|]);
    (split; [rewrite !elem_of_cons; vm_compute; auto 6|]);
    (split; [|reflexivity]);
    intros p Hp; cbn in Hp;
    repeat (apply elem_of_cons in Hp as [->|Hp]; [by auto|]);
    by apply elem_of_nil in Hp.
Qed.

(** ** The handlers on sample requests *)

Lemma main_page_admits_only_stored_sessions_witness :
  let request := Sample.carrying "sid-A" "tok-A" in
  let h := Sample.visit "" "" (Sample.at_time 12 30 0) in
  main_page Sample.machines request "" "" h [Sample.bobs_session]
  = (Http.MainPage Sample.bobs_page, [Sample.bobs_session_visited])
  ∧ ∃ r expires,
      r ∈ [Sample.bobs_session]
      ∧ cookies request !! "session_id" = Some (session_id r)
      ∧ cookies request !! "access_token" = Some (access_token r)
      ∧ session_id r ≠ "" ∧ access_token r ≠ ""
      ∧ fromisoformat (expires_at r) = Some expires
      ∧ gtb (now0 (at_call h)) expires = false
      ∧ Http.user_login Sample.bobs_page = user_login r
      ∧ Http.login_filter Sample.bobs_page = ""
      ∧ Http.machine_type Sample.bobs_page = ""
      ∧ (Http.data Sample.bobs_page = fetched Sample.machines "" ""
         ∨ Http.data Sample.bobs_page = []).
Proof.
  split; [vm_compute; reflexivity|].
  apply (main_page_admits_only_stored_sessions Sample.machines
           (Sample.carrying "sid-A" "tok-A") "" ""
           (Sample.visit "" "" (Sample.at_time 12 30 0))
           [Sample.bobs_session] Sample.bobs_page
           [Sample.bobs_session_visited]).
  vm_compute; reflexivity.
Defined.

Lemma main_page_admits_live_session_witness :
  let db := snd (create_session 7 "bob" "bob@b.com"
                   (Sample.request_with "true") false
                   (Sample.drawing "sid-A" "tok-A" Sample.noon) []) in
  fst (main_page Sample.machines (Sample.carrying "sid-A" "tok-A") "" ""
         (Sample.visit "" "" (Sample.at_time 12 30 0)) db)
  = Http.MainPage
      {| Http.data := fetched Sample.machines "" "";
         Http.login_filter := ""; Http.machine_type := "";
         Http.user_login := user_login Sample.bobs_session |}.
Proof.
  apply (main_page_admits_live_session Sample.machines
           (Sample.carrying "sid-A" "tok-A") "" ""
           (Sample.visit "" "" (Sample.at_time 12 30 0)) _
           Sample.bobs_session (Sample.at_time 13 0 0)).
  - apply reach_create; [discriminate|discriminate|apply reach_init].
  - vm_compute. left.
  - vm_compute; reflexivity.
  - vm_compute; reflexivity.
  - vm_compute; reflexivity.
  - vm_compute; reflexivity.
  - vm_compute; reflexivity.
  - vm_compute; reflexivity.
  - intros _. vm_compute. eauto.
Defined.

Lemma main_page_rejects_by_utc_date_witness :
  let created :=
    {| token_urlsafe_32 := "sid-A"; token_urlsafe_48 := "tok-A";
       now0 := Sample.at_time 18 30 0; now1 := Sample.at_time 18 30 0;
       sqlite_now := Sample.at_time 23 30 0 |} in
  let db := snd (create_session 7 "bob" "bob@b.com"
                   (Sample.request_with "true") false created []) in
  expires_at <$> db = ["2024-05-01T19:30:00"]
  ∧ gtb (now0 (at_call Sample.evening)) (Sample.at_time 19 30 0) = false
  ∧ main_page Sample.machines (Sample.carrying "sid-A" "tok-A") "" ""
      Sample.evening db
    = (Http.Redirect "/?error=Сессия+истекла.+Пожалуйста,+войдите+снова" 302 []
         ["session_id"; "access_token"; "user_login"; "remember_token"],
       snd (cleanup_expired_sessions (at_sweep Sample.evening) db)).
Proof.
  split; [vm_compute; reflexivity|]. split; [vm_compute; reflexivity|].
  apply (main_page_rejects_by_utc_date Sample.machines
           (Sample.carrying "sid-A" "tok-A") "" "" Sample.evening _
           {| session_id := "sid-A"; user_id := 7; user_login := "bob";
              email := "bob@b.com"; access_token := "tok-A";
              created_at := "2024-05-01 23:30:00";
              last_activity := "2024-05-01 23:30:00";
              expires_at := "2024-05-01T19:30:00";
              ip_address := "192.0.2.10"; user_agent := "Mozilla/5.0";
              remember_me := false |}
           (Sample.at_time 19 30 0)).
  - apply reach_create; [discriminate|discriminate|apply reach_init].
  - vm_compute. left.
  - vm_compute; reflexivity.
  - vm_compute; reflexivity.
  - vm_compute; reflexivity.
  - vm_compute; reflexivity.
  - vm_compute; reflexivity.
Defined.

Lemma main_page_redirects_witness :
  let remembered := Sample.stored "sid-0" "tok-0" 7 "2024-05-01T11:00:00" true in
  let request := Sample.carrying "sid-0" "tok-0" in
  let h := Sample.visit "" "" Sample.noon in
  let url := "/?auto_email=a@b.com&auto_remember=true&error=Сессия+истекла.+Пожалуйста,+войдите+снова" in
  main_page Sample.machines request "" "" h [remembered]
  = (Http.Redirect url 302 [] [], [])
  ∧ (302 = 302 ∧ @nil Http.cookie = []
     ∧ ((url = "/?error=Сессия+истекла.+Пожалуйста,+войдите+снова"
         ∧ @nil string
           = ["session_id"; "access_token"; "user_login"; "remember_token"])
        ∨ ∃ r expires,
            r ∈ [remembered]
            ∧ cookies request !! "session_id" = Some (session_id r)
            ∧ cookies request !! "access_token" = Some (access_token r)
            ∧ remember_me r = true
            ∧ fromisoformat (expires_at r) = Some expires
            ∧ gtb (now0 (at_call h)) expires = true
            ∧ url = "/?auto_email=" +:+ email r
                    +:+ "&auto_remember=true&error=Сессия+истекла.+Пожалуйста,+войдите+снова"
            ∧ @nil string = []
            ∧ ∀ r', r' ∈ @nil session → session_id r' ≠ session_id r)).
Proof.
  split; [vm_compute; reflexivity|].
  apply (main_page_redirects Sample.machines
           (Sample.carrying "sid-0" "tok-0") "" ""
           (Sample.visit "" "" Sample.noon)
           [Sample.stored "sid-0" "tok-0" 7 "2024-05-01T11:00:00" true]
           "/?auto_email=a@b.com&auto_remember=true&error=Сессия+истекла.+Пожалуйста,+войдите+снова"
           302 [] [] []).
  vm_compute; reflexivity.
Defined.

Lemma login_issues_session_witness :
  let request := Sample.request_with "true" in
  let h := Sample.visit "sid-A" "tok-A" Sample.noon in
  login Sample.digest Sample.directory request "bob@b.com" "secret" "off" h []
  = (Http.Redirect "/main" 302 Sample.bobs_cookies [], [Sample.bobs_session])
  ∧ Http.key <$> Sample.bobs_cookies
    = ["session_id"; "access_token"; "user_login"; "user_email"]
  ∧ ∀ next,
      cookies (with_cookies Sample.bobs_cookies next) !! "session_id"
      = Some "sid-A"
      ∧ cookies (with_cookies Sample.bobs_cookies next) !! "access_token"
        = Some "tok-A"
      ∧ cookies (with_cookies Sample.bobs_cookies next) !! "user_email"
        = Some "bob@b.com".
Proof.
  assert (Hrun :
    login Sample.digest Sample.directory (Sample.request_with "true")
      "bob@b.com" "secret" "off" (Sample.visit "sid-A" "tok-A" Sample.noon) []
    = (Http.Redirect "/main" 302 Sample.bobs_cookies [],
       [Sample.bobs_session])) by (vm_compute; reflexivity).
  split; [exact Hrun|].
  destruct (login_issues_session _ _ _ _ _ _ _ _ _ _ _ _ _ Hrun)
    as (_ & _ & _ & _ & Hkeys & _ & Hvalues).
  split; [exact Hkeys|exact Hvalues].
Defined.

Lemma login_failure_table_witness :
  let request := Sample.request_with "true" in
  let h := Sample.visit "sid-A" "tok-A" Sample.noon in
  let old := Sample.stored "sid-0" "tok-0" 8 "2024-05-01T12:30:00" false in
  let context :=
    {| Http.error := Some "Ошибка сервера"; Http.email_error := None;
       Http.password_error := None;
       Http.email_value := "ivan@b.com"; Http.auto_remember := false;
       Http.show_cookie_banner := false |} in
  let db' := snd (login Sample.digest Sample.directory request "ivan@b.com"
                    "secret" "off" h [old]) in
  fst (login Sample.digest Sample.directory request "ivan@b.com" "secret"
         "off" h [old])
  = Http.IndexPage context
  ∧ session_id <$> db' = ["sid-A"]
  ∧ Http.email_value context = "ivan@b.com"
  ∧ Http.auto_remember context = String.eqb "off" "on"
  ∧ (Http.error context ≠ None ∨ Http.email_error context ≠ None
     ∨ Http.password_error context ≠ None)
  ∧ (db' = snd (cleanup_expired_sessions (at_sweep h) [old])
     ∨ ∃ user expires,
         Sample.directory "ivan@b.com" = Returns (Some user)
         ∧ User.password user = Sample.digest "secret"
         ∧ cookies_encodable h user "ivan@b.com" (String.eqb "off" "on")
           = false
         ∧ Http.error context = Some "Ошибка сервера"
         ∧ add (now0 (at_call h)) (session_duration (String.eqb "off" "on"))
           = Some expires
         ∧ db' = other_users (User.id user)
                   (snd (cleanup_expired_sessions (at_sweep h) [old]))
                 ++ [inserted_row (User.id user) (User.login user)
                       "ivan@b.com" request (String.eqb "off" "on")
                       (at_call h) expires]).
Proof.
  split; [vm_compute; reflexivity|]. split; [vm_compute; reflexivity|].
  apply (login_failure_table Sample.digest Sample.directory
           (Sample.request_with "true") "ivan@b.com" "secret" "off"
           (Sample.visit "sid-A" "tok-A" Sample.noon)
           [Sample.stored "sid-0" "tok-0" 8 "2024-05-01T12:30:00" false]).
  - discriminate.
  - discriminate.
  - vm_compute; reflexivity.
Defined.

Lemma login_then_main_page_witness :
  let request := Sample.request_with "true" in
  let h := Sample.visit "sid-A" "tok-A" Sample.noon in
  let h' := Sample.visit "" "" (Sample.at_time 12 30 0) in
  login Sample.digest Sample.directory request "bob@b.com" "secret" "off" h []
  = (Http.Redirect "/main" 302 Sample.bobs_cookies [], [Sample.bobs_session])
  ∧ fst (main_page Sample.machines
           (with_cookies Sample.bobs_cookies (Sample.request_with "true"))
           "" "" h' [Sample.bobs_session])
    = Http.MainPage
        {| Http.data := fetched Sample.machines "" "";
           Http.login_filter := ""; Http.machine_type := "";
           Http.user_login := "bob" |}.
Proof.
  split; [vm_compute; reflexivity|].
  apply (login_then_main_page Sample.digest Sample.directory Sample.machines
           (Sample.request_with "true") "bob@b.com" "secret" "off"
           (Sample.visit "sid-A" "tok-A" Sample.noon) []
           "/main" 302 Sample.bobs_cookies [] [Sample.bobs_session]
           {| User.id := 7; User.login := "bob";
              User.password := Sample.digest "secret" |}
           (Sample.at_time 13 0 0)
           (Sample.request_with "true") "" ""
           (Sample.visit "" "" (Sample.at_time 12 30 0))).
  - split; cbn; apply NoDup_nil_2.
  - vm_compute; reflexivity.
  - vm_compute; reflexivity.
  - vm_compute; reflexivity.
  - vm_compute; reflexivity.
  - vm_compute; reflexivity.
  - vm_compute; reflexivity.
  - intros _. vm_compute. eauto.
Defined.

Lemma login_refuses_before_lookup_witness :
  let request := Sample.request_with "false" in
  let h := Sample.visit "sid-A" "tok-A" Sample.noon in
  ∃ context,
    (∀ sha256_hexdigest users_auth_by_email,
       login sha256_hexdigest users_auth_by_email request "" "" "off" h []
       = (Http.IndexPage context,
          snd (cleanup_expired_sessions (at_sweep h) [])))
    ∧ (can_set_session_cookies request = false →
       Http.error context ≠ None ∧ Http.email_error context = None
       ∧ Http.password_error context = None
       ∧ Http.show_cookie_banner context
         = negb (PyStr.startswith
                   (default "false" (cookies request !! "cookies_accepted"))
                   "selected:"))
    ∧ (can_set_session_cookies request = true →
       Http.error context = None ∧ Http.show_cookie_banner context = false
       ∧ (Http.email_error context ≠ None
          ↔ "" = "" ∨ Py.contains "@" "" = false)
       ∧ (Http.password_error context ≠ None ↔ "" = "")).
Proof.
  apply (login_refuses_before_lookup (Sample.request_with "false") "" "" "off"
           (Sample.visit "sid-A" "tok-A" Sample.noon) []).
  left. vm_compute; reflexivity.
Defined.
